(** * terminaltext: a shallow embedding of [editor.hpp] / [editor.cpp]

    The development follows the source class by class: the C++ integer
    conversions the code relies on, the [std::string] and [std::vector]
    primitives it calls, then [SyntaxHighlighter], [Buffer],
    [PluginManager], [FileExplorer] and [Editor].  Rendering only writes to
    the terminal and is not part of the model. *)

From Stdlib Require Import ZArith Lia Ascii String.
From stdpp Require Import base option list strings.

Local Open Scope Z_scope.

(** ** Machine integers

    [int] is 32 bits wide and [size_t] 64 bits wide.  Values are carried as
    [Z]; the two conversions below are the wrap-arounds the code performs
    when an [int] meets a [size_t] (comparisons against [size()], indexing)
    and when a [size_t] or an [int] sum is stored into an [int]. *)

Definition int_min : Z := - 2 ^ 31.
Definition int_max : Z := 2 ^ 31 - 1.
Definition is_int (z : Z) : Prop := int_min <= z <= int_max.

Definition to_int (z : Z) : Z := (z + 2 ^ 31) mod 2 ^ 32 - 2 ^ 31.
Definition to_size_t (z : Z) : Z := z mod 2 ^ 64.

(** [v.size()] *)
Definition size {A : Type} (v : list A) : Z := Z.of_nat (length v).

(** No [std::vector] or [std::string] holds more than [PTRDIFF_MAX]
    elements. *)
Definition max_size : Z := 2 ^ 63 - 1.

(** ** Characters and strings

    [std::string] is a list of bytes.  Plain [char] is signed, so a byte
    above 127 promotes to a negative [int]. *)

Definition cstring : Type := list ascii.
Definition str (s : string) : cstring := list_ascii_of_string s.

Definition int_of_char (c : ascii) : Z :=
  let n := Z.of_N (N_of_ascii c) in
  if n <? 128 then n else n - 256.

Definition newline : ascii := ascii_of_nat 10.
Definition CR : ascii := ascii_of_nat 13.
Definition DEL : ascii := ascii_of_nat 127.

(** ** Outcomes

    A call either returns, leaves by a C++ exception, or has undefined
    behaviour (an iterator or index outside its container). *)

Inductive exn : Type := out_of_range.

Inductive outcome (A : Type) : Type :=
| Done (a : A)
| Throws (e : exn)
| Undefined.
Arguments Done {A} a.
Arguments Throws {A} e.
Arguments Undefined {A}.

Definition bind {A B : Type} (m : outcome A) (k : A -> outcome B) : outcome B :=
  match m with
  | Done a => k a
  | Throws e => Throws e
  | Undefined => Undefined
  end.

Declare Scope outcome_scope.
Delimit Scope outcome_scope with outcome.
Notation "x <- m ;; k" := (bind m (fun x => k))
  (at level 100, m at next level, right associativity) : outcome_scope.
Local Open Scope outcome_scope.

(** ** [std::string] and [std::vector] primitives

    Positions and counts are [size_t] values ([0 <= pos < 2^64]). *)

(** [s.insert(pos, 1, c)]: throws when [pos > size()]. *)
Definition str_insert (s : cstring) (pos : Z) (c : ascii) : outcome cstring :=
  if size s <? pos then Throws out_of_range
  else Done (take (Z.to_nat pos) s ++ c :: drop (Z.to_nat pos) s).

(** [s.erase(pos, n)]: throws when [pos > size()], removes
    [min(n, size() - pos)] characters. *)
Definition str_erase (s : cstring) (pos n : Z) : outcome cstring :=
  if size s <? pos then Throws out_of_range
  else
    let k := Z.min n (size s - pos) in
    Done (take (Z.to_nat pos) s ++ drop (Z.to_nat (pos + k)) s).

(** [s.substr(pos, n)]: throws when [pos > size()], copies
    [min(n, size() - pos)] characters; [None] stands for the default
    count [npos], which always reaches the end of the string. *)
Definition str_substr (s : cstring) (pos : Z) (n : option Z) : outcome cstring :=
  if size s <? pos then Throws out_of_range
  else
    let k := match n with
             | Some n => Z.min n (size s - pos)
             | None => size s - pos
             end in
    Done (take (Z.to_nat k) (drop (Z.to_nat pos) s)).

(** [v[i]] with [i] already converted to [size_type]; no bounds check. *)
Definition vec_index {A : Type} (v : list A) (i : Z) : outcome A :=
  if (0 <=? i) && (i <? size v) then
    match v !! Z.to_nat i with
    | Some x => Done x
    | None => Undefined
    end
  else Undefined.

(** [v[i] = x] *)
Definition vec_store {A : Type} (v : list A) (i : Z) (x : A) : outcome (list A) :=
  if (0 <=? i) && (i <? size v) then Done (<[Z.to_nat i := x]> v)
  else Undefined.

(** [v.insert(v.begin() + p, x)]: the iterator must lie in
    [[begin(), end()]]. *)
Definition vec_insert {A : Type} (v : list A) (p : Z) (x : A) : outcome (list A) :=
  if (0 <=? p) && (p <=? size v)
  then Done (take (Z.to_nat p) v ++ x :: drop (Z.to_nat p) v)
  else Undefined.

(** [v.erase(v.begin() + p)]: the iterator must be dereferenceable. *)
Definition vec_erase {A : Type} (v : list A) (p : Z) : outcome (list A) :=
  if (0 <=? p) && (p <? size v) then Done (delete (Z.to_nat p) v)
  else Undefined.

(** [std::getline(file, line)] on a stream with [s] left to read: fails
    when nothing is left, otherwise extracts up to the first newline (which
    it consumes) or up to the end. *)
Fixpoint cut_line (s : cstring) : cstring * cstring :=
  match s with
  | [] => ([], [])
  | c :: s' =>
      if Ascii.eqb c newline then ([], s')
      else let '(line, rest) := cut_line s' in (c :: line, rest)
  end.

Definition getline (s : cstring) : option (cstring * cstring) :=
  match s with
  | [] => None
  | _ => Some (cut_line s)
  end.

(** ** The outside world

    What the program reaches through [std::ifstream], [std::ofstream] and
    [std::filesystem]: for each path the bytes an input stream opened on it
    delivers ([None] when it cannot be opened), whether an output stream
    can be opened on it, and the entry names a directory iteration yields
    ([None] when it throws).  A file written through an output stream can
    be opened for reading afterwards. *)

Record World : Type := mkWorld {
  contents : cstring -> option cstring;
  writable : cstring -> bool;
  listing : cstring -> option (list cstring)
}.

Definition write_file (w : World) (path data : cstring) : World :=
  if writable w path then
    mkWorld (fun p => if decide (p = path) then Some data else contents w p)
            (writable w) (listing w)
  else w.

(** ** SyntaxHighlighter *)

(** A compiled [std::regex] is represented by its search function:
    [r s] is what [std::regex_search(first, last, match, r)] reports on the
    character range [s], namely [None] when it returns false and
    [Some (match.position(), match.length())] otherwise.  The search is
    called with default flags, so it sees nothing before [first]. *)
Definition regex : Type := cstring -> option (nat * nat).

Record HighlightRule : Type := mkRule {
  pattern : regex;
  color : cstring
}.

Definition SyntaxHighlighter : Type := list HighlightRule.

(** The escape byte and the reset sequence that closes a colored span. *)
Definition esc : ascii := ascii_of_nat 27.
Definition reset : cstring := esc :: str "[0m".

Module SyntaxHighlighter.

Definition addRule (rules : SyntaxHighlighter) (p : regex) (c : cstring)
  : SyntaxHighlighter :=
  rules ++ [mkRule p c].

(** The [while (std::regex_search(searchStart, temp.cend(), ...))] loop of
    one rule.  [rest] is the range from [searchStart] to [temp.cend()].
    The loop has no bound of its own, so the model counts iterations and
    answers [None] when [fuel] of them were not enough. *)
Fixpoint highlight_loop (fuel : nat) (rule : HighlightRule)
    (rest result : cstring) : option cstring :=
  match fuel with
  | O => None
  | S fuel' =>
      match pattern rule rest with
      | Some (pos, len) =>
          let result := result ++ take pos rest in
          let result := result ++ color rule in
          let result := result ++ take len (drop pos rest) in
          let result := result ++ reset in
          highlight_loop fuel' rule (drop (pos + len) rest) result
      | None => Some (result ++ rest)
      end
  end.

(** [SyntaxHighlighter::highlight]: the [for] loop over the rules. *)
Fixpoint highlight (fuel : nat) (rules : SyntaxHighlighter) (result : cstring)
  : option cstring :=
  match rules with
  | [] => Some result
  | rule :: rules' =>
      match highlight_loop fuel rule result [] with
      | Some result' => highlight fuel rules' result'
      | None => None
      end
  end.

End SyntaxHighlighter.

(** *** The contract of [highlight]

    The description of [highlight] speaks of the matches of a rule's
    pattern in the current string.  Whether a pattern matches at a place
    can depend on the text before that place: [^] matches only where the
    text starts, [\b] only with a word character on exactly one side.  A
    [matcher] is a pattern with that text in view: [m before rest] is the
    leftmost match of the pattern in [rest], as position and length, when
    [before] is what precedes [rest] in the string. *)
Definition matcher : Type := cstring -> regex.

(** The search [highlight] runs, [std::regex_search(searchStart,
    temp.cend(), match, rule.pattern)], passes no flags:
    [match_prev_avail] is not set, and the search takes [searchStart] for
    the start of the text. *)
Definition regex_search (m : matcher) : regex := m [].

(** A rule as it is registered: a pattern and a color escape. *)
Record PatternRule : Type := mkPatternRule {
  rule_matcher : matcher;
  rule_color : cstring
}.

(** The highlighter after one [addRule] call per rule, in order. *)
Definition register (rules : list PatternRule) : SyntaxHighlighter :=
  fold_left
    (fun h r => SyntaxHighlighter.addRule h (regex_search (rule_matcher r)) (rule_color r))
    rules [].

(** One rule cuts the current string, scanning left to right, into
    unmatched spans and non-overlapping matches of its pattern. *)
Inductive piece : Type :=
| Unmatched (s : cstring)
| Matched (s : cstring).

(** The pieces of [s], which stands after [before] in the string: the
    leftmost match in [s], then the pieces of what follows that match,
    which now stands after [before] and everything up to the end of the
    match.  At most [n] matches are cut off; a string of [k] characters
    holds at most [k] non-overlapping non-empty matches. *)
Fixpoint matches (n : nat) (m : matcher) (before s : cstring) : list piece :=
  match n with
  | O => [Unmatched s]
  | S n' =>
      match m before s with
      | None => [Unmatched s]
      | Some (pos, len) =>
          Unmatched (take pos s) :: Matched (take len (drop pos s))
            :: matches n' m (before ++ take (pos + len) s) (drop (pos + len) s)
      end
  end.

(** Matches are wrapped, spans are kept. *)
Definition paint (c : cstring) (p : piece) : cstring :=
  match p with
  | Unmatched s => s
  | Matched s => c ++ s ++ reset
  end.

(** The pieces are concatenated in order. *)
Definition colorize (r : PatternRule) (s : cstring) : cstring :=
  concat (paint (rule_color r) <$> matches (length s) (rule_matcher r) [] s).

(** Rules are folded in registration order, each over the output of the
    one before. *)
Definition highlight_spec (rules : list PatternRule) (line : cstring) : cstring :=
  fold_left (fun s r => colorize r s) rules line.

(** A search result lies inside the searched range and is not empty. *)
Definition proper (r : regex) : Prop :=
  forall s pos len, r s = Some (pos, len) ->
    (0 < len)%nat /\ (pos + len <= length s)%nat.

(** After a match, the search of the rest of the string finds the same
    with the text before it in view as without. *)
Definition restart_safe (m : matcher) : Prop :=
  forall before s pos len, m before s = Some (pos, len) ->
    m (before ++ take (pos + len) s) (drop (pos + len) s)
    = m [] (drop (pos + len) s).

(** Concrete searches.  The leftmost occurrence of a literal: *)
Fixpoint find_literal (lit s : cstring) : option nat :=
  if bool_decide (take (length lit) s = lit) then Some O
  else match s with
       | [] => None
       | _ :: s' => S <$> find_literal lit s'
       end.

Definition literal (lit : cstring) : regex :=
  fun s => (fun pos => (pos, length lit)) <$> find_literal lit s.

(** The empty pattern, which matches at the start of every range: *)
Definition empty_pattern : regex := fun _ => Some (O, O).

(** The matchers of the patterns [lit], [^lit] and the empty pattern: a
    literal matches wherever it occurs; [^] matches only where the text
    starts. *)
Definition anywhere (lit : cstring) : matcher := fun _ => literal lit.

Definition at_start (lit : cstring) : matcher :=
  fun before rest =>
    match before with
    | [] => if bool_decide (take (length lit) rest = lit)
            then Some (O, length lit) else None
    | _ :: _ => None
    end.

Definition empty_matcher : matcher := fun _ => empty_pattern.

(** The matcher of [\b(k1|k2|...)\b], the shape of the editor's keyword
    rule.  [\b] holds between two places of which exactly one is a word
    character ([A-Za-z0-9_]); the start and the end of the text count as
    no word character.  At each place the alternatives are tried in
    order. *)
Definition word_char (c : ascii) : bool :=
  let k := int_of_char c in
  ((48 <=? k) && (k <=? 57)) || ((65 <=? k) && (k <=? 90))
  || ((97 <=? k) && (k <=? 122)) || (k =? 95).

Definition is_word (c : option ascii) : bool := from_option word_char false c.

Definition word_boundary (prev next : option ascii) : bool :=
  xorb (is_word prev) (is_word next).

Fixpoint keyword_here (kws : list cstring) (prev : option ascii) (s : cstring)
  : option nat :=
  match kws with
  | [] => None
  | kw :: kws' =>
      if bool_decide (take (length kw) s = kw)
         && word_boundary prev (head s)
         && word_boundary (last (option_list prev ++ kw)) (head (drop (length kw) s))
      then Some (length kw)
      else keyword_here kws' prev s
  end.

Fixpoint find_keyword (kws : list cstring) (prev : option ascii) (s : cstring)
  : option (nat * nat) :=
  match keyword_here kws prev s with
  | Some len => Some (O, len)
  | None =>
      match s with
      | [] => None
      | c :: s' => prod_map S id <$> find_keyword kws (Some c) s'
      end
  end.

Definition keywords (kws : list cstring) : matcher :=
  fun before rest => find_keyword kws (last before) rest.

(** Keywords are non-empty runs of word characters. *)
Definition word (kw : cstring) : Prop :=
  kw <> [] /\ Forall (fun c => word_char c = true) kw.

(** ** Buffer *)

Record Buffer : Type := mkBuffer {
  lines : list cstring;
  filepath : cstring;
  modified : bool
}.

(** [Buffer()] *)
Definition Buffer_default : Buffer := mkBuffer [[]] [] false.

Module Buffer.

Definition insertChar (b : Buffer) (row col : Z) (c : ascii) : outcome Buffer :=
  if size (lines b) <=? to_size_t row then Done b
  else
    line <- vec_index (lines b) (to_size_t row) ;;
    line' <- str_insert line (to_size_t col) c ;;
    lines' <- vec_store (lines b) (to_size_t row) line' ;;
    Done (mkBuffer lines' (filepath b) true).

Definition deleteChar (b : Buffer) (row col : Z) : outcome Buffer :=
  if (size (lines b) <=? to_size_t row) || (col =? 0) then Done b
  else
    line <- vec_index (lines b) (to_size_t row) ;;
    line' <- str_erase line (to_size_t (to_int (col - 1))) 1 ;;
    lines' <- vec_store (lines b) (to_size_t row) line' ;;
    Done (mkBuffer lines' (filepath b) true).

Definition insertLine (b : Buffer) (row : Z) : outcome Buffer :=
  if size (lines b) <? to_size_t row then Done b
  else
    lines' <- vec_insert (lines b) (row + 1) [] ;;
    Done (mkBuffer lines' (filepath b) true).

Definition deleteLine (b : Buffer) (row : Z) : outcome Buffer :=
  if size (lines b) <=? 1 then Done b
  else
    lines' <- vec_erase (lines b) row ;;
    Done (mkBuffer lines' (filepath b) true).

Definition getLine (b : Buffer) (row : Z) : outcome cstring :=
  if size (lines b) <=? to_size_t row then Done []
  else vec_index (lines b) (to_size_t row).

Definition getLineCount (b : Buffer) : Z := to_int (size (lines b)).
Definition isModified (b : Buffer) : bool := modified b.

(** [file << line << '\n'] for every line. *)
Definition file_image (ls : list cstring) : cstring :=
  fold_left (fun out line => out ++ line ++ [newline]) ls [].

Definition save (w : World) (b : Buffer) : World * Buffer :=
  (write_file w (filepath b) (file_image (lines b)),
   mkBuffer (lines b) (filepath b) false).

(** [while (std::getline(file, line)) lines.push_back(line);] where each
    successful [getline] consumes at least one byte, so [fuel] above the
    stream length is never used up. *)
Fixpoint load_loop (fuel : nat) (stream : cstring) (ls : list cstring)
  : list cstring :=
  match fuel with
  | O => ls
  | S fuel' =>
      match getline stream with
      | Some (line, rest) => load_loop fuel' rest (ls ++ [line])
      | None => ls
      end
  end.

Definition load (w : World) (b : Buffer) : Buffer :=
  match contents w (filepath b) with
  | None => mkBuffer [[]] (filepath b) (modified b)
  | Some data =>
      let ls := load_loop (S (length data)) data [] in
      let ls := if bool_decide (ls = []) then [[]] else ls in
      mkBuffer ls (filepath b) (modified b)
  end.

End Buffer.

(** [Buffer(path)] *)
Definition Buffer_open (w : World) (path : cstring) : Buffer :=
  Buffer.load w (mkBuffer [] path false).

(** Sequences of line-count changing calls on one buffer. *)
Inductive buffer_op : Type :=
| InsertLine (row : Z)
| DeleteLine (row : Z)
| Load (w : World).

Definition apply_op (b : Buffer) (op : buffer_op) : outcome Buffer :=
  match op with
  | InsertLine row => Buffer.insertLine b row
  | DeleteLine row => Buffer.deleteLine b row
  | Load w => Done (Buffer.load w b)
  end.

Fixpoint run (ops : list buffer_op) (b : Buffer) : outcome Buffer :=
  match ops with
  | [] => Done b
  | op :: ops' => b' <- apply_op b op ;; run ops' b'
  end.

(** The row of a line operation indexes a line of the buffer. *)
Definition op_in_range (b : Buffer) (op : buffer_op) : Prop :=
  match op with
  | InsertLine row | DeleteLine row => is_int row /\ 0 <= row < size (lines b)
  | Load _ => True
  end.

(** ** PluginManager

    Plugins are objects with overridable hooks; what the manager does is
    call one hook on every registered plugin.  The registry is the list of
    registered names in the iteration order of the [std::map], and
    [delivered] records every hook call made so far, oldest first. *)

Inductive notification : Type :=
| KeyPress (key : Z)
| BufferChange.

Record PluginManager : Type := mkPluginManager {
  plugins : list cstring;
  delivered : list (cstring * notification)
}.

Module PluginManager.

Definition notify (pm : PluginManager) (n : notification) : PluginManager :=
  mkPluginManager (plugins pm)
    (delivered pm ++ ((fun name => (name, n)) <$> plugins pm)).

Definition notifyKeyPress (pm : PluginManager) (key : Z) : PluginManager :=
  notify pm (KeyPress key).

Definition notifyBufferChange (pm : PluginManager) : PluginManager :=
  notify pm BufferChange.

End PluginManager.

(** ** FileExplorer *)

Record FileExplorer : Type := mkFileExplorer {
  files : list cstring;
  selectedIndex : Z
}.

Module FileExplorer.

Definition scanDirectory (w : World) (fe : FileExplorer) (path : cstring)
  : FileExplorer :=
  mkFileExplorer (default [] (listing w path)) (selectedIndex fe).

Definition moveSelection (fe : FileExplorer) (delta : Z) : FileExplorer :=
  let sel := to_int (selectedIndex fe + delta) in
  let sel := if sel <? 0 then 0 else sel in
  let sel := if size (files fe) <=? to_size_t sel
             then to_int (to_size_t (size (files fe) - 1)) else sel in
  mkFileExplorer (files fe) sel.

Definition getSelected (fe : FileExplorer) : outcome cstring :=
  if to_size_t (selectedIndex fe) <? size (files fe)
  then vec_index (files fe) (to_size_t (selectedIndex fe))
  else Done [].

End FileExplorer.

(** ** Editor *)

Record Editor : Type := mkEditor {
  buffers : list Buffer;
  currentBuffer : Z;
  cursorRow : Z;
  cursorCol : Z;
  rowOffset : Z;
  colOffset : Z;
  statusMessage : cstring;
  commandBuffer : cstring;
  commandMode : bool;
  running : bool;
  highlighter : SyntaxHighlighter;
  pluginManager : PluginManager;
  fileExplorer : FileExplorer;
  showExplorer : bool
}.

Definition set_buffers (e : Editor) (bs : list Buffer) (cur : Z) : Editor :=
  mkEditor bs cur (cursorRow e) (cursorCol e) (rowOffset e) (colOffset e)
    (statusMessage e) (commandBuffer e) (commandMode e) (running e)
    (highlighter e) (pluginManager e) (fileExplorer e) (showExplorer e).

Definition set_cursor (e : Editor) (row col : Z) : Editor :=
  mkEditor (buffers e) (currentBuffer e) row col (rowOffset e) (colOffset e)
    (statusMessage e) (commandBuffer e) (commandMode e) (running e)
    (highlighter e) (pluginManager e) (fileExplorer e) (showExplorer e).

Definition set_statusMessage (e : Editor) (msg : cstring) : Editor :=
  mkEditor (buffers e) (currentBuffer e) (cursorRow e) (cursorCol e)
    (rowOffset e) (colOffset e) msg (commandBuffer e) (commandMode e)
    (running e) (highlighter e) (pluginManager e) (fileExplorer e)
    (showExplorer e).

Definition set_command (e : Editor) (mode : bool) (buf : cstring) : Editor :=
  mkEditor (buffers e) (currentBuffer e) (cursorRow e) (cursorCol e)
    (rowOffset e) (colOffset e) (statusMessage e) buf mode (running e)
    (highlighter e) (pluginManager e) (fileExplorer e) (showExplorer e).

Definition set_running (e : Editor) (r : bool) : Editor :=
  mkEditor (buffers e) (currentBuffer e) (cursorRow e) (cursorCol e)
    (rowOffset e) (colOffset e) (statusMessage e) (commandBuffer e)
    (commandMode e) r (highlighter e) (pluginManager e) (fileExplorer e)
    (showExplorer e).

Definition set_pluginManager (e : Editor) (pm : PluginManager) : Editor :=
  mkEditor (buffers e) (currentBuffer e) (cursorRow e) (cursorCol e)
    (rowOffset e) (colOffset e) (statusMessage e) (commandBuffer e)
    (commandMode e) (running e) (highlighter e) pm (fileExplorer e)
    (showExplorer e).

Definition set_explorer (e : Editor) (fe : FileExplorer) (shown : bool) : Editor :=
  mkEditor (buffers e) (currentBuffer e) (cursorRow e) (cursorCol e)
    (rowOffset e) (colOffset e) (statusMessage e) (commandBuffer e)
    (commandMode e) (running e) (highlighter e) (pluginManager e) fe shown.

Module Editor.

(** [getCurrentBuffer()] is [*buffers[currentBuffer]]; the two functions
    below read and write through that reference. *)
Definition getCurrentBuffer (e : Editor) : outcome Buffer :=
  vec_index (buffers e) (to_size_t (currentBuffer e)).

Definition putCurrentBuffer (e : Editor) (b : Buffer) : outcome Editor :=
  bs <- vec_store (buffers e) (to_size_t (currentBuffer e)) b ;;
  Done (set_buffers e bs (currentBuffer e)).

Definition insertChar (e : Editor) (c : ascii) : outcome Editor :=
  b <- getCurrentBuffer e ;;
  b' <- Buffer.insertChar b (cursorRow e) (cursorCol e) c ;;
  e <- putCurrentBuffer e b' ;;
  let e := set_cursor e (cursorRow e) (to_int (cursorCol e + 1)) in
  Done (set_pluginManager e (PluginManager.notifyBufferChange (pluginManager e))).

Definition deleteChar (e : Editor) : outcome Editor :=
  if 0 <? cursorCol e then
    b <- getCurrentBuffer e ;;
    b' <- Buffer.deleteChar b (cursorRow e) (cursorCol e) ;;
    e <- putCurrentBuffer e b' ;;
    let e := set_cursor e (cursorRow e) (to_int (cursorCol e - 1)) in
    Done (set_pluginManager e (PluginManager.notifyBufferChange (pluginManager e)))
  else Done e.

(** [Buffer::getLine] returns its [std::string] by value, so [line] names
    a copy of the current line: [rest] and the shortened [line] are locals
    that nothing reads afterwards, and the buffer only sees [Buffer.insertLine]. *)
Definition newLine (e : Editor) : outcome Editor :=
  b <- getCurrentBuffer e ;;
  line <- Buffer.getLine b (cursorRow e) ;;
  rest <- str_substr line (to_size_t (cursorCol e)) None ;;
  line <- str_substr line 0 (Some (to_size_t (cursorCol e))) ;;
  b' <- Buffer.insertLine b (cursorRow e) ;;
  e <- putCurrentBuffer e b' ;;
  let e := set_cursor e (to_int (cursorRow e + 1)) 0 in
  Done (set_pluginManager e (PluginManager.notifyBufferChange (pluginManager e))).

Definition openFile (w : World) (e : Editor) (path : cstring) : Editor :=
  let bs := buffers e ++ [Buffer_open w path] in
  let e := set_buffers e bs (to_int (to_size_t (size bs - 1))) in
  set_cursor e 0 0.

Definition saveFile (w : World) (e : Editor) : outcome (World * Editor) :=
  b <- getCurrentBuffer e ;;
  let '(w', b') := Buffer.save w b in
  e <- putCurrentBuffer e b' ;;
  Done (w', set_statusMessage e (str "File saved")).

Definition quit (e : Editor) : outcome Editor :=
  b <- getCurrentBuffer e ;;
  if Buffer.isModified b
  then Done (set_statusMessage e (str "Unsaved changes! Use :q! to force quit"))
  else Done (set_running e false).

Definition executeCommand (w : World) (e : Editor) (cmd : cstring)
  : outcome (World * Editor) :=
  if bool_decide (cmd = str "q") then
    e <- quit e ;; Done (w, e)
  else if bool_decide (cmd = str "w") then saveFile w e
  else if bool_decide (cmd = str "wq") then
    saved <- saveFile w e ;;
    e <- quit (snd saved) ;; Done (fst saved, e)
  else
    head <- str_substr cmd 0 (Some 2) ;;
    if bool_decide (head = str "e ") then
      path <- str_substr cmd 2 None ;;
      Done (w, openFile w e path)
    else if bool_decide (cmd = str "explorer") then
      Done (w, set_explorer e (FileExplorer.scanDirectory w (fileExplorer e) (str "."))
                 (negb (showExplorer e)))
    else Done (w, set_statusMessage e (str "Unknown command: " ++ cmd)).

(** [processKeypress]; [input] is what [read(STDIN_FILENO, &c, 1)]
    delivered, [None] when it did not return one byte. *)
Definition processKeypress (w : World) (e : Editor) (input : option ascii)
  : outcome (World * Editor) :=
  match input with
  | None => Done (w, e)
  | Some c =>
      let k := int_of_char c in
      if commandMode e then
        if k =? 13 then
          done <- executeCommand w e (commandBuffer e) ;;
          Done (fst done, set_command (snd done) false [])
        else if k =? 27 then Done (w, set_command e false [])
        else if k =? 127 then
          Done (w, set_command e true
                     (take (length (commandBuffer e) - 1)%nat (commandBuffer e)))
        else Done (w, set_command e true (commandBuffer e ++ [c]))
      else
        let e := set_pluginManager e (PluginManager.notifyKeyPress (pluginManager e) k) in
        if k =? 58 then Done (w, set_command e true (commandBuffer e))
        else if k =? 27 then Done (w, e)
        else if k =? 127 then e <- deleteChar e ;; Done (w, e)
        else if k =? 13 then e <- newLine e ;; Done (w, e)
        else if (32 <=? k) && (k <=? 126) then
          e <- insertChar e c ;; Done (w, e)
        else Done (w, e)
  end.

End Editor.

(** [Editor()], apart from entering raw mode. *)
Definition Editor_new (rules : SyntaxHighlighter) : Editor :=
  mkEditor [Buffer_default] 0 0 0 0 0 [] [] false true rules
    (mkPluginManager [] []) (mkFileExplorer [] 0) false.

(** ** Sessions

    Worlds and key sequences on which the model is run. *)

(** Keys fed to [Editor.processKeypress] one after the other, as [run] does
    between two renderings. *)
Fixpoint press (w : World) (e : Editor) (keys : cstring)
  : outcome (World * Editor) :=
  match keys with
  | [] => Done (w, e)
  | c :: keys' =>
      st <- Editor.processKeypress w e (Some c) ;;
      press (fst st) (snd st) keys'
  end.

(** A world without files in which every path can be written. *)
Definition scratch_world : World :=
  mkWorld (fun _ => None) (fun _ => true) (fun _ => None).

(** A session for [Editor.newLine]: the file [f] holds the single line [ab]; the
    user opens it with [:e f], types [x] and presses Enter with the cursor
    between [x] and [ab]. *)
Definition one_file_world : World :=
  mkWorld (fun p => if bool_decide (p = str "f")
                    then Some (str "ab" ++ [newline]) else None)
          (fun _ => true) (fun _ => None).

Definition split_session : cstring :=
  str ":e f" ++ [CR] ++ str "x" ++ [CR].

Definition view (r : outcome (World * Editor))
  : option (list cstring * Z * Z) :=
  match r with
  | Done (_, e) =>
      match Editor.getCurrentBuffer e with
      | Done b => Some (lines b, cursorRow e, cursorCol e)
      | _ => None
      end
  | _ => None
  end.

(** ** Auxiliary notions for the properties *)

(** [data] with a newline added at the end unless it already ends in
    one. *)
Definition with_final_newline (data : cstring) : cstring :=
  match last data with
  | Some c => if Ascii.eqb c newline then data else data ++ [newline]
  | None => data ++ [newline]
  end.

(** A key that insert mode puts into the buffer: a printable ASCII byte
    other than the colon, which opens the command line instead. *)
Definition insertable (c : ascii) : bool :=
  let k := int_of_char c in
  (32 <=? k) && (k <=? 126) && negb (k =? 58).

(** The cursor sits on a line of the current buffer, between column 0 and
    the end of that line; the lines of the current buffer hold no newline
    byte; and the number of buffers, the number of lines of the current
    buffer and the length of each of its lines are at most [N]. *)
Definition cursor_ok (N : Z) (e : Editor) : Prop :=
  exists b line,
    0 <= currentBuffer e /\
    buffers e !! Z.to_nat (currentBuffer e) = Some b /\
    0 <= cursorRow e /\
    lines b !! Z.to_nat (cursorRow e) = Some line /\
    0 <= cursorCol e <= size line /\
    size (buffers e) <= N /\
    size (lines b) <= N /\
    Forall (fun l => (newline ∉ l) /\ size l <= N) (lines b).

(** Every file of the world loads into at most [N] lines of at most [N]
    bytes each. *)
Definition files_ok (N : Z) (w : World) : Prop :=
  forall path,
    size (lines (Buffer_open w path)) <= N /\
    Forall (fun l => size l <= N) (lines (Buffer_open w path)).

(** The cursor of [e] sits on [line], a line of the current buffer [b],
    and the indices involved fit an [int]. *)
Definition cursor_at (e : Editor) (b : Buffer) (line : cstring) : Prop :=
  0 <= currentBuffer e /\
  buffers e !! Z.to_nat (currentBuffer e) = Some b /\
  size (buffers e) <= int_max /\
  0 <= cursorRow e /\
  lines b !! Z.to_nat (cursorRow e) = Some line /\
  size (lines b) <= int_max /\
  0 <= cursorCol e <= size line /\
  cursorCol e <= int_max.

(** The hook calls one notification makes, one per registered plugin. *)
Definition calls (pm : PluginManager) (n : notification)
  : list (cstring * notification) :=
  (fun name => (name, n)) <$> plugins pm.

(** The editor after an edit of the cursor line: the line is replaced by
    [l] in the current buffer, which becomes modified, the cursor moves to
    column [col] and the plugins are told of a buffer change. *)
Definition edit_line (e : Editor) (b : Buffer) (l : cstring) (col : Z) : Editor :=
  let b' := mkBuffer (<[Z.to_nat (cursorRow e) := l]> (lines b)) (filepath b) true in
  let e1 := set_buffers e (<[Z.to_nat (currentBuffer e) := b']> (buffers e))
              (currentBuffer e) in
  let e2 := set_cursor e1 (cursorRow e) col in
  set_pluginManager e2 (PluginManager.notifyBufferChange (pluginManager e)).

(** A key that command mode appends to the command line: any byte other
    than Enter, Escape and DEL. *)
Definition command_char (c : ascii) : bool :=
  let k := int_of_char c in
  negb (k =? 13) && negb (k =? 27) && negb (k =? 127).

(** From [e] to [e'] no buffer was dropped and every buffer of [e] other
    than its current one is still there, unchanged. *)
Definition others_kept (e e' : Editor) : Prop :=
  (length (buffers e) <= length (buffers e'))%nat /\
  forall i : nat,
    i <> Z.to_nat (to_size_t (currentBuffer e)) ->
    (i < length (buffers e))%nat ->
    buffers e' !! i = buffers e !! i.

(** The insert-mode keys after which the plugins are told of a buffer
    change: DEL with the cursor past column 0, Enter, and the keys that are
    inserted. *)
Definition announces_change (e : Editor) (c : ascii) : bool :=
  let k := int_of_char c in
  ((k =? 127) && (0 <? cursorCol e)) || (k =? 13) || insertable c.

(** * Properties *)

(** ** Integer conversions *)

(** [settle t v] replaces the comparison [t] by its value [v], which
    linear arithmetic over the hypotheses decides. *)
Ltac settle t v :=
  replace t with v
    by (symmetry;
        first [ apply Z.leb_le | apply Z.leb_gt | apply Z.ltb_lt
              | apply Z.ltb_ge | apply Z.eqb_neq | apply Z.eqb_eq ];
        lia).

Lemma size_nonneg {A : Type} (v : list A) : 0 <= size v.
Proof. unfold size. lia. Qed.

Lemma size_app {A : Type} (u v : list A) : size (u ++ v) = size u + size v.
Proof. unfold size. rewrite length_app. lia. Qed.

Lemma to_size_t_small (z : Z) : 0 <= z < 2 ^ 64 -> to_size_t z = z.
Proof. intros H. unfold to_size_t. now apply Z.mod_small. Qed.

Lemma to_size_t_int (z : Z) : is_int z -> 0 <= z -> to_size_t z = z.
Proof.
  unfold is_int, int_min, int_max. intros H H0.
  apply to_size_t_small. lia.
Qed.

Lemma to_size_t_negative (z : Z) :
  is_int z -> z < 0 -> to_size_t z = z + 2 ^ 64.
Proof.
  unfold is_int, int_min, int_max, to_size_t. intros H H0.
  symmetry. apply (Z.mod_unique _ _ (-1)); lia.
Qed.

Lemma to_int_is_int (z : Z) : is_int (to_int z).
Proof.
  unfold is_int, int_min, int_max, to_int.
  pose proof (Z.mod_pos_bound (z + 2 ^ 31) (2 ^ 32)). lia.
Qed.

Lemma to_int_small (z : Z) : is_int z -> to_int z = z.
Proof.
  unfold is_int, int_min, int_max, to_int. intros H.
  rewrite Z.mod_small; lia.
Qed.

(** The test [row >= v.size()] compares as [size_t]: it lets through
    exactly the rows that index the vector. *)
Lemma row_guard {A : Type} (v : list A) (row : Z) :
  is_int row -> size v <= max_size ->
  (size v <=? to_size_t row) = negb ((0 <=? row) && (row <? size v)).
Proof.
  intros Hrow Hsz. unfold max_size in Hsz.
  destruct (Z.leb_spec 0 row) as [H0 | H0]; simpl.
  - rewrite to_size_t_int by assumption.
    destruct (Z.leb_spec (size v) row), (Z.ltb_spec row (size v)); simpl; lia.
  - rewrite to_size_t_negative by assumption.
    unfold is_int, int_min in Hrow. apply Z.leb_le. lia.
Qed.

Lemma above_guard {A : Type} (v : list A) (row : Z) :
  is_int row -> size v <= max_size ->
  (size v <? to_size_t row) = negb ((0 <=? row) && (row <=? size v)).
Proof.
  intros Hrow Hsz. unfold max_size in Hsz.
  destruct (Z.leb_spec 0 row) as [H0 | H0]; simpl.
  - rewrite to_size_t_int by assumption.
    destruct (Z.ltb_spec (size v) row), (Z.leb_spec row (size v)); simpl; lia.
  - rewrite to_size_t_negative by assumption.
    unfold is_int, int_min in Hrow. apply Z.ltb_lt. lia.
Qed.

(** ** Container primitives *)

Lemma lookup_size {A : Type} (v : list A) (i : nat) (x : A) :
  v !! i = Some x -> 0 <= Z.of_nat i < size v.
Proof. intros H. apply lookup_lt_Some in H. unfold size. lia. Qed.

Lemma vec_index_lookup {A : Type} (v : list A) (i : Z) (x : A) :
  0 <= i -> v !! Z.to_nat i = Some x -> vec_index v i = Done x.
Proof.
  intros Hi Hx. unfold vec_index.
  pose proof (lookup_size _ _ _ Hx) as Hlt. rewrite Z2Nat.id in Hlt by assumption.
  settle (0 <=? i) true.
  settle (i <? size v) true.
  simpl. now rewrite Hx.
Qed.

Lemma vec_store_lookup {A : Type} (v : list A) (i : Z) (x y : A) :
  0 <= i -> v !! Z.to_nat i = Some x ->
  vec_store v i y = Done (<[Z.to_nat i := y]> v).
Proof.
  intros Hi Hx. unfold vec_store.
  pose proof (lookup_size _ _ _ Hx) as Hlt. rewrite Z2Nat.id in Hlt by assumption.
  settle (0 <=? i) true.
  settle (i <? size v) true.
  reflexivity.
Qed.

Lemma str_insert_in_range (s : cstring) (pos : Z) (c : ascii) :
  0 <= pos <= size s ->
  str_insert s pos c
  = Done (take (Z.to_nat pos) s ++ c :: drop (Z.to_nat pos) s).
Proof.
  intros H. unfold str_insert.
  settle (size s <? pos) false.
  reflexivity.
Qed.

Lemma str_erase_inserted (s : cstring) (pos : Z) (c : ascii) :
  0 <= pos <= size s ->
  str_erase (take (Z.to_nat pos) s ++ c :: drop (Z.to_nat pos) s) pos 1
  = Done s.
Proof.
  intros H. unfold str_erase.
  set (s' := take (Z.to_nat pos) s ++ c :: drop (Z.to_nat pos) s).
  assert (Hlen : size s' = size s + 1).
  { unfold s', size in *. rewrite length_app, length_take. simpl.
    rewrite length_drop. lia. }
  settle (size s' <? pos) false.
  rewrite Z.min_l by lia. f_equal. unfold s'.
  assert (Hn : length (take (Z.to_nat pos) s) = Z.to_nat pos).
  { rewrite length_take. unfold size in H. lia. }
  rewrite take_app_length' by (symmetry; exact Hn).
  replace (Z.to_nat (pos + 1)) with (length (take (Z.to_nat pos) s) + 1)%nat
    by (rewrite Hn; lia).
  rewrite drop_app_add. simpl. rewrite drop_0. apply take_drop.
Qed.

(** ** Buffer: character operations *)

Lemma row_passes_guard {A : Type} (v : list A) (r : Z) (x : A) :
  is_int r -> 0 <= r -> v !! Z.to_nat r = Some x ->
  to_size_t r = r /\ (size v <=? r) = false.
Proof.
  intros Hr H0 Hx. split; [now apply to_size_t_int |].
  pose proof (lookup_size _ _ _ Hx) as Hlt. rewrite Z2Nat.id in Hlt by assumption.
  apply Z.leb_gt. lia.
Qed.

Lemma insertChar_row (b : Buffer) (r col : Z) (c : ascii) (line : cstring) :
  is_int r -> 0 <= r -> lines b !! Z.to_nat r = Some line ->
  Buffer.insertChar b r col c
  = (line' <- str_insert line (to_size_t col) c ;;
     Done (mkBuffer (<[Z.to_nat r := line']> (lines b)) (filepath b) true)).
Proof.
  intros Hr H0 Hline. unfold Buffer.insertChar.
  destruct (row_passes_guard _ _ _ Hr H0 Hline) as [-> ->].
  rewrite (vec_index_lookup _ _ _ H0 Hline). simpl.
  destruct (str_insert line (to_size_t col) c); simpl; try reflexivity.
  now rewrite (vec_store_lookup _ _ _ _ H0 Hline).
Qed.

Lemma deleteChar_row (b : Buffer) (r col : Z) (line : cstring) :
  is_int r -> 0 <= r -> lines b !! Z.to_nat r = Some line -> col <> 0 ->
  Buffer.deleteChar b r col
  = (line' <- str_erase line (to_size_t (to_int (col - 1))) 1 ;;
     Done (mkBuffer (<[Z.to_nat r := line']> (lines b)) (filepath b) true)).
Proof.
  intros Hr H0 Hline Hcol. unfold Buffer.deleteChar.
  destruct (row_passes_guard _ _ _ Hr H0 Hline) as [-> ->].
  settle (col =? 0) false.
  simpl. rewrite (vec_index_lookup _ _ _ H0 Hline). simpl.
  destruct (str_erase line _ 1); simpl; try reflexivity.
  now rewrite (vec_store_lookup _ _ _ _ H0 Hline).
Qed.

Lemma getLine_row (b : Buffer) (r : Z) (line : cstring) :
  is_int r -> 0 <= r -> lines b !! Z.to_nat r = Some line ->
  Buffer.getLine b r = Done line.
Proof.
  intros Hr H0 Hline. unfold Buffer.getLine.
  destruct (row_passes_guard _ _ _ Hr H0 Hline) as [-> ->].
  now apply vec_index_lookup.
Qed.

(** The column is not checked: outside the line it makes
    [std::string::insert] throw. *)
Lemma insertChar_col_out_of_range
    (b : Buffer) (r col : Z) (c : ascii) (line : cstring) :
  is_int r -> is_int col ->
  0 <= r -> lines b !! Z.to_nat r = Some line ->
  size line <= max_size ->
  ~ (0 <= col <= size line) ->
  Buffer.insertChar b r col c = Throws out_of_range.
Proof.
  intros Hr Hcol H0 Hline Hsz Hout.
  rewrite (insertChar_row _ _ _ _ _ Hr H0 Hline). unfold str_insert.
  pose proof (size_nonneg line). unfold max_size in Hsz.
  destruct (Z.lt_ge_cases col 0) as [Hneg | Hpos].
  - rewrite (to_size_t_negative _ Hcol Hneg).
    unfold is_int, int_min in Hcol.
    settle (size line <? col + 2 ^ 64) true. reflexivity.
  - rewrite (to_size_t_int _ Hcol Hpos).
    settle (size line <? col) true. reflexivity.
Qed.

(** C1, as stated, fails: the default buffer holds one empty line, so
    column 1 is out of range on row 0, and [Buffer.insertChar] leaves by
    [std::out_of_range] instead of returning with the buffer unchanged. *)
Lemma insertChar_bad_col_throws :
  lines Buffer_default = [[]] /\
  Buffer.insertChar Buffer_default 0 1 "a" = Throws out_of_range /\
  Buffer.insertChar Buffer_default 0 1 "a" <> Done Buffer_default.
Proof. repeat split. discriminate. Qed.

(** C1, as amended: an out-of-range row is a silent no-op.  For a row
    that indexes no line, [Buffer.insertChar] and [Buffer.deleteChar] return with the
    buffer unchanged and [Buffer.getLine] returns the empty string; [Buffer.deleteChar]
    does the same for column 0 on any row; [Buffer.insertLine] returns with the
    buffer unchanged for a negative row and for a row above the line count;
    [Buffer.deleteLine] does so on a buffer of at most one line. *)
Theorem out_of_range_row_is_noop (b : Buffer) (row col : Z) (c : ascii) :
  is_int row ->
  size (lines b) <= max_size ->
  ~ (0 <= row < size (lines b)) ->
  Buffer.insertChar b row col c = Done b /\
  Buffer.deleteChar b row col = Done b /\
  Buffer.getLine b row = Done [] /\
  (forall r, Buffer.deleteChar b r 0 = Done b) /\
  (row <> size (lines b) -> Buffer.insertLine b row = Done b) /\
  (size (lines b) <= 1 -> Buffer.deleteLine b row = Done b).
Proof.
  intros Hrow Hsz Hout.
  assert (Hguard : (size (lines b) <=? to_size_t row) = true).
  { rewrite row_guard by assumption.
    destruct (Z.leb_spec 0 row), (Z.ltb_spec row (size (lines b)));
      simpl; try reflexivity; lia. }
  repeat split.
  - unfold Buffer.insertChar. now rewrite Hguard.
  - unfold Buffer.deleteChar. now rewrite Hguard.
  - unfold Buffer.getLine. now rewrite Hguard.
  - intros r. unfold Buffer.deleteChar. simpl. now rewrite orb_true_r.
  - intros Hne. unfold Buffer.insertLine. rewrite above_guard by assumption.
    destruct (Z.leb_spec 0 row), (Z.leb_spec row (size (lines b)));
      simpl; try reflexivity; lia.
  - intros Hone. unfold Buffer.deleteLine.
    now settle (size (lines b) <=? 1) true.
Qed.

Lemma out_of_range_row_is_noop_witness :
  Buffer.insertChar Buffer_default 3 0 "x" = Done Buffer_default /\
  Buffer.deleteChar Buffer_default 3 0 = Done Buffer_default /\
  Buffer.getLine Buffer_default 3 = Done [] /\
  (forall r, Buffer.deleteChar Buffer_default r 0 = Done Buffer_default) /\
  (3 <> size (lines Buffer_default) -> Buffer.insertLine Buffer_default 3 = Done Buffer_default) /\
  (size (lines Buffer_default) <= 1 -> Buffer.deleteLine Buffer_default 3 = Done Buffer_default).
Proof.
  apply (out_of_range_row_is_noop Buffer_default 3 0 "x").
  - unfold is_int, int_min, int_max. lia.
  - unfold max_size, size. simpl. lia.
  - unfold size. simpl. lia.
Defined.

(** C5: on a valid row and a column inside the line (its end included),
    [Buffer.insertChar (r, col, c)] followed by [Buffer.deleteChar (r, col + 1)] both
    return, and line [r], like every other line, reads as before. *)
Theorem insert_then_delete_restores
    (b : Buffer) (r col : Z) (c : ascii) (line : cstring) :
  is_int r -> is_int col ->
  0 <= r -> lines b !! Z.to_nat r = Some line ->
  0 <= col <= size line ->
  exists b1 b2,
    Buffer.insertChar b r col c = Done b1 /\
    Buffer.deleteChar b1 r (col + 1) = Done b2 /\
    Buffer.getLine b2 r = Done line /\
    lines b2 = lines b.
Proof.
  intros Hr Hcol H0 Hline Hrange.
  pose proof (lookup_lt_Some _ _ _ Hline) as Hlt.
  set (line1 := take (Z.to_nat col) line ++ c :: drop (Z.to_nat col) line).
  set (b1 := mkBuffer (<[Z.to_nat r := line1]> (lines b)) (filepath b) true).
  assert (Hline1 : lines b1 !! Z.to_nat r = Some line1).
  { simpl. now apply list_lookup_insert_eq. }
  assert (Hback : <[Z.to_nat r := line]> (lines b1) = lines b).
  { simpl. rewrite list_insert_insert_eq. now apply list_insert_id. }
  exists b1, (mkBuffer (lines b) (filepath b) true). repeat split.
  - rewrite (insertChar_row _ _ _ _ _ Hr H0 Hline).
    rewrite (to_size_t_int _ Hcol) by lia.
    now rewrite str_insert_in_range.
  - rewrite (deleteChar_row _ _ _ _ Hr H0 Hline1) by lia.
    replace (col + 1 - 1) with col by lia.
    rewrite (to_int_small _ Hcol), (to_size_t_int _ Hcol) by lia.
    unfold line1. rewrite str_erase_inserted by assumption.
    simpl in Hback |- *. now rewrite Hback.
  - now apply getLine_row.
Qed.

Lemma insert_then_delete_restores_witness :
  exists b1 b2,
    Buffer.insertChar (mkBuffer [str "ab"; str "cd"] [] false) 1 2 "x" = Done b1 /\
    Buffer.deleteChar b1 1 (2 + 1) = Done b2 /\
    Buffer.getLine b2 1 = Done (str "cd") /\
    lines b2 = [str "ab"; str "cd"].
Proof.
  apply (insert_then_delete_restores
           (mkBuffer [str "ab"; str "cd"] [] false) 1 2 "x" (str "cd")).
  - unfold is_int, int_min, int_max. lia.
  - unfold is_int, int_min, int_max. lia.
  - lia.
  - reflexivity.
  - unfold size. simpl. lia.
Defined.

(** ** Buffer: files *)

Lemma file_image_from (ls : list cstring) (out : cstring) :
  fold_left (fun out line => out ++ line ++ [newline]) ls out
  = out ++ Buffer.file_image ls.
Proof.
  unfold Buffer.file_image. revert out.
  induction ls as [| l ls IH]; intros out; simpl.
  - now rewrite app_nil_r.
  - rewrite IH, (IH (l ++ [newline])). now rewrite <- !app_assoc.
Qed.

Lemma file_image_cons (l : cstring) (ls : list cstring) :
  Buffer.file_image (l :: ls) = l ++ newline :: Buffer.file_image ls.
Proof.
  unfold Buffer.file_image at 1. simpl. rewrite file_image_from.
  rewrite <- app_assoc. reflexivity.
Qed.

Lemma cut_line_app (l rest : cstring) :
  newline ∉ l -> cut_line (l ++ newline :: rest) = (l, rest).
Proof.
  induction l as [| c l IH]; intros Hnl; simpl.
  - reflexivity.
  - apply not_elem_of_cons in Hnl as [Hc Hl].
    destruct (Ascii.eqb_spec c newline) as [-> | _]; [congruence |].
    now rewrite IH.
Qed.

Lemma cut_line_shorter (s : cstring) :
  (length (snd (cut_line s)) <= Nat.pred (length s))%nat.
Proof.
  induction s as [| c s IH]; simpl; [lia |].
  destruct (Ascii.eqb c newline); simpl; [lia |].
  destruct (cut_line s) as [line rest]. simpl in *. lia.
Qed.

(** The bound on the read loop is never what ends it. *)
Lemma load_loop_enough (fuel : nat) (stream : cstring) (ls : list cstring) :
  (length stream < fuel)%nat ->
  Buffer.load_loop fuel stream ls = Buffer.load_loop (S (length stream)) stream ls.
Proof.
  revert fuel ls. induction stream as [stream IH] using (induction_ltof1 _ (@length _)).
  unfold ltof in IH. intros fuel ls Hfuel.
  destruct fuel as [| fuel]; [lia |]. simpl.
  destruct stream as [| c stream]; [reflexivity |].
  pose proof (cut_line_shorter (c :: stream)) as Hshort.
  unfold getline. destruct (cut_line (c :: stream)) as [line rest].
  simpl in Hshort, Hfuel.
  rewrite (IH rest) by (simpl; lia).
  symmetry. apply IH; simpl; lia.
Qed.

Lemma load_loop_image (ls acc : list cstring) (fuel : nat) :
  Forall (fun l => newline ∉ l) ls ->
  (length (Buffer.file_image ls) < fuel)%nat ->
  Buffer.load_loop fuel (Buffer.file_image ls) acc = acc ++ ls.
Proof.
  intros Hnl. revert acc fuel.
  induction Hnl as [| l ls Hl Hls IH]; intros acc fuel Hfuel.
  - destruct fuel; simpl; now rewrite app_nil_r.
  - rewrite file_image_cons in *.
    destruct fuel as [| fuel]; [lia |]. simpl.
    assert (Hget : getline (l ++ newline :: Buffer.file_image ls)
                   = Some (l, Buffer.file_image ls)).
    { unfold getline. rewrite cut_line_app by assumption.
      now destruct l. }
    rewrite Hget, IH.
    + now rewrite <- app_assoc.
    + rewrite length_app in Hfuel. simpl in Hfuel. lia.
Qed.

Lemma load_nonempty (w : World) (b : Buffer) : 1 <= size (lines (Buffer.load w b)).
Proof.
  unfold Buffer.load. destruct (contents w (filepath b)) as [data |]; cbn [lines].
  - case_bool_decide as Hls; [unfold size; simpl; lia |].
    destruct (Buffer.load_loop (S (length data)) data []); [congruence |].
    unfold size. simpl. lia.
  - unfold size. simpl. lia.
Qed.

(** C4: saving a buffer to a path that can be written and then building
    a fresh buffer from that path gives back the same lines in the same
    order, with the modified flag clear.  The lines hold no newline byte,
    as in every buffer the editor builds.  For a buffer with at least one
    line the two sequences are equal; in general they differ at most by one
    trailing empty line. *)
Theorem save_then_open_roundtrip (w : World) (b : Buffer) :
  writable w (filepath b) = true ->
  Forall (fun l => newline ∉ l) (lines b) ->
  let saved := Buffer.save w b in
  let fresh := Buffer_open (fst saved) (filepath b) in
  (lines b <> [] -> lines fresh = lines b) /\
  (lines fresh = lines b \/ lines fresh = lines b ++ [[]]) /\
  modified fresh = false /\
  filepath fresh = filepath b /\
  modified (snd saved) = false.
Proof.
  intros Hw Hnl. simpl.
  assert (Hfresh : lines (Buffer_open (write_file w (filepath b)
                                          (Buffer.file_image (lines b))) (filepath b))
                   = if bool_decide (lines b = []) then [[]] else lines b).
  { unfold Buffer_open, Buffer.load, write_file. rewrite Hw.
    cbn [contents filepath lines modified].
    rewrite decide_True by reflexivity.
    now rewrite load_loop_image by (assumption || lia). }
  assert (Hrest : forall w', modified (Buffer_open w' (filepath b)) = false
                          /\ filepath (Buffer_open w' (filepath b)) = filepath b).
  { intros w'. unfold Buffer_open, Buffer.load. simpl.
    now destruct (contents w' (filepath b)). }
  repeat split; try apply Hrest.
  - intros Hne. rewrite Hfresh. now rewrite bool_decide_eq_false_2.
  - rewrite Hfresh. case_bool_decide as Hls; [right | now left].
    now rewrite Hls.
Qed.

Lemma save_then_open_roundtrip_witness :
  let b := mkBuffer [str "ab"; []; str "c"] (str "f.txt") true in
  let saved := Buffer.save scratch_world b in
  let fresh := Buffer_open (fst saved) (filepath b) in
  (lines b <> [] -> lines fresh = lines b) /\
  (lines fresh = lines b \/ lines fresh = lines b ++ [[]]) /\
  modified fresh = false /\
  filepath fresh = filepath b /\
  modified (snd saved) = false.
Proof.
  apply (save_then_open_roundtrip scratch_world
           (mkBuffer [str "ab"; []; str "c"] (str "f.txt") true)).
  - reflexivity.
  - repeat constructor; simpl; intros H;
      repeat (apply elem_of_cons in H as [H | H]; [discriminate |]);
      now apply elem_of_nil in H.
Defined.

(** ** Buffer: line count *)

Lemma vec_insert_size {A : Type} (v v' : list A) (p : Z) (x : A) :
  vec_insert v p x = Done v' -> size v' = size v + 1.
Proof.
  unfold vec_insert.
  destruct (Z.leb_spec 0 p), (Z.leb_spec p (size v));
    simpl; intros Heq; try discriminate.
  injection Heq as <-. unfold size in *.
  rewrite length_app, length_take. simpl. rewrite length_drop. lia.
Qed.

Lemma vec_erase_size {A : Type} (v v' : list A) (p : Z) :
  vec_erase v p = Done v' -> size v' = size v - 1.
Proof.
  unfold vec_erase.
  destruct (Z.leb_spec 0 p), (Z.ltb_spec p (size v));
    simpl; intros Heq; try discriminate.
  injection Heq as <-. unfold size in *.
  rewrite length_delete; [lia |].
  apply lookup_lt_is_Some. lia.
Qed.

Lemma apply_op_keeps_a_line (b b' : Buffer) (op : buffer_op) :
  1 <= size (lines b) -> apply_op b op = Done b' -> 1 <= size (lines b').
Proof.
  intros Hb. destruct op as [row | row | w]; simpl.
  - unfold Buffer.insertLine. destruct (size (lines b) <? to_size_t row).
    + now intros [= <-].
    + destruct (vec_insert (lines b) (row + 1) []) as [v | |] eqn:Hv;
        simpl; intros Heq; try discriminate.
      injection Heq as <-. simpl. apply vec_insert_size in Hv. lia.
  - unfold Buffer.deleteLine. destruct (Z.leb_spec (size (lines b)) 1).
    + now intros [= <-].
    + destruct (vec_erase (lines b) row) as [v | |] eqn:Hv;
        simpl; intros Heq; try discriminate.
      injection Heq as <-. simpl. apply vec_erase_size in Hv. lia.
  - intros [= <-]. apply load_nonempty.
Qed.

Lemma apply_op_returns (b : Buffer) (op : buffer_op) :
  op_in_range b op -> exists b', apply_op b op = Done b'.
Proof.
  destruct op as [row | row | w]; simpl.
  - intros [Hint Hrow]. unfold Buffer.insertLine.
    rewrite to_size_t_int by (assumption || lia).
    settle (size (lines b) <? row) false.
    unfold vec_insert.
    settle (0 <=? row + 1) true.
    settle (row + 1 <=? size (lines b)) true.
    simpl. eauto.
  - intros [Hint Hrow]. unfold Buffer.deleteLine.
    destruct (size (lines b) <=? 1); [eauto |].
    unfold vec_erase.
    settle (0 <=? row) true.
    settle (row <? size (lines b)) true.
    simpl. eauto.
  - eauto.
Qed.

(** C2: starting from a buffer with at least one line, whatever
    sequence of [Buffer.insertLine], [Buffer.deleteLine] and [Buffer.load] calls has run, the
    buffer holds at least one line; each such call returns when its row
    indexes a line; [Buffer.deleteLine] on a one-line buffer changes nothing,
    whatever the row; and [Buffer.load] from a file that is empty or cannot be
    opened leaves exactly one empty line. *)
Theorem line_count_never_below_one (b : Buffer) :
  1 <= size (lines b) ->
  (forall ops b', run ops b = Done b' -> 1 <= size (lines b')) /\
  (forall op, op_in_range b op ->
     exists b', apply_op b op = Done b' /\ 1 <= size (lines b')) /\
  (forall row, size (lines b) = 1 -> Buffer.deleteLine b row = Done b) /\
  (forall w, contents w (filepath b) = None \/
             contents w (filepath b) = Some [] ->
     lines (Buffer.load w b) = [[]]).
Proof.
  intros Hb. repeat split.
  - intros ops. revert b Hb.
    induction ops as [| op ops IH]; intros b Hb b'; simpl.
    + now intros [= <-].
    + destruct (apply_op b op) as [b1 | |] eqn:Hop; simpl; try discriminate.
      apply IH. now apply (apply_op_keeps_a_line b b1 op).
  - intros op Hop. destruct (apply_op_returns b op Hop) as [b' Hb'].
    exists b'. split; [assumption |].
    now apply (apply_op_keeps_a_line b b' op).
  - intros row Hone. unfold Buffer.deleteLine. now rewrite Hone.
  - intros w [Hnone | Hempty]; unfold Buffer.load.
    + now rewrite Hnone.
    + now rewrite Hempty.
Qed.

Lemma line_count_never_below_one_witness :
  (forall ops b', run ops Buffer_default = Done b' -> 1 <= size (lines b')) /\
  (forall op, op_in_range Buffer_default op ->
     exists b', apply_op Buffer_default op = Done b' /\ 1 <= size (lines b')) /\
  (forall row, size (lines Buffer_default) = 1 ->
     Buffer.deleteLine Buffer_default row = Done Buffer_default) /\
  (forall w, contents w (filepath Buffer_default) = None \/
             contents w (filepath Buffer_default) = Some [] ->
     lines (Buffer.load w Buffer_default) = [[]]).
Proof.
  apply (line_count_never_below_one Buffer_default).
  unfold size. simpl. lia.
Defined.

(** Both constructors establish the invariant. *)
Lemma constructors_give_a_line (w : World) (path : cstring) :
  1 <= size (lines Buffer_default) /\ 1 <= size (lines (Buffer_open w path)).
Proof.
  split; [unfold size; simpl; lia | apply load_nonempty].
Qed.

(** ** Editor *)

Lemma str_substr_prefix (a rest : cstring) :
  str_substr (a ++ rest) 0 (Some (size a)) = Done a.
Proof.
  unfold str_substr.
  pose proof (size_nonneg (a ++ rest)) as Hnn.
  settle (size (a ++ rest) <? 0) false.
  rewrite size_app in *. pose proof (size_nonneg rest).
  rewrite Z.min_l by lia. unfold size. rewrite Nat2Z.id.
  change (Z.to_nat 0) with 0%nat. now rewrite drop_0, take_app_length.
Qed.

Lemma str_substr_suffix (a rest : cstring) :
  str_substr (a ++ rest) (size a) None = Done rest.
Proof.
  unfold str_substr. rewrite size_app.
  pose proof (size_nonneg rest).
  settle (size a + size rest <? size a) false.
  replace (size a + size rest - size a) with (size rest) by lia.
  unfold size. rewrite !Nat2Z.id, drop_app_length.
  now rewrite firstn_all.
Qed.

(** C6: the command [q].  With the current buffer unmodified it clears
    [running] and changes nothing else; with the current buffer modified it
    leaves [running] and the buffers as they are and sets the status
    message to the unsaved-changes text. *)
Theorem quit_command (w : World) (e : Editor) (b : Buffer) :
  Editor.getCurrentBuffer e = Done b ->
  exists e',
    Editor.executeCommand w e (str "q") = Done (w, e') /\
    buffers e' = buffers e /\
    (Buffer.isModified b = false ->
       running e' = false /\ e' = set_running e false) /\
    (Buffer.isModified b = true ->
       running e' = running e /\
       statusMessage e' = str "Unsaved changes! Use :q! to force quit" /\
       e' = set_statusMessage e (str "Unsaved changes! Use :q! to force quit")).
Proof.
  intros Hb. unfold Editor.executeCommand.
  rewrite bool_decide_eq_true_2 by reflexivity.
  unfold Editor.quit. rewrite Hb. simpl bind.
  destruct (Buffer.isModified b); simpl bind.
  - eexists. split; [reflexivity |]. repeat split; discriminate.
  - eexists. split; [reflexivity |]. repeat split; discriminate.
Qed.

Lemma quit_command_witness :
  exists e',
    Editor.executeCommand scratch_world (Editor_new []) (str "q")
      = Done (scratch_world, e') /\
    buffers e' = buffers (Editor_new []) /\
    (Buffer.isModified Buffer_default = false ->
       running e' = false /\ e' = set_running (Editor_new []) false) /\
    (Buffer.isModified Buffer_default = true ->
       running e' = running (Editor_new []) /\
       statusMessage e' = str "Unsaved changes! Use :q! to force quit" /\
       e' = set_statusMessage (Editor_new [])
              (str "Unsaved changes! Use :q! to force quit")).
Proof.
  apply (quit_command scratch_world (Editor_new []) Buffer_default).
  reflexivity.
Defined.

(** C8: the command [e <path>] for a path that cannot be opened.  It
    returns without an exception and without a status message; the new
    buffer holds exactly one empty line, carries the given path, is
    unmodified, is appended to the buffers and is the current one; the
    cursor is at (0, 0). *)
Theorem open_missing_file (w : World) (e : Editor) (path : cstring) :
  contents w path = None ->
  size (buffers e) <= int_max ->
  exists e',
    Editor.executeCommand w e (str "e " ++ path) = Done (w, e') /\
    buffers e' = buffers e ++ [mkBuffer [[]] path false] /\
    Editor.getCurrentBuffer e' = Done (mkBuffer [[]] path false) /\
    cursorRow e' = 0 /\ cursorCol e' = 0 /\
    statusMessage e' = statusMessage e /\
    running e' = running e.
Proof.
  intros Hnone Hsz. unfold Editor.executeCommand.
  rewrite !bool_decide_eq_false_2 by (simpl; discriminate).
  change 2 with (size (str "e ")).
  rewrite (str_substr_prefix (str "e ") path). simpl bind.
  pose proof (str_substr_suffix (str "e ") path) as Hpath.
  simpl in Hpath. rewrite Hpath. simpl bind.
  assert (Hopen : Buffer_open w path = mkBuffer [[]] path false).
  { unfold Buffer_open, Buffer.load. simpl. now rewrite Hnone. }
  assert (Hcur : to_int (to_size_t (size (buffers e ++ [Buffer_open w path]) - 1))
                 = size (buffers e)).
  { rewrite size_app. change (size [Buffer_open w path]) with 1.
    replace (size (buffers e) + 1 - 1) with (size (buffers e)) by lia.
    pose proof (size_nonneg (buffers e)).
    unfold int_max in Hsz.
    rewrite to_size_t_small by lia.
    apply to_int_small. unfold is_int, int_min, int_max. lia. }
  eexists. split; [reflexivity |].
  unfold Editor.openFile. rewrite Hcur, Hopen. simpl. repeat split.
  unfold Editor.getCurrentBuffer. simpl.
  pose proof (size_nonneg (buffers e)). unfold int_max in Hsz.
  rewrite to_size_t_small by lia.
  apply vec_index_lookup; [lia |].
  unfold size. rewrite Nat2Z.id.
  rewrite lookup_app_r by lia. now rewrite Nat.sub_diag.
Qed.

Lemma open_missing_file_witness :
  exists e',
    Editor.executeCommand scratch_world (Editor_new []) (str "e " ++ str "nonexistent.txt")
      = Done (scratch_world, e') /\
    buffers e' = buffers (Editor_new [])
                   ++ [mkBuffer [[]] (str "nonexistent.txt") false] /\
    Editor.getCurrentBuffer e' = Done (mkBuffer [[]] (str "nonexistent.txt") false) /\
    cursorRow e' = 0 /\ cursorCol e' = 0 /\
    statusMessage e' = statusMessage (Editor_new []) /\
    running e' = running (Editor_new []).
Proof.
  apply (open_missing_file scratch_world (Editor_new []) (str "nonexistent.txt")).
  - reflexivity.
  - unfold size, int_max. simpl. lia.
Defined.

(** C10: backspace in insert mode with the cursor in column 0.  The key
    press is announced to the plugins and nothing else happens: buffers,
    cursor row and cursor column are as before, and no plugin receives a
    buffer-change call it had not received already. *)
Theorem backspace_at_line_start (w : World) (e : Editor) :
  commandMode e = false ->
  cursorCol e = 0 ->
  exists e',
    Editor.processKeypress w e (Some DEL) = Done (w, e') /\
    buffers e' = buffers e /\
    cursorRow e' = cursorRow e /\
    cursorCol e' = cursorCol e /\
    delivered (pluginManager e')
      = delivered (pluginManager e)
        ++ ((fun name => (name, KeyPress 127)) <$> plugins (pluginManager e)) /\
    (forall name, (name, BufferChange) ∈ delivered (pluginManager e') ->
                  (name, BufferChange) ∈ delivered (pluginManager e)).
Proof.
  intros Hmode Hcol. unfold Editor.processKeypress. rewrite Hmode.
  change (int_of_char DEL) with 127. cbn [Z.eqb Pos.eqb].
  unfold Editor.deleteChar. cbn [cursorCol set_pluginManager].
  rewrite Hcol. simpl bind.
  eexists. split; [reflexivity |]. cbn. repeat split; [assumption |].
  intros name Hin. apply elem_of_app in Hin as [Hin | Hin]; [assumption |].
  apply list_elem_of_fmap in Hin as (other & Heq & _). discriminate.
Qed.

Lemma backspace_at_line_start_witness :
  exists e',
    Editor.processKeypress scratch_world (Editor_new []) (Some DEL)
      = Done (scratch_world, e') /\
    buffers e' = buffers (Editor_new []) /\
    cursorRow e' = cursorRow (Editor_new []) /\
    cursorCol e' = cursorCol (Editor_new []) /\
    delivered (pluginManager e')
      = delivered (pluginManager (Editor_new []))
        ++ ((fun name => (name, KeyPress 127))
              <$> plugins (pluginManager (Editor_new []))) /\
    (forall name, (name, BufferChange) ∈ delivered (pluginManager e') ->
                  (name, BufferChange) ∈ delivered (pluginManager (Editor_new []))).
Proof.
  apply (backspace_at_line_start scratch_world (Editor_new [])); reflexivity.
Defined.

Lemma vec_store_index {A : Type} (v : list A) (i : Z) (x y : A) :
  vec_index v i = Done x ->
  exists v', vec_store v i y = Done v' /\ vec_index v' i = Done y.
Proof.
  unfold vec_index, vec_store.
  destruct ((0 <=? i) && (i <? size v)) eqn:Hin; [| discriminate].
  intros _. eexists. split; [reflexivity |].
  replace (size (<[Z.to_nat i:=y]> v)) with (size v)
    by (unfold size; now rewrite length_insert).
  rewrite Hin.
  apply andb_true_iff in Hin as [H0 Hlt].
  apply Z.leb_le in H0. apply Z.ltb_lt in Hlt.
  rewrite list_lookup_insert_eq; [reflexivity |]. unfold size in Hlt. lia.
Qed.

Lemma str_substr_returns (s : cstring) (pos : Z) (n : option Z) :
  0 <= pos <= size s -> exists t, str_substr s pos n = Done t.
Proof.
  intros H. unfold str_substr.
  settle (size s <? pos) false.
  eauto.
Qed.

(** In insert mode, with the cursor on a line of the current buffer, Enter
    returns, leaves every existing line as it was, adds an empty line below
    the cursor line and moves the cursor to its start. *)
Lemma newLine_adds_empty_line (e : Editor) (b : Buffer) (line : cstring) :
  Editor.getCurrentBuffer e = Done b ->
  is_int (cursorRow e) -> is_int (cursorCol e) ->
  0 <= cursorRow e -> lines b !! Z.to_nat (cursorRow e) = Some line ->
  0 <= cursorCol e <= size line ->
  exists e',
    Editor.newLine e = Done e' /\
    Editor.getCurrentBuffer e'
      = Done (mkBuffer (take (Z.to_nat (cursorRow e + 1)) (lines b)
                          ++ [] :: drop (Z.to_nat (cursorRow e + 1)) (lines b))
                       (filepath b) true) /\
    cursorRow e' = to_int (cursorRow e + 1) /\
    cursorCol e' = 0.
Proof.
  intros Hb Hrow Hcol H0 Hline Hrange. unfold Editor.newLine.
  rewrite Hb. simpl bind.
  rewrite (getLine_row _ _ _ Hrow H0 Hline). simpl bind.
  rewrite (to_size_t_int _ Hcol) by lia.
  destruct (str_substr_returns line (cursorCol e) None Hrange) as [rest ->].
  simpl bind.
  destruct (str_substr_returns line 0 (Some (cursorCol e))) as [kept ->];
    [lia |].
  simpl bind.
  pose proof (lookup_size _ _ _ Hline) as Hlt.
  rewrite Z2Nat.id in Hlt by assumption.
  unfold Buffer.insertLine. rewrite (to_size_t_int _ Hrow) by assumption.
  settle (size (lines b) <? cursorRow e) false.
  unfold vec_insert.
  settle (0 <=? cursorRow e + 1) true.
  settle (cursorRow e + 1 <=? size (lines b)) true.
  simpl bind. unfold Editor.putCurrentBuffer. unfold Editor.getCurrentBuffer in Hb.
  match goal with
  | |- context [vec_store _ _ ?b'] =>
      destruct (vec_store_index _ _ _ b' Hb) as (bs & -> & Hbs)
  end.
  simpl bind. eexists. split; [reflexivity |].
  repeat split. exact Hbs.
Qed.

(** C3 (Enter in insert mode splits the current line at the cursor and
    moves the cursor to the start of the new line) does not hold of the
    code: before the last Enter the current
    line is [xab] with the cursor at column 1; after it the line is still
    [xab] and the new line below is empty, where the split would give [x]
    and [ab].  The cursor does move to (1, 0). *)
Theorem newLine_loses_the_split :
  view (press one_file_world (Editor_new []) (str ":e f" ++ [CR] ++ str "x"))
    = Some ([str "xab"], 0, 1) /\
  view (press one_file_world (Editor_new []) split_session)
    = Some ([str "xab"; []], 1, 0) /\
  [str "xab"; []] <> [str "x"; str "ab"].
Proof. repeat split. discriminate. Qed.

(** ** FileExplorer *)

(** C9, as stated, fails on an empty listing: the index becomes -1 and
    the interval [0, count - 1] is empty. *)
Lemma moveSelection_empty_listing :
  selectedIndex (FileExplorer.moveSelection (mkFileExplorer [] 0) 0) = -1 /\
  ~ (0 <= selectedIndex (FileExplorer.moveSelection (mkFileExplorer [] 0) 0)
       <= size (files (FileExplorer.moveSelection (mkFileExplorer [] 0) 0)) - 1).
Proof.
  split; [reflexivity |].
  change (selectedIndex (FileExplorer.moveSelection (mkFileExplorer [] 0) 0)) with (-1).
  lia.
Qed.

(** C9, as amended: when the listing holds at least one entry, after
    [FileExplorer.moveSelection] the selection index lies in [0, count - 1], for every
    previous index and every delta; the listing is unchanged. *)
Theorem moveSelection_in_range (fe : FileExplorer) (delta : Z) :
  1 <= size (files fe) ->
  files (FileExplorer.moveSelection fe delta) = files fe /\
  0 <= selectedIndex (FileExplorer.moveSelection fe delta)
    <= size (files (FileExplorer.moveSelection fe delta)) - 1.
Proof.
  intros Hcount. split; [reflexivity |].
  unfold FileExplorer.moveSelection. cbn [selectedIndex files].
  pose proof (to_int_is_int (selectedIndex fe + delta)) as Hint.
  set (moved := to_int (selectedIndex fe + delta)) in *.
  assert (Hclamp : exists sel, (if moved <? 0 then 0 else moved) = sel
                               /\ 0 <= sel <= int_max).
  { unfold is_int, int_min, int_max in *.
    destruct (Z.ltb_spec moved 0); eexists; (split; [reflexivity | lia]). }
  destruct Hclamp as (sel & -> & Hsel). unfold int_max in Hsel.
  rewrite (to_size_t_small sel) by lia.
  destruct (Z.leb_spec (size (files fe)) sel) as [Hge | Hlt]; [| lia].
  rewrite to_size_t_small by lia.
  rewrite to_int_small by (unfold is_int, int_min, int_max; lia).
  lia.
Qed.

Lemma moveSelection_in_range_witness :
  files (FileExplorer.moveSelection (mkFileExplorer [str "a"; str "b"] 1) 7)
    = [str "a"; str "b"] /\
  0 <= selectedIndex (FileExplorer.moveSelection (mkFileExplorer [str "a"; str "b"] 1) 7)
    <= size (files (FileExplorer.moveSelection (mkFileExplorer [str "a"; str "b"] 1) 7)) - 1.
Proof.
  apply (moveSelection_in_range (mkFileExplorer [str "a"; str "b"] 1) 7).
  unfold size. simpl. lia.
Defined.

(** ** SyntaxHighlighter *)

Lemma register_from (rules : list PatternRule) (h : SyntaxHighlighter) :
  fold_left
    (fun h r => SyntaxHighlighter.addRule h (regex_search (rule_matcher r)) (rule_color r))
    rules h
  = h ++ ((fun r => mkRule (regex_search (rule_matcher r)) (rule_color r)) <$> rules).
Proof.
  revert h. induction rules as [| r rules IH]; intros h; simpl.
  - now rewrite app_nil_r.
  - rewrite IH. unfold SyntaxHighlighter.addRule. now rewrite <- app_assoc.
Qed.

Lemma register_rules (rules : list PatternRule) :
  register rules
  = (fun r => mkRule (regex_search (rule_matcher r)) (rule_color r)) <$> rules.
Proof. unfold register. now rewrite register_from. Qed.

Section OneRule.
Variable r : PatternRule.
Hypothesis Hproper : proper (regex_search (rule_matcher r)).
Hypothesis Hsafe : restart_safe (rule_matcher r).

(** The loop of one rule computes the painted pieces and needs at most
    one iteration per character, plus the one that finds no match. *)
Lemma highlight_loop_matches (n fuel : nat) (before rest result : cstring) :
  (length rest <= n)%nat -> (n < fuel)%nat ->
  rule_matcher r before rest = rule_matcher r [] rest ->
  SyntaxHighlighter.highlight_loop fuel
    (mkRule (regex_search (rule_matcher r)) (rule_color r)) rest result
  = Some (result
          ++ concat (paint (rule_color r) <$> matches n (rule_matcher r) before rest)).
Proof.
  revert fuel before rest result.
  induction n as [| n IH]; intros fuel before rest result Hlen Hfuel Hsame;
    (destruct fuel as [| fuel]; [lia |]); simpl; unfold regex_search at 1.
  - destruct (rule_matcher r [] rest) as [[pos len] |] eqn:Hsearch.
    + apply Hproper in Hsearch. lia.
    + now rewrite app_nil_r.
  - rewrite Hsame.
    destruct (rule_matcher r [] rest) as [[pos len] |] eqn:Hsearch.
    + destruct (Hproper _ _ _ Hsearch) as [Hpos Hin].
      rewrite <- Hsame in Hsearch.
      rewrite (IH _ (before ++ take (pos + len) rest))
        by (try rewrite length_drop; try apply Hsafe; trivial; lia).
      simpl. now rewrite <- !app_assoc.
    + simpl. now rewrite app_nil_r.
Qed.

Lemma highlight_loop_colorize (fuel : nat) (s : cstring) :
  (length s < fuel)%nat ->
  SyntaxHighlighter.highlight_loop fuel
    (mkRule (regex_search (rule_matcher r)) (rule_color r)) s []
  = Some (colorize r s).
Proof.
  intros Hfuel. now rewrite (highlight_loop_matches (length s) fuel []) by (trivial; lia).
Qed.
End OneRule.

(** A search that finds an empty match at the start of its range leaves
    [searchStart] where it is: the same search is run again, without end. *)
Lemma highlight_loop_stuck (rule : HighlightRule) (rest : cstring) :
  pattern rule rest = Some (O, O) ->
  forall (fuel : nat) (result : cstring),
    SyntaxHighlighter.highlight_loop fuel rule rest result = None.
Proof.
  intros Hsearch fuel. induction fuel as [| fuel IH]; intros result; simpl.
  - reflexivity.
  - rewrite Hsearch. simpl. rewrite drop_0. apply IH.
Qed.

(** [highlight] then returns nothing, whatever rules follow. *)
Lemma highlight_stuck (rule : HighlightRule) (rules : SyntaxHighlighter)
    (line : cstring) :
  pattern rule line = Some (O, O) ->
  forall fuel : nat, SyntaxHighlighter.highlight fuel (rule :: rules) line = None.
Proof.
  intros Hsearch fuel. simpl. now rewrite highlight_loop_stuck.
Qed.

Lemma find_literal_inside (lit s : cstring) (pos : nat) :
  find_literal lit s = Some pos -> (pos + length lit <= length s)%nat.
Proof.
  revert pos. induction s as [| c s IH]; intros pos; simpl.
  - case_bool_decide as Hlit; [| discriminate].
    intros [= <-]. rewrite <- Hlit, take_nil. simpl. lia.
  - case_bool_decide as Hlit.
    + intros [= <-]. rewrite <- Hlit at 1. rewrite length_take. simpl. lia.
    + destruct (find_literal lit s) as [pos' |]; [| discriminate].
      intros [= <-]. specialize (IH pos' eq_refl). lia.
Qed.

Lemma literal_proper (lit : cstring) : lit <> [] -> proper (literal lit).
Proof.
  intros Hne s pos len. unfold literal.
  destruct (find_literal lit s) as [pos' |] eqn:Hfind; [| discriminate].
  intros [= <- <-]. split.
  - destruct lit; [congruence | simpl; lia].
  - now apply find_literal_inside.
Qed.

(** A pattern that does not look at the text before the search finds the
    same after every restart. *)
Lemma context_free_restart_safe (m : matcher) :
  (forall before s, m before s = m [] s) -> restart_safe m.
Proof. intros Hfree before s pos len _. apply Hfree. Qed.

Lemma anywhere_restart_safe (lit : cstring) : restart_safe (anywhere lit).
Proof. now apply context_free_restart_safe. Qed.

(** *** The keyword pattern *)

Lemma word_last (kw : cstring) (prev : option ascii) :
  word kw -> is_word (last (option_list prev ++ kw)) = true.
Proof.
  intros [Hne Hword]. destruct (last kw) as [c |] eqn:Hlast.
  - rewrite last_app, Hlast. simpl.
    apply last_Some in Hlast as [kw' ->].
    apply Forall_app in Hword as [_ Hc]. now inversion Hc.
  - apply last_None in Hlast. congruence.
Qed.

Lemma keyword_here_match (kws : list cstring) (prev : option ascii)
    (s : cstring) (len : nat) :
  Forall word kws -> keyword_here kws prev s = Some len ->
  exists kw, kw ∈ kws /\ len = length kw /\ take len s = kw
             /\ is_word (head (drop len s)) = false.
Proof.
  intros Hkws. induction Hkws as [| kw kws Hkw _ IH]; simpl; [discriminate |].
  destruct (bool_decide (take (length kw) s = kw)) eqn:Hpre; simpl.
  - destruct (word_boundary prev (head s)); simpl.
    + unfold word_boundary at 1. rewrite (word_last _ _ Hkw).
      destruct (is_word (head (drop (length kw) s))) eqn:Hnext; simpl.
      * intros Hrest. destruct (IH Hrest) as (kw' & Hin & Hlen).
        exists kw'. split; [apply elem_of_cons; now right | exact Hlen].
      * intros [= <-]. exists kw. apply bool_decide_eq_true in Hpre.
        split_and!; trivial. apply elem_of_cons; now left.
    + intros Hrest. destruct (IH Hrest) as (kw' & Hin & Hlen).
      exists kw'. split; [apply elem_of_cons; now right | exact Hlen].
  - intros Hrest. destruct (IH Hrest) as (kw' & Hin & Hlen).
    exists kw'. split; [apply elem_of_cons; now right | exact Hlen].
Qed.

Lemma find_keyword_match (kws : list cstring) (prev : option ascii)
    (s : cstring) (pos len : nat) :
  Forall word kws -> find_keyword kws prev s = Some (pos, len) ->
  exists kw, kw ∈ kws /\ len = length kw /\ take len (drop pos s) = kw
             /\ is_word (head (drop (pos + len) s)) = false.
Proof.
  intros Hkws. revert prev pos.
  induction s as [| c s IH]; intros prev pos; simpl;
    destruct (keyword_here kws prev _) as [len' |] eqn:Hhere.
  - intros [= <- <-]. now apply keyword_here_match in Hhere.
  - discriminate.
  - intros [= <- <-]. now apply keyword_here_match in Hhere.
  - destruct (find_keyword kws (Some c) s) as [[pos' len''] |] eqn:Hfind;
      [| discriminate].
    simpl. intros [= <- <-]. now apply IH in Hfind.
Qed.

Lemma keyword_here_none (kws : list cstring) (prev : option ascii) (s : cstring) :
  Forall word kws -> is_word (head s) = false -> keyword_here kws prev s = None.
Proof.
  intros Hkws Hhead. induction Hkws as [| kw kws [Hne Hword] _ IH]; simpl; [reflexivity |].
  case_bool_decide as Hpre; simpl; [| exact IH].
  destruct kw as [| k kw]; [congruence |].
  destruct s as [| c s]; [discriminate |].
  simpl in Hpre. injection Hpre as -> _.
  inversion Hword as [| ? ? Hk _]. simpl in Hhead. congruence.
Qed.

Lemma find_keyword_restart (kws : list cstring) (prev prev' : option ascii)
    (s : cstring) :
  Forall word kws -> is_word (head s) = false ->
  find_keyword kws prev s = find_keyword kws prev' s.
Proof.
  intros Hkws Hhead. destruct s as [| c s]; simpl;
    now rewrite !keyword_here_none.
Qed.

(** A keyword ends at a word boundary, so what follows it starts with no
    word character and no keyword starts there, whether the keyword is in
    view or not. *)
Lemma keywords_restart_safe (kws : list cstring) :
  Forall word kws -> restart_safe (keywords kws).
Proof.
  intros Hkws before s pos len Hsearch. unfold keywords in *.
  apply find_keyword_match in Hsearch as (kw & _ & _ & _ & Hnext); [| exact Hkws].
  now apply find_keyword_restart.
Qed.

Lemma keywords_proper (kws : list cstring) :
  Forall word kws -> proper (regex_search (keywords kws)).
Proof.
  intros Hkws s pos len Hsearch. unfold regex_search, keywords in Hsearch.
  apply find_keyword_match in Hsearch as (kw & Hin & -> & Htake & _); [| exact Hkws].
  rewrite Forall_forall in Hkws. destruct (Hkws kw Hin) as [Hne _].
  assert (Hlen : length (take (length kw) (drop pos s)) = length kw) by now rewrite Htake.
  rewrite length_take, length_drop in Hlen.
  destruct kw; [congruence |]. cbn [length] in *. unfold cstring in *. lia.
Qed.

(** C7, as stated, fails in two ways.  A search that finds an empty match
    at the start of its range (here the empty pattern) never moves
    [searchStart], so the loop of that rule does not end and
    [SyntaxHighlighter.highlight] returns nothing, whatever the number of
    iterations.  And every search after the first takes the rest of the
    string for a text of its own: the pattern [^a] has one match in
    [aaa], at its start, and the fold wraps that one, but [highlight]
    finds [^a] again at each restart and wraps all three characters. *)
Lemma highlight_is_not_the_fold :
  (forall fuel : nat,
     SyntaxHighlighter.highlight fuel
       (register [mkPatternRule empty_matcher (esc :: str "[34m")]) (str "a")
     = None)
  /\ SyntaxHighlighter.highlight 4
       (register [mkPatternRule (at_start (str "a")) (esc :: str "[34m")]) (str "aaa")
     = Some ((esc :: str "[34ma") ++ reset ++ (esc :: str "[34ma") ++ reset
             ++ (esc :: str "[34ma") ++ reset)
  /\ highlight_spec [mkPatternRule (at_start (str "a")) (esc :: str "[34m")] (str "aaa")
     = (esc :: str "[34ma") ++ reset ++ str "aa"
  /\ (forall fuel : nat,
        SyntaxHighlighter.highlight fuel
          (register [mkPatternRule (at_start (str "a")) (esc :: str "[34m")]) (str "aaa")
        <> Some (highlight_spec
                   [mkPatternRule (at_start (str "a")) (esc :: str "[34m")] (str "aaa"))).
Proof.
  split_and!.
  - intros fuel. now apply highlight_stuck.
  - reflexivity.
  - reflexivity.
  - intros fuel. do 4 (destruct fuel as [| fuel]; [discriminate |]). discriminate.
Qed.

(** C7, as amended: when the searches of every rule's pattern find only
    non-empty matches and find, after a match, the same in the rest of
    the string whether or not the text before it is in view, then
    [SyntaxHighlighter.highlight] returns, and its result is the fold
    over the rules in registration order in which each rule cuts the
    string it receives, left to right, into unmatched spans and the
    non-overlapping matches of its pattern, wraps each match as color
    escape, matched text, reset escape, keeps the spans, concatenates the
    pieces in order, and hands the result to the next rule. *)
Theorem highlight_is_fold (rules : list PatternRule) (line : cstring) :
  Forall (fun r => proper (regex_search (rule_matcher r))
                   /\ restart_safe (rule_matcher r)) rules ->
  exists enough : nat, forall fuel : nat, (enough <= fuel)%nat ->
    SyntaxHighlighter.highlight fuel (register rules) line
    = Some (highlight_spec rules line).
Proof.
  intros Hrules. rewrite register_rules. revert line.
  induction Hrules as [| r rules [Hproper Hsafe] _ IH]; intros line.
  - exists O. reflexivity.
  - destruct (IH (colorize r line)) as [enough Henough].
    exists (Nat.max (S (length line)) enough). intros fuel Hfuel. simpl.
    rewrite (highlight_loop_colorize r Hproper Hsafe) by lia.
    apply Henough. lia.
Qed.

Lemma highlight_is_fold_witness :
  exists enough : nat, forall fuel : nat, (enough <= fuel)%nat ->
    SyntaxHighlighter.highlight fuel
      (register [mkPatternRule (keywords [str "int"; str "if"]) (esc :: str "[34m");
                 mkPatternRule (anywhere (str "x")) (esc :: str "[32m")])
      (str "if x int")
    = Some (highlight_spec
              [mkPatternRule (keywords [str "int"; str "if"]) (esc :: str "[34m");
               mkPatternRule (anywhere (str "x")) (esc :: str "[32m")]
              (str "if x int")).
Proof.
  apply (highlight_is_fold
           [mkPatternRule (keywords [str "int"; str "if"]) (esc :: str "[34m");
            mkPatternRule (anywhere (str "x")) (esc :: str "[32m")]
           (str "if x int")).
  assert (Hkws : Forall word [str "int"; str "if"]).
  { constructor; [| constructor; [| constructor]];
      (split; [discriminate | repeat constructor]). }
  constructor.
  - split; [now apply keywords_proper | now apply keywords_restart_safe].
  - constructor; [| constructor].
    split; [apply literal_proper; discriminate | apply anywhere_restart_safe].
Defined.


(** * Further properties *)

(** ** Buffer: how the operations compose *)

Lemma vec_insert_in_range {A : Type} (v : list A) (p : Z) (x : A) :
  0 <= p <= size v ->
  vec_insert v p x = Done (take (Z.to_nat p) v ++ x :: drop (Z.to_nat p) v).
Proof.
  intros H. unfold vec_insert.
  settle (0 <=? p) true. settle (p <=? size v) true. reflexivity.
Qed.

Lemma insertLine_row (b : Buffer) (row : Z) :
  is_int row -> 0 <= row < size (lines b) ->
  Buffer.insertLine b row
  = Done (mkBuffer (take (Z.to_nat (row + 1)) (lines b)
                      ++ [] :: drop (Z.to_nat (row + 1)) (lines b))
                   (filepath b) true).
Proof.
  intros Hint Hrow. unfold Buffer.insertLine.
  rewrite to_size_t_int by (assumption || lia).
  settle (size (lines b) <? row) false.
  now rewrite vec_insert_in_range by lia.
Qed.

(** X1: on a valid row, [insertLine (row)] followed by
    [deleteLine (row + 1)] both return and give back the lines as they
    were. *)
Theorem insertLine_then_deleteLine (b : Buffer) (row : Z) :
  is_int row -> 0 <= row < size (lines b) ->
  exists b1 b2,
    Buffer.insertLine b row = Done b1 /\
    Buffer.deleteLine b1 (row + 1) = Done b2 /\
    lines b2 = lines b.
Proof.
  intros Hint Hrow. rewrite (insertLine_row _ _ Hint Hrow).
  eexists. eexists. split; [reflexivity |].
  set (n := Z.to_nat (row + 1)).
  assert (Hn : length (take n (lines b)) = n).
  { rewrite length_take. unfold size in Hrow. lia. }
  unfold Buffer.deleteLine. cbn [lines filepath].
  assert (Hsz : size (take n (lines b) ++ [] :: drop n (lines b))
                = size (lines b) + 1).
  { unfold size in *. rewrite length_app, Hn. simpl. rewrite length_drop. lia. }
  rewrite Hsz. settle (size (lines b) + 1 <=? 1) false.
  unfold vec_erase. rewrite Hsz.
  settle (0 <=? row + 1) true. settle (row + 1 <? size (lines b) + 1) true.
  simpl. split; [reflexivity |]. simpl. fold n.
  rewrite <- Hn at 1. rewrite delete_middle. apply take_drop.
Qed.

Lemma insertLine_then_deleteLine_witness :
  exists b1 b2,
    Buffer.insertLine (mkBuffer [str "ab"; str "cd"] [] false) 0 = Done b1 /\
    Buffer.deleteLine b1 (0 + 1) = Done b2 /\
    lines b2 = [str "ab"; str "cd"].
Proof.
  apply (insertLine_then_deleteLine (mkBuffer [str "ab"; str "cd"] [] false) 0).
  - unfold is_int, int_min, int_max. lia.
  - unfold size. simpl. lia.
Defined.

Lemma str_erase_in_range (s : cstring) (pos : Z) :
  0 <= pos < size s ->
  str_erase s pos 1
  = Done (take (Z.to_nat pos) s ++ drop (S (Z.to_nat pos)) s).
Proof.
  intros H. unfold str_erase. settle (size s <? pos) false.
  rewrite Z.min_l by lia.
  now replace (Z.to_nat (pos + 1)) with (S (Z.to_nat pos)) by lia.
Qed.

(** X2: [deleteChar (r, col)] on a valid row with [1 <= col <= length]
    removes the character before [col]; inserting that character again at
    [col - 1] gives back the lines as they were. *)
Theorem deleteChar_then_insertChar
    (b : Buffer) (r col : Z) (c : ascii) (line : cstring) :
  is_int r -> is_int col ->
  0 <= r -> lines b !! Z.to_nat r = Some line ->
  1 <= col <= size line ->
  line !! Z.to_nat (col - 1) = Some c ->
  exists b1 b2,
    Buffer.deleteChar b r col = Done b1 /\
    Buffer.getLine b1 r
      = Done (take (Z.to_nat (col - 1)) line ++ drop (Z.to_nat col) line) /\
    Buffer.insertChar b1 r (col - 1) c = Done b2 /\
    lines b2 = lines b.
Proof.
  intros Hr Hcol H0 Hline Hrange Hc.
  pose proof (lookup_lt_Some _ _ _ Hline) as Hlt.
  assert (Hpred : is_int (col - 1))
    by (unfold is_int, int_min, int_max in *; lia).
  set (line1 := take (Z.to_nat (col - 1)) line ++ drop (Z.to_nat col) line).
  set (b1 := mkBuffer (<[Z.to_nat r := line1]> (lines b)) (filepath b) true).
  assert (Hline1 : lines b1 !! Z.to_nat r = Some line1).
  { simpl. now apply list_lookup_insert_eq. }
  assert (Hlen : length (take (Z.to_nat (col - 1)) line) = Z.to_nat (col - 1)).
  { rewrite length_take. unfold size in Hrange. lia. }
  exists b1, (mkBuffer (lines b) (filepath b) true). repeat split.
  - rewrite (deleteChar_row _ _ _ _ Hr H0 Hline) by lia.
    rewrite (to_int_small _ Hpred), (to_size_t_int _ Hpred) by lia.
    rewrite str_erase_in_range by lia.
    replace (S (Z.to_nat (col - 1))) with (Z.to_nat col) by lia.
    reflexivity.
  - now apply getLine_row.
  - rewrite (insertChar_row _ _ _ _ _ Hr H0 Hline1).
    rewrite (to_size_t_int _ Hpred) by lia.
    assert (Hsz1 : size line1 = size line - 1).
    { unfold line1, size in *. rewrite length_app, Hlen, length_drop. lia. }
    rewrite str_insert_in_range by lia.
    simpl bind. cbn [lines filepath b1].
    rewrite list_insert_insert_eq. f_equal. f_equal.
    unfold line1. rewrite <- Hlen at 1. rewrite take_app_length.
    rewrite <- Hlen at 2. rewrite drop_app_length.
    replace (Z.to_nat col) with (S (Z.to_nat (col - 1))) by lia.
    rewrite (take_drop_middle _ _ _ Hc).
    now apply list_insert_id.
Qed.

Lemma deleteChar_then_insertChar_witness :
  exists b1 b2,
    Buffer.deleteChar (mkBuffer [str "abc"] [] false) 0 2 = Done b1 /\
    Buffer.getLine b1 0
      = Done (take (Z.to_nat (2 - 1)) (str "abc") ++ drop (Z.to_nat 2) (str "abc")) /\
    Buffer.insertChar b1 0 (2 - 1) "b" = Done b2 /\
    lines b2 = [str "abc"].
Proof.
  apply (deleteChar_then_insertChar (mkBuffer [str "abc"] [] false) 0 2 "b" (str "abc")).
  - unfold is_int, int_min, int_max. lia.
  - unfold is_int, int_min, int_max. lia.
  - lia.
  - reflexivity.
  - unfold size. simpl. lia.
  - reflexivity.
Defined.

Lemma vec_store_frame {A : Type} (v v' : list A) (i : Z) (x : A) :
  vec_store v i x = Done v' ->
  length v' = length v /\
  forall j, j <> Z.to_nat i -> v' !! j = v !! j.
Proof.
  unfold vec_store. destruct ((0 <=? i) && (i <? size v)); [| discriminate].
  intros [= <-]. split; [apply length_insert |].
  intros j Hj. apply list_lookup_insert_ne. congruence.
Qed.

(** X3: a character operation that returns touches one line only: the
    number of lines and the file path are as before, and so is every line
    other than the one at [row]. *)
Theorem char_ops_touch_one_line
    (b b' : Buffer) (row col : Z) (c : ascii) :
  Buffer.insertChar b row col c = Done b' \/ Buffer.deleteChar b row col = Done b' ->
  length (lines b') = length (lines b) /\
  filepath b' = filepath b /\
  forall i, i <> Z.to_nat (to_size_t row) -> lines b' !! i = lines b !! i.
Proof.
  intros [Hop | Hop].
  - unfold Buffer.insertChar in Hop.
    destruct (size (lines b) <=? to_size_t row).
    { injection Hop as <-. auto. }
    destruct (vec_index (lines b) (to_size_t row)) as [line | |];
      simpl in Hop; try discriminate.
    destruct (str_insert line (to_size_t col) c) as [line' | |];
      simpl in Hop; try discriminate.
    destruct (vec_store (lines b) (to_size_t row) line') as [ls | |] eqn:Hst;
      simpl in Hop; try discriminate.
    injection Hop as <-. simpl.
    destruct (vec_store_frame _ _ _ _ Hst) as [Hlen Hother]. auto.
  - unfold Buffer.deleteChar in Hop.
    destruct ((size (lines b) <=? to_size_t row) || (col =? 0)).
    { injection Hop as <-. auto. }
    destruct (vec_index (lines b) (to_size_t row)) as [line | |];
      simpl in Hop; try discriminate.
    destruct (str_erase line (to_size_t (to_int (col - 1))) 1) as [line' | |];
      simpl in Hop; try discriminate.
    destruct (vec_store (lines b) (to_size_t row) line') as [ls | |] eqn:Hst;
      simpl in Hop; try discriminate.
    injection Hop as <-. simpl.
    destruct (vec_store_frame _ _ _ _ Hst) as [Hlen Hother]. auto.
Qed.

Lemma char_ops_touch_one_line_witness :
  length (lines (mkBuffer [str "ab"; str "xcd"] [] true))
    = length (lines (mkBuffer [str "ab"; str "cd"] [] false)) /\
  filepath (mkBuffer [str "ab"; str "xcd"] [] true)
    = filepath (mkBuffer [str "ab"; str "cd"] [] false) /\
  forall i, i <> Z.to_nat (to_size_t 1) ->
    lines (mkBuffer [str "ab"; str "xcd"] [] true) !! i
    = lines (mkBuffer [str "ab"; str "cd"] [] false) !! i.
Proof.
  apply (char_ops_touch_one_line
           (mkBuffer [str "ab"; str "cd"] [] false)
           (mkBuffer [str "ab"; str "xcd"] [] true) 1 0 "x").
  left. reflexivity.
Defined.

Lemma lookup_inserted {A : Type} (l : list A) (n : nat) (x : A) :
  (n <= length l)%nat ->
  (forall i, (i < n)%nat -> (take n l ++ x :: drop n l) !! i = l !! i) /\
  (take n l ++ x :: drop n l) !! n = Some x /\
  (forall i, (n <= i)%nat -> (take n l ++ x :: drop n l) !! S i = l !! i).
Proof.
  intros Hn.
  assert (Hlen : length (take n l) = n) by (rewrite length_take; lia).
  repeat split.
  - intros i Hi. rewrite lookup_app_l by lia. now apply lookup_take_lt.
  - rewrite lookup_app_r by lia. now rewrite Hlen, Nat.sub_diag.
  - intros i Hi. rewrite lookup_app_r by lia. rewrite Hlen.
    replace (S i - n)%nat with (S (i - n)) by lia. simpl.
    rewrite lookup_drop. f_equal. lia.
Qed.

(** X4: [insertLine] on a valid row returns, marks the buffer modified
    and makes room below that row: the lines up to [row] stay where they
    are, line [row + 1] is empty, and every later line moves down by one. *)
Theorem insertLine_shifts_lines (b : Buffer) (row : Z) :
  is_int row -> 0 <= row < size (lines b) ->
  exists b',
    Buffer.insertLine b row = Done b' /\
    modified b' = true /\
    size (lines b') = size (lines b) + 1 /\
    (forall i, (i <= Z.to_nat row)%nat -> lines b' !! i = lines b !! i) /\
    lines b' !! S (Z.to_nat row) = Some [] /\
    (forall i, (Z.to_nat row < i)%nat -> lines b' !! S i = lines b !! i).
Proof.
  intros Hint Hrow. rewrite (insertLine_row _ _ Hint Hrow).
  eexists. split; [reflexivity |]. cbn [lines modified].
  replace (Z.to_nat (row + 1)) with (S (Z.to_nat row)) by lia.
  destruct (lookup_inserted (lines b) (S (Z.to_nat row)) [])
    as (Hbefore & Hat & Hafter); [unfold size in Hrow; lia |].
  repeat split.
  - unfold size in *. rewrite length_app, length_take. cbn [length].
    rewrite length_drop. lia.
  - intros i Hi. apply Hbefore. lia.
  - exact Hat.
  - intros i Hi. apply Hafter. lia.
Qed.

Lemma insertLine_shifts_lines_witness :
  exists b',
    Buffer.insertLine (mkBuffer [str "ab"; str "cd"] [] false) 0 = Done b' /\
    modified b' = true /\
    size (lines b') = size [str "ab"; str "cd"] + 1 /\
    (forall i, (i <= Z.to_nat 0)%nat -> lines b' !! i = [str "ab"; str "cd"] !! i) /\
    lines b' !! S (Z.to_nat 0) = Some [] /\
    (forall i, (Z.to_nat 0 < i)%nat -> lines b' !! S i = [str "ab"; str "cd"] !! i).
Proof.
  apply (insertLine_shifts_lines (mkBuffer [str "ab"; str "cd"] [] false) 0).
  - unfold is_int, int_min, int_max. lia.
  - unfold size. simpl. lia.
Defined.

(** X5: [deleteChar] only tests [col == 0].  On a valid row, the column
    one past the end of the line ([length + 1]) erases nothing, yet the
    call marks the buffer modified; any column beyond that leaves by
    [std::out_of_range]. *)
Theorem deleteChar_beyond_line_end
    (b : Buffer) (r col : Z) (line : cstring) :
  is_int r -> is_int col ->
  0 <= r -> lines b !! Z.to_nat r = Some line ->
  size line < col ->
  Buffer.deleteChar b r col
  = if col =? size line + 1
    then Done (mkBuffer (lines b) (filepath b) true)
    else Throws out_of_range.
Proof.
  intros Hr Hcol H0 Hline Hbeyond.
  pose proof (size_nonneg line) as Hnn.
  assert (Hpred : is_int (col - 1))
    by (unfold is_int, int_min, int_max in *; lia).
  rewrite (deleteChar_row _ _ _ _ Hr H0 Hline) by lia.
  rewrite (to_int_small _ Hpred), (to_size_t_int _ Hpred) by lia.
  unfold str_erase.
  destruct (Z.eqb_spec col (size line + 1)) as [-> | Hne].
  - settle (size line <? size line + 1 - 1) false.
    rewrite Z.min_r by lia.
    replace (size line + 1 - 1 + (size line - (size line + 1 - 1)))
      with (size line) by lia.
    replace (size line + 1 - 1) with (size line) by lia.
    unfold size. rewrite Nat2Z.id, firstn_all, drop_all, app_nil_r.
    simpl. now rewrite (list_insert_id _ _ _ Hline).
  - settle (size line <? col - 1) true. reflexivity.
Qed.

Lemma deleteChar_beyond_line_end_witness :
  Buffer.deleteChar (mkBuffer [str "ab"] [] false) 0 3
  = if 3 =? size (str "ab") + 1
    then Done (mkBuffer [str "ab"] [] true)
    else Throws out_of_range.
Proof.
  apply (deleteChar_beyond_line_end (mkBuffer [str "ab"] [] false) 0 3 (str "ab")).
  - unfold is_int, int_min, int_max. lia.
  - unfold is_int, int_min, int_max. lia.
  - lia.
  - reflexivity.
  - unfold size. simpl. lia.
Defined.

(** ** Buffer: reading files *)

Lemma cut_line_spec (s : cstring) :
  (newline ∉ fst (cut_line s)) /\
  (s = fst (cut_line s) ++ newline :: snd (cut_line s) \/
   (s = fst (cut_line s) /\ snd (cut_line s) = [])).
Proof.
  induction s as [| c s [IHfree IHsplit]]; simpl.
  - split; [apply not_elem_of_nil | now right].
  - destruct (Ascii.eqb_spec c newline) as [-> | Hc]; simpl.
    + split; [apply not_elem_of_nil | now left].
    + destruct (cut_line s) as [line rest]. simpl in *. split.
      * apply not_elem_of_cons. split; [congruence | assumption].
      * destruct IHsplit as [-> | [-> ->]]; [now left | now right].
Qed.

Lemma load_loop_acc (fuel : nat) (s : cstring) (acc : list cstring) :
  Buffer.load_loop fuel s acc = acc ++ Buffer.load_loop fuel s [].
Proof.
  revert s acc. induction fuel as [| fuel IH]; intros s acc; simpl.
  - now rewrite app_nil_r.
  - destruct (getline s) as [[line rest] |]; [| now rewrite app_nil_r].
    rewrite (IH rest (acc ++ [line])), (IH rest [line]).
    now rewrite <- app_assoc.
Qed.

Lemma load_loop_newline_free (fuel : nat) (s : cstring) (acc : list cstring) :
  Forall (fun l => newline ∉ l) acc ->
  Forall (fun l => newline ∉ l) (Buffer.load_loop fuel s acc).
Proof.
  revert s acc. induction fuel as [| fuel IH]; intros s acc Hacc;
    cbn [Buffer.load_loop].
  - assumption.
  - destruct s as [| c s]; cbn [getline]; [assumption |].
    pose proof (cut_line_spec (c :: s)) as [Hfree _].
    destruct (cut_line (c :: s)) as [line rest]. cbn [fst] in Hfree.
    apply IH. apply Forall_app. split; [assumption |].
    constructor; [exact Hfree | constructor].
Qed.

Lemma file_image_app (ls1 ls2 : list cstring) :
  Buffer.file_image (ls1 ++ ls2)
  = Buffer.file_image ls1 ++ Buffer.file_image ls2.
Proof.
  unfold Buffer.file_image at 1. rewrite fold_left_app.
  fold (Buffer.file_image ls1). apply file_image_from.
Qed.

Lemma with_final_newline_line (line : cstring) :
  newline ∉ line -> with_final_newline line = line ++ [newline].
Proof.
  intros Hfree. unfold with_final_newline.
  destruct (last line) as [c |] eqn:Hlast; [| reflexivity].
  destruct (Ascii.eqb_spec c newline) as [-> | _]; [| reflexivity].
  apply last_Some_elem_of in Hlast. contradiction.
Qed.

Lemma with_final_newline_cut (line rest : cstring) :
  with_final_newline (line ++ newline :: rest)
  = line ++ newline :: (if bool_decide (rest = []) then []
                        else with_final_newline rest).
Proof.
  unfold with_final_newline. rewrite last_app_cons.
  destruct rest as [| c rest].
  - rewrite last_singleton, Ascii.eqb_refl.
    now rewrite bool_decide_eq_true_2.
  - rewrite last_cons_cons, bool_decide_eq_false_2 by discriminate.
    destruct (last (c :: rest)) as [d |]; [| now rewrite <- app_assoc].
    destruct (Ascii.eqb d newline); [reflexivity | now rewrite <- app_assoc].
Qed.

Lemma load_loop_image_any (fuel : nat) (s : cstring) :
  s <> [] -> (length s < fuel)%nat ->
  Buffer.load_loop fuel s [] <> [] /\
  Buffer.file_image (Buffer.load_loop fuel s []) = with_final_newline s.
Proof.
  revert s. induction fuel as [| fuel IH]; intros s Hne Hfuel; [lia |].
  destruct s as [| c s]; [congruence |].
  cbn [Buffer.load_loop getline].
  pose proof (cut_line_spec (c :: s)) as [Hfree Hsplit].
  pose proof (cut_line_shorter (c :: s)) as Hshort.
  destruct (cut_line (c :: s)) as [line rest]. cbn [fst snd] in *.
  simpl in Hfuel, Hshort.
  rewrite load_loop_acc. split; [now destruct line |].
  rewrite file_image_app, app_nil_l.
  change (Buffer.file_image [line]) with (line ++ [newline]).
  rewrite <- app_assoc. cbn [app].
  destruct rest as [| d rest].
  - assert (Hnil : Buffer.load_loop fuel [] [] = []) by now destruct fuel.
    rewrite Hnil. change (Buffer.file_image []) with (@nil ascii).
    destruct Hsplit as [-> | [-> _]].
    + now rewrite with_final_newline_cut.
    + now rewrite with_final_newline_line.
  - destruct Hsplit as [-> | [_ Hrest]]; [| discriminate].
    rewrite with_final_newline_cut. simpl.
    destruct (IH (d :: rest)) as [_ ->];
      [discriminate | simpl in Hshort |- *; lia |].
    reflexivity.
Qed.

(** X6: what [load] produces.  No line of a loaded buffer holds a
    newline byte, whatever the file; and writing the loaded lines back the
    way [save] does reproduces the file's bytes, with one newline added at
    the end when the file did not end in one (an empty or missing file
    gives a single newline). *)
Theorem load_normalises_final_newline (w : World) (b : Buffer) :
  Forall (fun l => newline ∉ l) (lines (Buffer.load w b)) /\
  Buffer.file_image (lines (Buffer.load w b))
  = with_final_newline (default [] (contents w (filepath b))).
Proof.
  unfold Buffer.load.
  destruct (contents w (filepath b)) as [data |]; cbn [lines default].
  - destruct data as [| c data].
    + split; [| reflexivity]. simpl.
      constructor; [apply not_elem_of_nil | constructor].
    + destruct (load_loop_image_any (S (length (c :: data))) (c :: data))
        as [Hne Himage]; [discriminate | lia |].
      rewrite bool_decide_eq_false_2 by exact Hne. split; [| exact Himage].
      apply load_loop_newline_free. constructor.
  - split; [| reflexivity].
    constructor; [apply not_elem_of_nil | constructor].
Qed.

(** ** SyntaxHighlighter: rule order and text preservation *)

(** X7: a rule registered with [addRule] is applied last, to the output
    of the rules registered before it. *)
Theorem addRule_applies_last
    (fuel : nat) (rules : SyntaxHighlighter) (p : regex) (c line : cstring) :
  SyntaxHighlighter.highlight fuel (SyntaxHighlighter.addRule rules p c) line
  = match SyntaxHighlighter.highlight fuel rules line with
    | Some colored => SyntaxHighlighter.highlight_loop fuel (mkRule p c) colored []
    | None => None
    end.
Proof.
  unfold SyntaxHighlighter.addRule. revert line.
  induction rules as [| rule rules IH]; intros line; simpl.
  - now destruct (SyntaxHighlighter.highlight_loop fuel (mkRule p c) line []).
  - destruct (SyntaxHighlighter.highlight_loop fuel rule line []);
      [apply IH | reflexivity].
Qed.

Lemma highlight_loop_keeps_text
    (fuel : nat) (rule : HighlightRule) (rest result out : cstring) :
  SyntaxHighlighter.highlight_loop fuel rule rest result = Some out ->
  (result ++ rest) `sublist_of` out.
Proof.
  revert rest result. induction fuel as [| fuel IH]; intros rest result;
    cbn [SyntaxHighlighter.highlight_loop]; [discriminate |].
  destruct (pattern rule rest) as [[pos len] |].
  - intros Hout. apply IH in Hout.
    etransitivity; [| exact Hout].
    rewrite <- !app_assoc. apply sublist_app; [reflexivity |].
    rewrite <- (take_drop pos rest) at 1.
    apply sublist_app; [reflexivity |].
    apply sublist_inserts_l.
    rewrite <- (take_drop len (drop pos rest)) at 1.
    apply sublist_app; [reflexivity |].
    apply sublist_inserts_l.
    rewrite drop_drop. now rewrite (Nat.add_comm pos len).
  - now intros [= <-].
Qed.

(** X8: [highlight] only inserts escape sequences: whenever it returns,
    the input line is a subsequence of the result, so no character of the
    line is dropped or reordered. *)
Theorem highlight_keeps_text
    (fuel : nat) (rules : SyntaxHighlighter) (line out : cstring) :
  SyntaxHighlighter.highlight fuel rules line = Some out ->
  line `sublist_of` out.
Proof.
  revert line. induction rules as [| rule rules IH]; intros line; simpl.
  - now intros [= <-].
  - destruct (SyntaxHighlighter.highlight_loop fuel rule line [])
      as [colored |] eqn:Hloop; [| discriminate].
    intros Hout. apply highlight_loop_keeps_text in Hloop.
    etransitivity; [exact Hloop | now apply IH].
Qed.

Lemma highlight_keeps_text_witness :
  str "if x" `sublist_of` (esc :: str "[34mif" ++ reset ++ str " x").
Proof.
  apply (highlight_keeps_text 5
           [mkRule (literal (str "if")) (esc :: str "[34m")] (str "if x")).
  reflexivity.
Defined.

(** X9: a line in which no rule's pattern finds a match comes back
    unchanged, after one search per rule. *)
Theorem highlight_without_match
    (fuel : nat) (rules : SyntaxHighlighter) (line : cstring) :
  Forall (fun rule => pattern rule line = None) rules ->
  SyntaxHighlighter.highlight (S fuel) rules line = Some line.
Proof.
  induction 1 as [| rule rules Hrule _ IH]; cbn; [reflexivity |].
  now rewrite Hrule.
Qed.

Lemma highlight_without_match_witness :
  SyntaxHighlighter.highlight 1
    [mkRule (literal (str "if")) (esc :: str "[34m");
     mkRule (literal (str "//")) (esc :: str "[90m")] (str "x = 1;")
  = Some (str "x = 1;").
Proof.
  apply (highlight_without_match 0
           [mkRule (literal (str "if")) (esc :: str "[34m");
            mkRule (literal (str "//")) (esc :: str "[90m")] (str "x = 1;")).
  constructor; [reflexivity |]. constructor; [reflexivity |]. constructor.
Defined.

(** ** FileExplorer: selection *)

(** X10: on a non-empty listing, and when [selectedIndex + delta] does
    not overflow, [moveSelection] moves the index by [delta] and clamps it
    to [0, count - 1]. *)
Theorem moveSelection_clamps (fe : FileExplorer) (delta : Z) :
  1 <= size (files fe) ->
  is_int (selectedIndex fe + delta) ->
  selectedIndex (FileExplorer.moveSelection fe delta)
  = Z.max 0 (Z.min (size (files fe) - 1) (selectedIndex fe + delta)).
Proof.
  intros Hcount Hsum. unfold FileExplorer.moveSelection. cbn [selectedIndex].
  rewrite (to_int_small _ Hsum).
  set (moved := selectedIndex fe + delta) in *.
  unfold is_int, int_min, int_max in Hsum.
  destruct (Z.ltb_spec moved 0) as [Hneg | Hpos].
  - rewrite to_size_t_small by lia.
    settle (size (files fe) <=? 0) false. lia.
  - rewrite (to_size_t_small moved) by lia.
    destruct (Z.leb_spec (size (files fe)) moved) as [Hge | Hlt]; [| lia].
    rewrite to_size_t_small by lia.
    rewrite to_int_small by (unfold is_int, int_min, int_max; lia).
    lia.
Qed.

Lemma moveSelection_clamps_witness :
  selectedIndex (FileExplorer.moveSelection
                   (mkFileExplorer [str "a"; str "b"; str "c"] 1) (-5))
  = Z.max 0 (Z.min (size [str "a"; str "b"; str "c"] - 1) (1 + -5)).
Proof.
  apply (moveSelection_clamps (mkFileExplorer [str "a"; str "b"; str "c"] 1) (-5)).
  - unfold size. simpl. lia.
  - unfold is_int, int_min, int_max. simpl. lia.
Defined.

(** X11: [getSelected] never indexes outside the listing.  For an index
    that is an [int], it returns the entry at that index when there is
    one and the empty string otherwise (negative index, index past the
    end, empty listing), for instance after a rescan that made the listing
    shorter than the kept index. *)
Theorem getSelected_is_guarded (fe : FileExplorer) :
  is_int (selectedIndex fe) ->
  size (files fe) <= max_size ->
  FileExplorer.getSelected fe
  = Done (if 0 <=? selectedIndex fe
          then default [] (files fe !! Z.to_nat (selectedIndex fe))
          else []).
Proof.
  intros Hsel Hsz. unfold FileExplorer.getSelected.
  pose proof (size_nonneg (files fe)) as Hnn. unfold max_size in Hsz.
  destruct (Z.leb_spec 0 (selectedIndex fe)) as [Hpos | Hneg].
  - rewrite (to_size_t_int _ Hsel Hpos).
    destruct (Z.ltb_spec (selectedIndex fe) (size (files fe))) as [Hlt | Hge].
    + destruct (lookup_lt_is_Some_2 (files fe) (Z.to_nat (selectedIndex fe)))
        as [name Hname]; [unfold size in Hlt; lia |].
      rewrite (vec_index_lookup _ _ _ Hpos Hname).
      unfold cstring in *. now rewrite Hname.
    + rewrite lookup_ge_None_2; [reflexivity |].
      unfold size, cstring in *. lia.
  - rewrite (to_size_t_negative _ Hsel Hneg).
    unfold is_int, int_min in Hsel.
    settle (selectedIndex fe + 2 ^ 64 <? size (files fe)) false. reflexivity.
Qed.

Lemma getSelected_is_guarded_witness :
  FileExplorer.getSelected (mkFileExplorer [str "a"] 4)
  = Done (if 0 <=? 4 then default [] ([str "a"] !! Z.to_nat 4) else []).
Proof.
  apply (getSelected_is_guarded (mkFileExplorer [str "a"] 4)).
  - unfold is_int, int_min, int_max. simpl. lia.
  - unfold size, max_size. simpl. lia.
Defined.

Lemma moveSelection_index_range (fe : FileExplorer) (delta : Z) :
  1 <= size (files fe) ->
  0 <= selectedIndex (FileExplorer.moveSelection fe delta) < size (files fe) /\
  selectedIndex (FileExplorer.moveSelection fe delta) <= int_max.
Proof.
  intros Hcount. unfold FileExplorer.moveSelection. cbn [selectedIndex].
  pose proof (to_int_is_int (selectedIndex fe + delta)) as Hint.
  set (moved := to_int (selectedIndex fe + delta)) in *.
  unfold is_int, int_min, int_max in *.
  destruct (Z.ltb_spec moved 0) as [Hneg | Hpos].
  - rewrite to_size_t_small by lia.
    settle (size (files fe) <=? 0) false. lia.
  - rewrite (to_size_t_small moved) by lia.
    destruct (Z.leb_spec (size (files fe)) moved) as [Hge | Hlt]; [| lia].
    rewrite to_size_t_small by lia.
    rewrite to_int_small by (unfold is_int, int_min, int_max; lia).
    lia.
Qed.

(** X12: after [moveSelection], whatever the previous index and the
    delta, [getSelected] returns: a name of the listing when the listing
    is not empty, and the empty string when it is. *)
Theorem getSelected_after_moveSelection (fe : FileExplorer) (delta : Z) :
  exists name,
    FileExplorer.getSelected (FileExplorer.moveSelection fe delta) = Done name /\
    (files fe = [] -> name = []) /\
    (files fe <> [] -> name ∈ files fe).
Proof.
  destruct (files fe) as [| first others] eqn:Hfiles.
  - exists []. split; [| split; [reflexivity | congruence]].
    unfold FileExplorer.getSelected, FileExplorer.moveSelection.
    cbn [files selectedIndex]. rewrite Hfiles.
    change (size (@nil cstring)) with 0.
    pose proof (to_int_is_int (selectedIndex fe + delta)) as Hint.
    set (moved := to_int (selectedIndex fe + delta)) in *.
    unfold is_int, int_min, int_max in Hint.
    assert (Hguard : (0 <=? to_size_t (if moved <? 0 then 0 else moved)) = true).
    { apply Z.leb_le. destruct (moved <? 0); unfold to_size_t;
        apply Z.mod_pos_bound; lia. }
    rewrite Hguard.
    change (to_int (to_size_t (0 - 1))) with (-1).
    change (to_size_t (-1) <? 0) with false. reflexivity.
  - assert (Hcount : 1 <= size (files fe)).
    { rewrite Hfiles. unfold size. simpl. lia. }
    pose proof (moveSelection_index_range fe delta Hcount) as [Hrange Hmax].
    unfold int_max in Hmax.
    assert (Hsame : files (FileExplorer.moveSelection fe delta) = files fe)
      by reflexivity.
    set (fe' := FileExplorer.moveSelection fe delta) in *.
    destruct (lookup_lt_is_Some_2 (files fe) (Z.to_nat (selectedIndex fe')))
      as [name Hname]; [unfold size in Hrange; lia |].
    exists name. rewrite <- Hfiles. split; [| split].
    + unfold FileExplorer.getSelected. rewrite Hsame.
      assert (Hsmall : to_size_t (selectedIndex fe') = selectedIndex fe').
      { apply to_size_t_small. pose proof (lookup_size _ _ _ Hname). lia. }
      rewrite Hsmall.
      settle (selectedIndex fe' <? size (files fe)) true.
      apply vec_index_lookup; [lia | exact Hname].
    + intros Hnil. rewrite Hnil in Hfiles. discriminate.
    + intros _. apply list_elem_of_lookup. eauto.
Qed.

(** ** Editor: the cursor invariant *)

(** Linear arithmetic over sizes and [int] bounds. *)
Ltac sizes :=
  unfold is_int, int_min, int_max, max_size, size, cstring in *; lia.

Lemma cursor_ok_fields (N : Z) (e e' : Editor) :
  buffers e' = buffers e -> currentBuffer e' = currentBuffer e ->
  cursorRow e' = cursorRow e -> cursorCol e' = cursorCol e ->
  cursor_ok N e -> cursor_ok N e'.
Proof.
  intros Hb Hc Hr Hcol. unfold cursor_ok. now rewrite Hb, Hc, Hr, Hcol.
Qed.

Lemma cursor_ok_mono (N M : Z) (e : Editor) :
  N <= M -> cursor_ok N e -> cursor_ok M e.
Proof.
  intros HNM (b & line & Hcur & Hb & Hrow & Hline & Hcol & Hbs & Hls & Hall).
  exists b, line. repeat split; try assumption; try lia.
  eapply Forall_impl; [exact Hall |]. simpl. intros l [Hfree Hsz].
  split; [assumption | lia].
Qed.

Lemma files_ok_mono (N M : Z) (w : World) :
  N <= M -> files_ok N w -> files_ok M w.
Proof.
  intros HNM Hw path. destruct (Hw path) as [Hcount Hall].
  split; [lia |]. eapply Forall_impl; [exact Hall |]. simpl. intros l Hl. lia.
Qed.

Lemma current_buffer (e : Editor) (b : Buffer) :
  0 <= currentBuffer e -> size (buffers e) <= int_max ->
  buffers e !! Z.to_nat (currentBuffer e) = Some b ->
  Editor.getCurrentBuffer e = Done b /\
  forall b', Editor.putCurrentBuffer e b'
             = Done (set_buffers e (<[Z.to_nat (currentBuffer e) := b']> (buffers e))
                       (currentBuffer e)).
Proof.
  intros Hcur Hsz Hb.
  pose proof (lookup_size _ _ _ Hb) as Hlt. rewrite Z2Nat.id in Hlt by assumption.
  unfold int_max in Hsz.
  assert (Hconv : to_size_t (currentBuffer e) = currentBuffer e)
    by (apply to_size_t_small; lia).
  unfold Editor.getCurrentBuffer, Editor.putCurrentBuffer. rewrite Hconv.
  split; [now apply vec_index_lookup |].
  intros b'. now rewrite (vec_store_lookup _ _ _ b' Hcur Hb).
Qed.

(** The state after the current buffer was replaced and the cursor
    moved. *)
Lemma cursor_ok_replace
    (N : Z) (e e' : Editor) (b b' : Buffer) (line' : cstring) :
  0 <= currentBuffer e ->
  buffers e !! Z.to_nat (currentBuffer e) = Some b ->
  size (buffers e) <= N ->
  buffers e' = <[Z.to_nat (currentBuffer e) := b']> (buffers e) ->
  currentBuffer e' = currentBuffer e ->
  0 <= cursorRow e' ->
  lines b' !! Z.to_nat (cursorRow e') = Some line' ->
  0 <= cursorCol e' <= size line' ->
  size (lines b') <= N ->
  Forall (fun l => (newline ∉ l) /\ size l <= N) (lines b') ->
  cursor_ok N e'.
Proof.
  intros Hcur Hb Hbs Hbufs Hsame Hrow Hline Hcol Hls Hall.
  exists b', line'. rewrite Hbufs, Hsame.
  repeat split; try assumption; try lia.
  - apply list_lookup_insert_eq. now apply lookup_lt_Some in Hb.
  - unfold size in *. now rewrite length_insert.
Qed.

Lemma int_of_char_newline (c : ascii) :
  32 <= int_of_char c -> c <> newline.
Proof. intros Hk ->. vm_compute in Hk. now apply Hk. Qed.

Lemma Forall_insert_line (N : Z) (ls : list cstring) (i : nat) (l : cstring) :
  Forall (fun l => (newline ∉ l) /\ size l <= N) ls ->
  newline ∉ l -> size l <= N + 1 ->
  Forall (fun l => (newline ∉ l) /\ size l <= N + 1) (<[i := l]> ls).
Proof.
  intros Hall Hfree Hsz. apply Forall_insert; [| now split].
  eapply Forall_impl; [exact Hall |]. simpl. intros l' [Hf Hs].
  split; [assumption | lia].
Qed.

Lemma newline_free_edit (line : cstring) (n m : nat) (mid : cstring) :
  newline ∉ line -> newline ∉ mid ->
  newline ∉ take n line ++ mid ++ drop m line.
Proof.
  intros Hline Hmid Hin.
  apply elem_of_app in Hin as [Hin | Hin].
  - now apply subseteq_take in Hin.
  - apply elem_of_app in Hin as [Hin | Hin]; [contradiction |].
    now apply subseteq_drop in Hin.
Qed.

Lemma line_of_buffer (N : Z) (ls : list cstring) (i : nat) (line : cstring) :
  Forall (fun l => (newline ∉ l) /\ size l <= N) ls ->
  ls !! i = Some line -> (newline ∉ line) /\ size line <= N.
Proof.
  intros Hall Hline. rewrite Forall_forall in Hall. apply Hall.
  apply list_elem_of_lookup. eauto.
Qed.

Lemma Editor_insertChar_ok (N : Z) (e : Editor) (c : ascii) :
  N < int_max -> cursor_ok N e -> c <> newline ->
  exists e',
    Editor.insertChar e c = Done e' /\ cursor_ok (N + 1) e' /\
    commandMode e' = commandMode e.
Proof.
  intros HN (b & line & Hcur & Hb & Hrow & Hline & Hcol & Hbs & Hls & Hall) Hc.
  unfold int_max in HN.
  pose proof (lookup_size _ _ _ Hline) as Hrlt.
  rewrite Z2Nat.id in Hrlt by assumption.
  assert (Hrint : is_int (cursorRow e)) by sizes.
  destruct (line_of_buffer _ _ _ _ Hall Hline) as [Hfree Hline_sz].
  assert (Hcint : is_int (cursorCol e)) by sizes.
  destruct (current_buffer e b Hcur) as [Hget Hput];
    [sizes | assumption |].
  unfold Editor.insertChar. rewrite Hget. simpl bind.
  rewrite (insertChar_row _ _ _ _ _ Hrint Hrow Hline).
  rewrite (to_size_t_int _ Hcint) by lia.
  rewrite str_insert_in_range by lia. simpl bind.
  rewrite Hput. simpl bind.
  eexists. split; [reflexivity |]. split; [| reflexivity].
  set (line' := take (Z.to_nat (cursorCol e)) line
                  ++ c :: drop (Z.to_nat (cursorCol e)) line).
  assert (Hsz' : size line' = size line + 1).
  { unfold line', size in *. rewrite length_app, length_take. cbn [length].
    rewrite length_drop. lia. }
  assert (Hto : to_int (cursorCol e + 1) = cursorCol e + 1)
    by (apply to_int_small; sizes).
  eapply (cursor_ok_replace (N + 1) e _ b _ line');
    cbn [buffers currentBuffer cursorRow cursorCol set_pluginManager
         set_cursor set_buffers lines];
    try reflexivity; try assumption; try sizes.
  all: cbn [lines].
  - apply list_lookup_insert_eq. now apply lookup_lt_Some in Hline.
  - unfold size in *. rewrite length_insert. sizes.
  - apply Forall_insert_line; [assumption | | sizes].
    unfold line'. apply (newline_free_edit line _ _ [c]); [assumption |].
    intros Hin. apply list_elem_of_singleton in Hin. congruence.
Qed.

Lemma Editor_deleteChar_ok (N : Z) (e : Editor) :
  N < int_max -> cursor_ok N e ->
  exists e',
    Editor.deleteChar e = Done e' /\ cursor_ok N e' /\
    commandMode e' = commandMode e.
Proof.
  intros HN Hok. unfold Editor.deleteChar.
  destruct (Z.ltb_spec 0 (cursorCol e)) as [Hpos | Hzero]; [| eauto].
  destruct Hok as (b & line & Hcur & Hb & Hrow & Hline & Hcol & Hbs & Hls & Hall).
  pose proof (lookup_size _ _ _ Hline) as Hrlt.
  rewrite Z2Nat.id in Hrlt by assumption.
  destruct (line_of_buffer _ _ _ _ Hall Hline) as [Hfree Hline_sz].
  assert (Hrint : is_int (cursorRow e)) by sizes.
  assert (Hpint : is_int (cursorCol e - 1)) by sizes.
  destruct (current_buffer e b Hcur) as [Hget Hput];
    [sizes | assumption |].
  rewrite Hget. simpl bind.
  rewrite (deleteChar_row _ _ _ _ Hrint Hrow Hline) by lia.
  rewrite (to_int_small _ Hpint), (to_size_t_int _ Hpint) by lia.
  rewrite str_erase_in_range by lia. simpl bind.
  rewrite Hput. simpl bind.
  eexists. split; [reflexivity |]. split; [| reflexivity].
  set (line' := take (Z.to_nat (cursorCol e - 1)) line
                  ++ drop (S (Z.to_nat (cursorCol e - 1))) line).
  assert (Hsz' : size line' = size line - 1).
  { unfold line', size in *. rewrite length_app, length_take, length_drop. lia. }
  eapply (cursor_ok_replace N e _ b _ line');
    cbn [buffers currentBuffer cursorRow cursorCol set_pluginManager
         set_cursor set_buffers lines];
    try reflexivity; try assumption; try sizes.
  all: cbn [lines].
  - apply list_lookup_insert_eq. now apply lookup_lt_Some in Hline.
  - rewrite (to_int_small _ Hpint). lia.
  - unfold size in *. rewrite length_insert. sizes.
  - apply Forall_insert; [assumption |]. split; [| lia].
    unfold line'.
    apply (newline_free_edit line (Z.to_nat (cursorCol e - 1))
             (S (Z.to_nat (cursorCol e - 1))) []); [assumption |].
    apply not_elem_of_nil.
Qed.

Lemma Editor_newLine_ok (N : Z) (e : Editor) :
  N < int_max -> cursor_ok N e ->
  exists e',
    Editor.newLine e = Done e' /\ cursor_ok (N + 1) e' /\
    commandMode e' = commandMode e.
Proof.
  intros HN (b & line & Hcur & Hb & Hrow & Hline & Hcol & Hbs & Hls & Hall).
  pose proof (lookup_size _ _ _ Hline) as Hrlt.
  rewrite Z2Nat.id in Hrlt by assumption.
  destruct (line_of_buffer _ _ _ _ Hall Hline) as [Hfree Hline_sz].
  assert (Hrint : is_int (cursorRow e)) by sizes.
  assert (Hcint : is_int (cursorCol e)) by sizes.
  destruct (current_buffer e b Hcur) as [Hget Hput];
    [sizes | assumption |].
  unfold Editor.newLine. rewrite Hget. simpl bind.
  rewrite (getLine_row _ _ _ Hrint Hrow Hline). simpl bind.
  rewrite (to_size_t_int _ Hcint) by lia.
  destruct (str_substr_returns line (cursorCol e) None Hcol) as [rest ->].
  simpl bind.
  destruct (str_substr_returns line 0 (Some (cursorCol e))) as [kept ->];
    [lia |].
  simpl bind.
  rewrite (insertLine_row _ _ Hrint) by sizes. simpl bind.
  rewrite Hput. simpl bind.
  eexists. split; [reflexivity |]. split; [| reflexivity].
  assert (Hto : to_int (cursorRow e + 1) = cursorRow e + 1)
    by (apply to_int_small; sizes).
  destruct (lookup_inserted (lines b) (Z.to_nat (cursorRow e + 1)) [])
    as (_ & Hat & _); [sizes |].
  eapply (cursor_ok_replace (N + 1) e _ b _ []);
    cbn [buffers currentBuffer cursorRow cursorCol set_pluginManager
         set_cursor set_buffers lines];
    try reflexivity; try assumption; try sizes.
  all: cbn [lines].
  - now rewrite Hto.
  - unfold size in *. rewrite length_app, length_take. cbn [length].
    rewrite length_drop. sizes.
  - apply Forall_app. split; [| constructor].
    + apply Forall_take. eapply Forall_impl; [exact Hall |].
      simpl. intros l [Hf Hs]. split; [assumption | lia].
    + split; [apply not_elem_of_nil |].
      change (size (@nil ascii)) with 0. sizes.
    + apply Forall_drop. eapply Forall_impl; [exact Hall |].
      simpl. intros l [Hf Hs]. split; [assumption | lia].
Qed.

Lemma str_substr_from_start (s : cstring) (n : Z) :
  0 <= n -> str_substr s 0 (Some n) = Done (take (Z.to_nat n) s).
Proof.
  intros Hn. unfold str_substr. pose proof (size_nonneg s) as Hnn.
  settle (size s <? 0) false. change (Z.to_nat 0) with 0%nat.
  rewrite drop_0, Z.sub_0_r. f_equal.
  destruct (Z.le_ge_cases n (size s)) as [Hle | Hge].
  - now rewrite Z.min_l.
  - rewrite Z.min_r by assumption.
    unfold size in *. rewrite Nat2Z.id, firstn_all.
    symmetry. apply take_ge. lia.
Qed.

Lemma str_substr_to_end (s : cstring) (pos : Z) :
  0 <= pos <= size s ->
  str_substr s pos None = Done (drop (Z.to_nat pos) s).
Proof.
  intros Hpos. unfold str_substr. settle (size s <? pos) false.
  f_equal. apply take_ge. rewrite length_drop. unfold size in *. lia.
Qed.

Lemma load_lines_newline_free (w : World) (b : Buffer) :
  Forall (fun l => newline ∉ l) (lines (Buffer.load w b)).
Proof.
  unfold Buffer.load.
  destruct (contents w (filepath b)) as [data |]; cbn [lines].
  - case_bool_decide.
    + constructor; [apply not_elem_of_nil | constructor].
    + apply load_loop_newline_free. constructor.
  - constructor; [apply not_elem_of_nil | constructor].
Qed.

Lemma Buffer_open_written (w : World) (p q : cstring) (ls : list cstring) :
  ls <> [] -> Forall (fun l => newline ∉ l) ls ->
  lines (Buffer_open (write_file w p (Buffer.file_image ls)) q)
  = if writable w p && bool_decide (q = p) then ls
    else lines (Buffer_open w q).
Proof.
  intros Hne Hfree. unfold write_file.
  destruct (writable w p); [| reflexivity]. cbn [andb].
  unfold Buffer_open, Buffer.load. cbn [contents filepath lines modified].
  case_bool_decide as Hq.
  - rewrite decide_True by assumption.
    rewrite load_loop_image by (assumption || lia). cbn [app].
    now rewrite bool_decide_eq_false_2.
  - now rewrite decide_False.
Qed.

Lemma write_file_ok (N : Z) (w : World) (p : cstring) (ls : list cstring) :
  files_ok N w -> ls <> [] -> size ls <= N ->
  Forall (fun l => (newline ∉ l) /\ size l <= N) ls ->
  files_ok N (write_file w p (Buffer.file_image ls)).
Proof.
  intros Hw Hne Hsz Hall path.
  apply Forall_and in Hall as [Hfree Hsizes].
  rewrite (Buffer_open_written _ _ _ _ Hne Hfree).
  destruct (writable w p && bool_decide (path = p)); [now split | apply Hw].
Qed.

Lemma quit_ok (N : Z) (e : Editor) :
  N <= int_max -> cursor_ok N e ->
  exists e',
    Editor.quit e = Done e' /\ cursor_ok N e' /\
    commandMode e' = commandMode e /\ commandBuffer e' = commandBuffer e.
Proof.
  intros HN Hok.
  pose proof Hok as (b & line & Hcur & Hb & _ & _ & _ & Hbs & _).
  destruct (current_buffer e b Hcur) as [Hget _]; [lia | assumption |].
  unfold Editor.quit. rewrite Hget. simpl bind.
  destruct (Buffer.isModified b); eexists; (split; [reflexivity |]);
    (split; [| now split]);
    now apply (cursor_ok_fields N e).
Qed.

Lemma saveFile_ok (N : Z) (w : World) (e : Editor) :
  N <= int_max -> cursor_ok N e -> files_ok N w ->
  exists w' e',
    Editor.saveFile w e = Done (w', e') /\ cursor_ok N e' /\ files_ok N w' /\
    commandMode e' = commandMode e /\ commandBuffer e' = commandBuffer e.
Proof.
  intros HN (b & line & Hcur & Hb & Hrow & Hline & Hcol & Hbs & Hls & Hall) Hw.
  destruct (current_buffer e b Hcur) as [Hget Hput]; [lia | assumption |].
  unfold Editor.saveFile, Buffer.save. rewrite Hget. simpl bind.
  rewrite Hput. simpl bind.
  eexists. eexists. split; [reflexivity |]. split; [| split; [| now split]].
  - eapply (cursor_ok_replace N e _ b _ line);
      cbn [buffers currentBuffer cursorRow cursorCol set_statusMessage
           set_buffers lines];
      try reflexivity; assumption.
  - apply write_file_ok; try assumption.
    intros Hnil. rewrite Hnil in Hline. discriminate.
Qed.

Lemma openFile_ok (N : Z) (w : World) (e : Editor) (path : cstring) :
  N < int_max -> cursor_ok N e -> files_ok N w ->
  cursor_ok (N + 1) (Editor.openFile w e path).
Proof.
  intros HN (b & line & Hcur & Hb & _ & _ & _ & Hbs & _) Hw.
  pose proof (size_nonneg (buffers e)) as Hnn.
  destruct (Hw path) as [Hcount Hsizes].
  pose proof (load_nonempty w (mkBuffer [] path false)) as Hone.
  fold (Buffer_open w path) in Hone.
  pose proof (load_lines_newline_free w (mkBuffer [] path false)) as Hfree.
  fold (Buffer_open w path) in Hfree.
  destruct (lines (Buffer_open w path)) as [| first others] eqn:Hlines.
  { unfold size in Hone. simpl in Hone. lia. }
  assert (Hnew : to_int (to_size_t (size (buffers e ++ [Buffer_open w path]) - 1))
                 = size (buffers e)).
  { rewrite size_app. change (size [Buffer_open w path]) with 1.
    replace (size (buffers e) + 1 - 1) with (size (buffers e)) by lia.
    rewrite to_size_t_small by sizes. apply to_int_small. sizes. }
  exists (Buffer_open w path), first. unfold Editor.openFile.
  cbn [buffers currentBuffer cursorRow cursorCol set_cursor set_buffers].
  rewrite Hnew, Hlines.
  repeat split; try lia.
  - unfold size. rewrite Nat2Z.id, lookup_app_r by lia.
    now rewrite Nat.sub_diag.
  - apply size_nonneg.
  - rewrite size_app. change (size [Buffer_open w path]) with 1. lia.
  - apply Forall_and. split; [assumption |].
    eapply Forall_impl; [exact Hsizes |]. simpl. intros l Hl. lia.
Qed.

Lemma executeCommand_ok (N : Z) (w : World) (e : Editor) (cmd : cstring) :
  N < int_max -> cursor_ok N e -> files_ok N w ->
  exists w' e',
    Editor.executeCommand w e cmd = Done (w', e') /\
    cursor_ok (N + 1) e' /\ files_ok N w' /\
    commandMode e' = commandMode e /\ commandBuffer e' = commandBuffer e.
Proof.
  intros HN Hok Hw. unfold Editor.executeCommand.
  assert (HN' : N <= int_max) by lia.
  assert (Hup : forall e', cursor_ok N e' -> cursor_ok (N + 1) e').
  { intros e'. apply cursor_ok_mono. lia. }
  case_bool_decide as Hq.
  { destruct (quit_ok N e HN' Hok) as (e' & -> & Hok' & Hm & Hb).
    simpl bind. exists w, e'. auto 6. }
  case_bool_decide as Hwr.
  { destruct (saveFile_ok N w e HN' Hok Hw)
      as (w' & e' & -> & Hok' & Hw' & Hm & Hb).
    exists w', e'. auto 6. }
  case_bool_decide as Hwq.
  { destruct (saveFile_ok N w e HN' Hok Hw)
      as (w' & e1 & -> & Hok1 & Hw' & Hm1 & Hb1).
    simpl bind.
    destruct (quit_ok N e1 HN' Hok1) as (e' & -> & Hok' & Hm & Hb).
    simpl bind. exists w', e'.
    rewrite Hm, Hb. auto 6. }
  rewrite str_substr_from_start by lia. simpl bind.
  case_bool_decide as Hopen.
  { assert (Hlen : 2 <= size cmd).
    { apply (f_equal (@length ascii)) in Hopen.
      rewrite length_take in Hopen.
      cbn [length] in Hopen. unfold size. lia. }
    rewrite str_substr_to_end by lia. simpl bind.
    eexists. eexists. split; [reflexivity |].
    split; [now apply openFile_ok |]. auto. }
  assert (Hsame : forall e', buffers e' = buffers e ->
                    currentBuffer e' = currentBuffer e ->
                    cursorRow e' = cursorRow e -> cursorCol e' = cursorCol e ->
                    cursor_ok (N + 1) e').
  { intros e' H1 H2 H3 H4. apply Hup. now apply (cursor_ok_fields N e). }
  case_bool_decide as Hexp.
  { eexists. eexists. split; [reflexivity |].
    split; [now apply Hsame |]. auto. }
  eexists. eexists. split; [reflexivity |].
  split; [now apply Hsame |]. auto.
Qed.

Lemma keypress_step (N : Z) (w : World) (e : Editor) (key : option ascii) :
  N < int_max -> cursor_ok N e -> files_ok N w ->
  exists w' e',
    Editor.processKeypress w e key = Done (w', e') /\
    cursor_ok (N + 1) e' /\ files_ok (N + 1) w'.
Proof.
  intros HN Hok Hw.
  assert (Hup : forall e', buffers e' = buffers e ->
                  currentBuffer e' = currentBuffer e ->
                  cursorRow e' = cursorRow e -> cursorCol e' = cursorCol e ->
                  cursor_ok (N + 1) e').
  { intros e' H1 H2 H3 H4. apply (cursor_ok_mono N); [lia |].
    now apply (cursor_ok_fields N e). }
  assert (Hw1 : files_ok (N + 1) w) by (apply (files_ok_mono N); [lia | exact Hw]).
  destruct key as [c |]; cbn [Editor.processKeypress].
  2: { exists w, e. split; [reflexivity |]. split; [now apply Hup | exact Hw1]. }
  cbv zeta. destruct (commandMode e).
  - destruct (int_of_char c =? 13).
    { destruct (executeCommand_ok N w e (commandBuffer e) HN Hok Hw)
        as (w' & e1 & -> & Hok1 & Hw' & _).
      simpl bind. eexists. eexists. split; [reflexivity |]. split.
      - now apply (cursor_ok_fields (N + 1) e1).
      - apply (files_ok_mono N); [lia | exact Hw']. }
    destruct (int_of_char c =? 27);
      [eexists; eexists; split; [reflexivity |]; split;
       [now apply Hup | exact Hw1] |].
    destruct (int_of_char c =? 127);
      eexists; eexists; (split; [reflexivity |]); split;
      solve [now apply Hup | exact Hw1].
  - set (e0 := set_pluginManager e
                 (PluginManager.notifyKeyPress (pluginManager e) (int_of_char c))).
    assert (Hok0 : cursor_ok N e0) by now apply (cursor_ok_fields N e).
    destruct (int_of_char c =? 58);
      [eexists; eexists; split; [reflexivity |]; split;
       [now apply Hup | exact Hw1] |].
    destruct (int_of_char c =? 27);
      [eexists; eexists; split; [reflexivity |]; split;
       [now apply Hup | exact Hw1] |].
    destruct (int_of_char c =? 127).
    { destruct (Editor_deleteChar_ok N e0 HN Hok0) as (e' & -> & Hok' & _).
      simpl bind. exists w, e'. split; [reflexivity |]. split; [| exact Hw1].
      apply (cursor_ok_mono N); [lia | exact Hok']. }
    destruct (int_of_char c =? 13).
    { destruct (Editor_newLine_ok N e0 HN Hok0) as (e' & -> & Hok' & _).
      simpl bind. exists w, e'. auto. }
    destruct ((32 <=? int_of_char c) && (int_of_char c <=? 126)) eqn:Hprint.
    { apply andb_true_iff in Hprint as [Hlow _]. apply Z.leb_le in Hlow.
      destruct (Editor_insertChar_ok N e0 c HN Hok0 (int_of_char_newline c Hlow))
        as (e' & -> & Hok' & _).
      simpl bind. exists w, e'. auto. }
    exists w, e0. split; [reflexivity |]. split; [now apply Hup | exact Hw1].
Qed.

Lemma press_steps (keys : cstring) :
  forall (N : Z) (w : World) (e : Editor),
    cursor_ok N e -> files_ok N w -> N + size keys <= int_max ->
    exists w' e',
      press w e keys = Done (w', e') /\
      cursor_ok (N + size keys) e' /\ files_ok (N + size keys) w'.
Proof.
  induction keys as [| c keys IH]; intros N w e Hok Hw Hfit.
  - exists w, e. change (size (@nil ascii)) with 0. rewrite Z.add_0_r. auto.
  - assert (Hsz : size (c :: keys) = 1 + size keys)
      by (unfold size; cbn [length]; lia).
    pose proof (size_nonneg keys) as Hnn. rewrite Hsz in *.
    destruct (keypress_step N w e (Some c)) as (w1 & e1 & Hstep & Hok1 & Hw1);
      [lia | assumption | assumption |].
    destruct (IH (N + 1) w1 e1 Hok1 Hw1) as (w' & e' & Hrest & Hok' & Hw');
      [lia |].
    exists w', e'. cbn [press]. rewrite Hstep. simpl bind.
    replace (N + (1 + size keys)) with (N + 1 + size keys) by lia. auto.
Qed.

Lemma load_loop_sizes (M : Z) (fuel : nat) (s : cstring) (acc : list cstring) :
  Forall (fun l => size l <= M) acc -> size s <= M ->
  Forall (fun l => size l <= M) (Buffer.load_loop fuel s acc) /\
  (length (Buffer.load_loop fuel s acc) <= length acc + length s)%nat.
Proof.
  revert s acc. induction fuel as [| fuel IH]; intros s acc Hacc Hs;
    cbn [Buffer.load_loop]; [split; [assumption | lia] |].
  destruct s as [| c s]; cbn [getline]; [split; [assumption | lia] |].
  pose proof (cut_line_spec (c :: s)) as [_ Hsplit].
  pose proof (cut_line_shorter (c :: s)) as Hshort.
  destruct (cut_line (c :: s)) as [line rest]. cbn [fst snd] in *.
  assert (Hline : (length line <= length (c :: s))%nat).
  { destruct Hsplit as [Heq | [Heq _]];
      apply (f_equal (@length ascii)) in Heq;
      rewrite ?length_app in Heq; unfold cstring in *; lia. }
  destruct (IH rest (acc ++ [line])) as [Hall Hcount].
  - apply Forall_app. split; [assumption |].
    constructor; [sizes | constructor].
  - sizes.
  - split; [assumption |]. rewrite length_app in Hcount.
    cbn [length] in *. unfold cstring in *. lia.
Qed.

Lemma files_ok_of_sizes (N : Z) (w : World) :
  1 <= N ->
  (forall path data, contents w path = Some data -> size data <= N) ->
  files_ok N w.
Proof.
  intros HN Hsizes path. unfold Buffer_open, Buffer.load.
  cbn [filepath modified].
  assert (Hempty : size [@nil ascii] <= N /\
                   Forall (fun l : cstring => size l <= N) [[]]).
  { split; [unfold size; cbn [length]; lia |].
    constructor; [unfold size; cbn [length]; lia | constructor]. }
  destruct (contents w path) as [data |] eqn:Hdata; cbn [lines];
    [| exact Hempty].
  case_bool_decide; [exact Hempty |].
  destruct (load_loop_sizes N (S (length data)) data [])
    as [Hall Hcount]; [constructor | now apply (Hsizes path) |].
  split; [| assumption].
  specialize (Hsizes path data Hdata). cbn [length] in Hcount. sizes.
Qed.

Lemma Editor_new_ok (rules : SyntaxHighlighter) : cursor_ok 1 (Editor_new rules).
Proof.
  exists Buffer_default, []. cbn. repeat split; try (unfold size; cbn; lia).
  constructor; [| constructor].
  split; [apply not_elem_of_nil | unfold size; cbn; lia].
Qed.

(** X13: one key press keeps the cursor invariant.  From a state in
    which the cursor sits on a line of the current buffer, with column
    between 0 and the line's length, [processKeypress] returns (no
    exception, no invalid index or iterator) for every key and in either
    mode, and the cursor sits on a line of the current buffer again; sizes
    grow by at most one and must stay below [INT_MAX]. *)
Theorem keypress_keeps_cursor
    (N : Z) (w : World) (e : Editor) (key : option ascii) :
  N < int_max -> cursor_ok N e -> files_ok N w ->
  exists w' e',
    Editor.processKeypress w e key = Done (w', e') /\
    cursor_ok (N + 1) e' /\ files_ok (N + 1) w'.
Proof. apply keypress_step. Qed.

Lemma keypress_keeps_cursor_witness :
  exists w' e',
    Editor.processKeypress scratch_world (Editor_new []) (Some CR) = Done (w', e') /\
    cursor_ok (1 + 1) e' /\ files_ok (1 + 1) w'.
Proof.
  apply (keypress_keeps_cursor 1 scratch_world (Editor_new []) (Some CR)).
  - unfold int_max. lia.
  - apply Editor_new_ok.
  - apply files_ok_of_sizes; [lia | discriminate].
Defined.

(** X14: a session never fails.  Started on a fresh editor, in a world
    whose files hold at most [M] bytes, every key sequence is processed to
    the end without an exception and without an invalid index or iterator,
    as long as [M] plus the number of keys stays within [INT_MAX]; at the
    end the cursor sits on a line of the current buffer, with its column
    between 0 and the length of that line. *)
Theorem session_never_fails
    (M : Z) (w : World) (rules : SyntaxHighlighter) (keys : cstring) :
  1 <= M ->
  (forall path data, contents w path = Some data -> size data <= M) ->
  M + size keys <= int_max ->
  exists w' e',
    press w (Editor_new rules) keys = Done (w', e') /\
    cursor_ok (M + size keys) e'.
Proof.
  intros HM Hsizes Hfit.
  destruct (press_steps keys M w (Editor_new rules)) as (w' & e' & Hrun & Hok & _).
  - apply (cursor_ok_mono 1); [lia | apply Editor_new_ok].
  - now apply files_ok_of_sizes.
  - assumption.
  - eauto.
Qed.

Lemma session_never_fails_witness :
  exists w' e',
    press one_file_world (Editor_new []) split_session = Done (w', e') /\
    cursor_ok (3 + size split_session) e'.
Proof.
  apply (session_never_fails 3 one_file_world [] split_session).
  - lia.
  - intros path data. unfold one_file_world. cbn [contents].
    case_bool_decide; [| discriminate]. intros [= <-]. unfold size. cbn. lia.
  - unfold size, int_max. cbn. lia.
Defined.

(** ** Editor: typing and erasing *)

Lemma cursor_at_bounds (e : Editor) (b : Buffer) (line : cstring) :
  cursor_at e b line ->
  is_int (cursorRow e) /\
  Editor.getCurrentBuffer e = Done b /\
  (forall b', Editor.putCurrentBuffer e b'
              = Done (set_buffers e (<[Z.to_nat (currentBuffer e) := b']> (buffers e))
                        (currentBuffer e))).
Proof.
  intros (Hcur & Hb & Hbs & Hrow & Hline & Hls & Hcol & Hcmax).
  pose proof (lookup_size _ _ _ Hline) as Hrlt.
  rewrite Z2Nat.id in Hrlt by assumption.
  split; [sizes |]. now apply current_buffer.
Qed.

Lemma Editor_insertChar_at (e : Editor) (b : Buffer) (line : cstring) (c : ascii) :
  cursor_at e b line -> size line < int_max ->
  Editor.insertChar e c
  = Done (edit_line e b
            (take (Z.to_nat (cursorCol e)) line
               ++ c :: drop (Z.to_nat (cursorCol e)) line)
            (cursorCol e + 1)).
Proof.
  intros Hat Hroom.
  destruct (cursor_at_bounds e b line Hat) as (Hrint & Hget & Hput).
  destruct Hat as (Hcur & Hb & Hbs & Hrow & Hline & Hls & Hcol & Hcmax).
  assert (Hcint : is_int (cursorCol e)) by sizes.
  unfold Editor.insertChar. rewrite Hget. simpl bind.
  rewrite (insertChar_row _ _ _ _ _ Hrint Hrow Hline).
  rewrite (to_size_t_int _ Hcint) by lia.
  rewrite str_insert_in_range by lia. simpl bind.
  rewrite Hput. simpl bind.
  rewrite to_int_small by sizes. reflexivity.
Qed.

Lemma Editor_deleteChar_at (e : Editor) (b : Buffer) (line : cstring) :
  cursor_at e b line -> 0 < cursorCol e ->
  Editor.deleteChar e
  = Done (edit_line e b
            (take (Z.to_nat (cursorCol e - 1)) line
               ++ drop (Z.to_nat (cursorCol e)) line)
            (cursorCol e - 1)).
Proof.
  intros Hat Hpos.
  destruct (cursor_at_bounds e b line Hat) as (Hrint & Hget & Hput).
  destruct Hat as (Hcur & Hb & Hbs & Hrow & Hline & Hls & Hcol & Hcmax).
  assert (Hpint : is_int (cursorCol e - 1)) by sizes.
  unfold Editor.deleteChar. settle (0 <? cursorCol e) true.
  rewrite Hget. simpl bind.
  rewrite (deleteChar_row _ _ _ _ Hrint Hrow Hline) by lia.
  rewrite (to_int_small _ Hpint), (to_size_t_int _ Hpint) by lia.
  rewrite str_erase_in_range by lia. simpl bind.
  replace (S (Z.to_nat (cursorCol e - 1))) with (Z.to_nat (cursorCol e)) by lia.
  rewrite Hput. simpl bind.
  cbn [cursorCol cursorRow set_buffers pluginManager].
  rewrite (to_int_small _ Hpint). reflexivity.
Qed.

Lemma edit_line_cursor_at
    (e : Editor) (b : Buffer) (line l : cstring) (col : Z) :
  cursor_at e b line -> 0 <= col <= size l -> col <= int_max ->
  cursor_at (edit_line e b l col)
    (mkBuffer (<[Z.to_nat (cursorRow e) := l]> (lines b)) (filepath b) true) l.
Proof.
  intros (Hcur & Hb & Hbs & Hrow & Hline & Hls & Hcol & Hcmax) Hnew Hmax.
  unfold cursor_at, edit_line.
  cbn [buffers currentBuffer cursorRow cursorCol set_pluginManager set_cursor
       set_buffers lines].
  repeat split; try assumption; try lia.
  - apply list_lookup_insert_eq. now apply lookup_lt_Some in Hb.
  - unfold size in *. now rewrite length_insert.
  - apply list_lookup_insert_eq. now apply lookup_lt_Some in Hline.
  - unfold size in *. now rewrite length_insert.
Qed.

Lemma insertable_key (c : ascii) :
  insertable c = true ->
  32 <= int_of_char c <= 126 /\ int_of_char c <> 58.
Proof.
  unfold insertable. cbv zeta. intros H.
  apply andb_true_iff in H as [H Hcolon].
  apply andb_true_iff in H as [Hlow Hhigh].
  apply Z.leb_le in Hlow, Hhigh. apply negb_true_iff, Z.eqb_neq in Hcolon.
  auto.
Qed.

Lemma insert_key (w : World) (e : Editor) (c : ascii) :
  commandMode e = false -> insertable c = true ->
  Editor.processKeypress w e (Some c)
  = (e' <- Editor.insertChar
             (set_pluginManager e
                (PluginManager.notifyKeyPress (pluginManager e) (int_of_char c))) c ;;
     Done (w, e')).
Proof.
  intros Hmode Hc. apply insertable_key in Hc as [[Hlow Hhigh] Hcolon].
  unfold Editor.processKeypress. rewrite Hmode. cbv zeta.
  settle (int_of_char c =? 58) false. settle (int_of_char c =? 27) false.
  settle (int_of_char c =? 127) false. settle (int_of_char c =? 13) false.
  settle (32 <=? int_of_char c) true. settle (int_of_char c <=? 126) true.
  reflexivity.
Qed.

Lemma backspace_key (w : World) (e : Editor) :
  commandMode e = false ->
  Editor.processKeypress w e (Some DEL)
  = (e' <- Editor.deleteChar
             (set_pluginManager e
                (PluginManager.notifyKeyPress (pluginManager e) 127)) ;;
     Done (w, e')).
Proof.
  intros Hmode. unfold Editor.processKeypress. now rewrite Hmode.
Qed.

Lemma cursor_at_notified
    (e : Editor) (b : Buffer) (line : cstring) (pm : PluginManager) :
  cursor_at e b line -> cursor_at (set_pluginManager e pm) b line.
Proof. intros Hat. exact Hat. Qed.

Lemma splice_step (line : cstring) (n : nat) (c : ascii) (text : cstring) :
  (n <= length line)%nat ->
  take (S n) (take n line ++ c :: drop n line) ++ text
    ++ drop (S n) (take n line ++ c :: drop n line)
  = take n line ++ (c :: text) ++ drop n line.
Proof.
  intros Hn.
  assert (Hlen : length (take n line ++ [c]) = S n).
  { rewrite length_app, length_take. cbn [length]. lia. }
  replace (take n line ++ c :: drop n line)
    with ((take n line ++ [c]) ++ drop n line)
    by (now rewrite <- app_assoc).
  rewrite <- Hlen at 1. rewrite take_app_length.
  rewrite <- Hlen at 1. rewrite drop_app_length.
  now rewrite <- !app_assoc.
Qed.

(** X15: typing.  In insert mode, with the cursor on a line of the
    current buffer, a run of printable keys (0x20 to 0x7E, the colon
    excepted) is inserted at the cursor, in order: the cursor line becomes
    the text before the cursor, the typed text, then the text after the
    cursor; the cursor column advances by the number of keys; the file
    system is untouched; and every plugin is told, for each key in turn,
    of the key press and then of a buffer change. *)
Theorem typing_inserts_text (w : World) (text : cstring) :
  forall (e : Editor) (b : Buffer) (line : cstring),
    commandMode e = false ->
    cursor_at e b line ->
    forallb insertable text = true ->
    size line + size text <= int_max ->
    exists e' b',
      press w e text = Done (w, e') /\
      commandMode e' = false /\
      cursor_at e' b'
        (take (Z.to_nat (cursorCol e)) line ++ text
           ++ drop (Z.to_nat (cursorCol e)) line) /\
      currentBuffer e' = currentBuffer e /\
      cursorRow e' = cursorRow e /\
      cursorCol e' = cursorCol e + size text /\
      lines b' = <[Z.to_nat (cursorRow e) :=
                     take (Z.to_nat (cursorCol e)) line ++ text
                       ++ drop (Z.to_nat (cursorCol e)) line]> (lines b) /\
      filepath b' = filepath b /\
      plugins (pluginManager e') = plugins (pluginManager e) /\
      delivered (pluginManager e')
      = delivered (pluginManager e)
        ++ concat ((fun c => calls (pluginManager e) (KeyPress (int_of_char c))
                             ++ calls (pluginManager e) BufferChange) <$> text).
Proof.
  induction text as [| c text IH]; intros e b line Hmode Hat Hkeys Hroom.
  - exists e, b. cbn [press fmap list_fmap concat].
    change (size (@nil ascii)) with 0.
    rewrite Z.add_0_r, !app_nil_r. cbn [app]. rewrite take_drop.
    split_and!; try assumption; try reflexivity.
    destruct Hat as (_ & _ & _ & _ & Hline & _).
    symmetry. now apply list_insert_id.
  - cbn [forallb] in Hkeys. apply andb_true_iff in Hkeys as [Hc Hkeys].
    assert (Hsz : size (c :: text) = 1 + size text)
      by (unfold size; cbn [length]; lia).
    pose proof (size_nonneg text) as Hnn. rewrite Hsz in *.
    pose proof Hat as (Hcur & Hb & Hbs & Hrow & Hline & Hls & Hcol & Hcmax).
    pose proof (size_nonneg line) as Hlnn.
    set (k := int_of_char c).
    set (e0 := set_pluginManager e
                 (PluginManager.notifyKeyPress (pluginManager e) k)).
    set (n := Z.to_nat (cursorCol e)).
    set (line1 := take n line ++ c :: drop n line).
    assert (Hsz1 : size line1 = size line + 1).
    { unfold line1, n, size in *. rewrite length_app, length_take.
      cbn [length]. rewrite length_drop. lia. }
    cbn [press]. rewrite (insert_key w e c Hmode Hc). fold k e0.
    rewrite (Editor_insertChar_at e0 b line c Hat) by lia.
    simpl bind. cbn [fst snd]. change (cursorCol e0) with (cursorCol e).
    fold n line1.
    set (e1 := edit_line e0 b line1 (cursorCol e + 1)).
    assert (Hat1 : cursor_at e1 _ line1)
      by (apply (edit_line_cursor_at e0 b line); [exact Hat | lia | lia]).
    destruct (IH e1 _ line1 Hmode Hat1 Hkeys) as
      (e' & b' & Hrun & Hmode' & Hat' & Hcb & Hcr & Hcc & Hlines & Hpath
       & Hplug & Hlog); [lia |].
    change (cursorCol e1) with (cursorCol e + 1) in *.
    change (cursorRow e1) with (cursorRow e) in *.
    change (currentBuffer e1) with (currentBuffer e) in *.
    replace (Z.to_nat (cursorCol e + 1)) with (S n) in * by (unfold n; lia).
    assert (Hn : (n <= length line)%nat) by (unfold n, size in *; lia).
    unfold line1 in Hat', Hlines. rewrite (splice_step line n c text Hn) in *.
    exists e', b'. split_and!; try assumption; try lia.
    + cbn [lines] in Hlines. now rewrite list_insert_insert_eq in Hlines.
    + rewrite Hlog. cbn [fmap list_fmap concat].
      unfold e1, edit_line, e0, PluginManager.notifyBufferChange,
        PluginManager.notifyKeyPress, PluginManager.notify, calls.
      cbn [pluginManager set_pluginManager plugins delivered].
      now rewrite <- !app_assoc.
Qed.

Lemma typing_inserts_text_witness :
  exists e' b',
    press scratch_world (Editor_new []) (str "hello") = Done (scratch_world, e') /\
    commandMode e' = false /\
    cursor_at e' b'
      (take (Z.to_nat (cursorCol (Editor_new []))) [] ++ str "hello"
         ++ drop (Z.to_nat (cursorCol (Editor_new []))) []) /\
    currentBuffer e' = currentBuffer (Editor_new []) /\
    cursorRow e' = cursorRow (Editor_new []) /\
    cursorCol e' = cursorCol (Editor_new []) + size (str "hello") /\
    lines b' = <[Z.to_nat (cursorRow (Editor_new [])) :=
                   take (Z.to_nat (cursorCol (Editor_new []))) [] ++ str "hello"
                     ++ drop (Z.to_nat (cursorCol (Editor_new []))) []]>
                 (lines Buffer_default) /\
    filepath b' = filepath Buffer_default /\
    plugins (pluginManager e') = plugins (pluginManager (Editor_new [])) /\
    delivered (pluginManager e')
    = delivered (pluginManager (Editor_new []))
      ++ concat ((fun c => calls (pluginManager (Editor_new []))
                             (KeyPress (int_of_char c))
                           ++ calls (pluginManager (Editor_new [])) BufferChange)
                   <$> str "hello").
Proof.
  apply (typing_inserts_text scratch_world (str "hello")
           (Editor_new []) Buffer_default []).
  - reflexivity.
  - unfold cursor_at, size, int_max. cbn. repeat split; lia.
  - reflexivity.
  - unfold size, int_max. cbn. lia.
Defined.

(** X16: backspace.  In insert mode, with the cursor on a line of the
    current buffer at a column above 0, the DEL key removes the character
    before the cursor and moves the cursor one column left; the buffer
    becomes modified, the file system is untouched, and every plugin is
    told of the key press and then of a buffer change. *)
Theorem backspace_deletes_before_cursor
    (w : World) (e : Editor) (b : Buffer) (line : cstring) :
  commandMode e = false ->
  cursor_at e b line ->
  0 < cursorCol e ->
  exists e' b',
    Editor.processKeypress w e (Some DEL) = Done (w, e') /\
    cursor_at e' b'
      (take (Z.to_nat (cursorCol e - 1)) line
         ++ drop (Z.to_nat (cursorCol e)) line) /\
    cursorRow e' = cursorRow e /\
    cursorCol e' = cursorCol e - 1 /\
    lines b' = <[Z.to_nat (cursorRow e) :=
                   take (Z.to_nat (cursorCol e - 1)) line
                     ++ drop (Z.to_nat (cursorCol e)) line]> (lines b) /\
    modified b' = true /\
    delivered (pluginManager e')
    = delivered (pluginManager e)
      ++ calls (pluginManager e) (KeyPress 127)
      ++ calls (pluginManager e) BufferChange.
Proof.
  intros Hmode Hat Hpos.
  pose proof Hat as (Hcur & Hb & Hbs & Hrow & Hline & Hls & Hcol & Hcmax).
  set (e0 := set_pluginManager e
               (PluginManager.notifyKeyPress (pluginManager e) 127)).
  rewrite (backspace_key w e Hmode). fold e0.
  rewrite (Editor_deleteChar_at e0 b line Hat Hpos). simpl bind.
  change (cursorCol e0) with (cursorCol e).
  set (line' := take (Z.to_nat (cursorCol e - 1)) line
                  ++ drop (Z.to_nat (cursorCol e)) line).
  assert (Hsz : size line' = size line - 1).
  { unfold line', size in *. rewrite length_app, length_take, length_drop. lia. }
  eexists. eexists. split; [reflexivity |]. split_and!.
  - apply (edit_line_cursor_at e0 b line); [exact Hat | lia | lia].
  - reflexivity.
  - reflexivity.
  - reflexivity.
  - reflexivity.
  - unfold edit_line, e0, PluginManager.notifyBufferChange,
      PluginManager.notifyKeyPress, PluginManager.notify, calls.
    cbn [pluginManager set_pluginManager plugins delivered].
    now rewrite <- app_assoc.
Qed.

Lemma backspace_deletes_before_cursor_witness :
  exists e' b',
    Editor.processKeypress scratch_world
      (mkEditor [mkBuffer [str "abc"] [] false] 0 0 2 0 0 [] [] false true []
         (mkPluginManager [] []) (mkFileExplorer [] 0) false)
      (Some DEL) = Done (scratch_world, e') /\
    cursor_at e' b' (take (Z.to_nat (2 - 1)) (str "abc")
                       ++ drop (Z.to_nat 2) (str "abc")) /\
    cursorRow e' = 0 /\
    cursorCol e' = 2 - 1 /\
    lines b' = <[Z.to_nat 0 := take (Z.to_nat (2 - 1)) (str "abc")
                                 ++ drop (Z.to_nat 2) (str "abc")]> [str "abc"] /\
    modified b' = true /\
    delivered (pluginManager e')
    = [] ++ calls (mkPluginManager [] []) (KeyPress 127)
         ++ calls (mkPluginManager [] []) BufferChange.
Proof.
  apply (backspace_deletes_before_cursor scratch_world
           (mkEditor [mkBuffer [str "abc"] [] false] 0 0 2 0 0 [] [] false true []
              (mkPluginManager [] []) (mkFileExplorer [] 0) false)
           (mkBuffer [str "abc"] [] false) (str "abc")).
  - reflexivity.
  - unfold cursor_at, size, int_max. cbn. repeat split; lia.
  - cbn. lia.
Defined.

Lemma type_backspace_state
    (w : World) (e : Editor) (b : Buffer) (line : cstring) (c : ascii) :
  commandMode e = false ->
  cursor_at e b line ->
  insertable c = true ->
  size line < int_max ->
  exists e' b',
    press w e [c; DEL] = Done (w, e') /\
    cursor_at e' b' line /\
    lines b' = lines b /\
    filepath b' = filepath b /\
    modified b' = true /\
    currentBuffer e' = currentBuffer e /\
    cursorRow e' = cursorRow e /\
    cursorCol e' = cursorCol e /\
    commandMode e' = false /\
    commandBuffer e' = commandBuffer e /\
    running e' = running e.
Proof.
  intros Hmode Hat Hc Hroom.
  pose proof Hat as (Hcur & Hb & Hbs & Hrow & Hline & Hls & Hcol & Hcmax).
  set (n := Z.to_nat (cursorCol e)).
  set (line1 := take n line ++ c :: drop n line).
  set (e0 := set_pluginManager e
               (PluginManager.notifyKeyPress (pluginManager e) (int_of_char c))).
  set (e1 := edit_line e0 b line1 (cursorCol e + 1)).
  assert (Hn : (n <= length line)%nat) by (unfold n, size in *; lia).
  assert (Hsz1 : size line1 = size line + 1).
  { unfold line1, size in *. rewrite length_app, length_take.
    cbn [length]. rewrite length_drop. lia. }
  assert (Hat1 : cursor_at e1 _ line1)
    by (apply (edit_line_cursor_at e0 b line); [exact Hat | lia | lia]).
  assert (Hback : take (Z.to_nat (cursorCol e + 1 - 1)) line1
                    ++ drop (Z.to_nat (cursorCol e + 1)) line1 = line).
  { replace (Z.to_nat (cursorCol e + 1 - 1)) with n by (unfold n; lia).
    replace (Z.to_nat (cursorCol e + 1)) with (S n) by (unfold n; lia).
    assert (Hlen : length (take n line) = n) by (rewrite length_take; lia).
    unfold line1.
    rewrite take_app_length' by (rewrite length_take; unfold cstring in *; lia).
    replace (take n line ++ c :: drop n line)
      with ((take n line ++ [c]) ++ drop n line) by (now rewrite <- app_assoc).
    rewrite drop_app_length'
      by (rewrite length_app, length_take; cbn [length];
          unfold cstring in *; lia).
    apply take_drop. }
  cbn [press]. rewrite (insert_key w e c Hmode Hc). fold e0.
  rewrite (Editor_insertChar_at e0 b line c Hat Hroom). cbn [bind fst snd].
  change (cursorCol e0) with (cursorCol e). fold n line1 e1.
  cbn [press].
  rewrite (backspace_key w e1 Hmode).
  set (e2 := set_pluginManager e1
               (PluginManager.notifyKeyPress (pluginManager e1) 127)).
  rewrite (Editor_deleteChar_at e2 _ line1 Hat1)
    by (change (cursorCol e2) with (cursorCol e + 1); lia).
  cbn [bind fst snd].
  change (cursorCol e2) with (cursorCol e + 1). rewrite Hback.
  eexists. eexists. split; [reflexivity |]. split_and!.
  - replace (cursorCol e + 1 - 1) with (cursorCol e) by lia.
    pose proof (edit_line_cursor_at e2 _ line1 line (cursorCol e) Hat1) as Hat2.
    apply Hat2; lia.
  - cbn [lines cursorRow e2 e1 edit_line set_pluginManager set_cursor set_buffers].
    rewrite list_insert_insert_eq. now apply list_insert_id.
  - reflexivity.
  - reflexivity.
  - reflexivity.
  - reflexivity.
  - cbn. lia.
  - exact Hmode.
  - reflexivity.
  - reflexivity.
Qed.


(** X17: typing a printable key and then backspace gives back the
    buffer text and the cursor position; only the modified flag of the
    buffer stays set. *)
Theorem type_then_backspace
    (w : World) (e : Editor) (b : Buffer) (line : cstring) (c : ascii) :
  commandMode e = false ->
  cursor_at e b line ->
  insertable c = true ->
  size line < int_max ->
  exists e' b',
    press w e [c; DEL] = Done (w, e') /\
    cursor_at e' b' line /\
    lines b' = lines b /\
    filepath b' = filepath b /\
    modified b' = true /\
    currentBuffer e' = currentBuffer e /\
    cursorRow e' = cursorRow e /\
    cursorCol e' = cursorCol e /\
    commandMode e' = false.
Proof.
  intros Hmode Hat Hc Hroom.
  destruct (type_backspace_state w e b line c Hmode Hat Hc Hroom)
    as (e' & b' & H). exists e', b'. intuition.
Qed.

Lemma type_then_backspace_witness :
  exists e' b',
    press scratch_world (Editor_new []) ["x"%char; DEL] = Done (scratch_world, e') /\
    cursor_at e' b' [] /\
    lines b' = lines Buffer_default /\
    filepath b' = filepath Buffer_default /\
    modified b' = true /\
    currentBuffer e' = currentBuffer (Editor_new []) /\
    cursorRow e' = cursorRow (Editor_new []) /\
    cursorCol e' = cursorCol (Editor_new []) /\
    commandMode e' = false.
Proof.
  apply (type_then_backspace scratch_world (Editor_new []) Buffer_default [] "x").
  - reflexivity.
  - unfold cursor_at, size, int_max. cbn. repeat split; lia.
  - reflexivity.
  - unfold size, int_max. cbn. lia.
Defined.

(** ** Editor: the command line *)

Lemma set_command_same (e : Editor) :
  set_command e (commandMode e) (commandBuffer e) = e.
Proof. now destruct e. Qed.

Lemma press_app (w : World) (e : Editor) (keys1 keys2 : cstring) :
  press w e (keys1 ++ keys2)
  = (st <- press w e keys1 ;; press (fst st) (snd st) keys2).
Proof.
  revert w e. induction keys1 as [| c keys1 IH]; intros w e; cbn [press app].
  - reflexivity.
  - destruct (Editor.processKeypress w e (Some c)) as [[w1 e1] | |];
      cbn [bind fst snd]; [apply IH | reflexivity | reflexivity].
Qed.

Lemma command_char_key (c : ascii) :
  command_char c = true ->
  int_of_char c <> 13 /\ int_of_char c <> 27 /\ int_of_char c <> 127.
Proof.
  unfold command_char. cbv zeta. intros H.
  apply andb_true_iff in H as [H H127].
  apply andb_true_iff in H as [H13 H27].
  apply negb_true_iff, Z.eqb_neq in H13, H27, H127. auto.
Qed.

Lemma command_keys (w : World) (cmd : cstring) :
  forall e : Editor,
    commandMode e = true -> forallb command_char cmd = true ->
    press w e cmd = Done (w, set_command e true (commandBuffer e ++ cmd)).
Proof.
  induction cmd as [| c cmd IH]; intros e Hmode Hkeys; cbn [press].
  - rewrite app_nil_r, <- Hmode. now rewrite set_command_same.
  - cbn [forallb] in Hkeys. apply andb_true_iff in Hkeys as [Hc Hkeys].
    apply command_char_key in Hc as (H13 & H27 & H127).
    unfold Editor.processKeypress. rewrite Hmode. cbv zeta.
    settle (int_of_char c =? 13) false. settle (int_of_char c =? 27) false.
    settle (int_of_char c =? 127) false. cbn [bind fst snd].
    rewrite IH by (reflexivity || assumption).
    cbn [commandBuffer set_command]. now rewrite <- app_assoc.
Qed.

Lemma command_line_state (w : World) (e : Editor) (cmd : cstring) :
  commandMode e = false ->
  forallb command_char cmd = true ->
  press w e (":"%char :: cmd ++ [CR])
  = (st <- Editor.executeCommand w
             (set_command
                (set_pluginManager e
                   (PluginManager.notifyKeyPress (pluginManager e) 58))
                true (commandBuffer e ++ cmd))
             (commandBuffer e ++ cmd) ;;
     Done (fst st, set_command (snd st) false [])).
Proof.
  intros Hmode Hkeys. cbn [press].
  unfold Editor.processKeypress at 1. rewrite Hmode.
  change (int_of_char ":") with 58. cbv zeta. cbn [Z.eqb Pos.eqb bind fst snd].
  rewrite press_app, command_keys by (reflexivity || assumption).
  cbn [bind fst snd press commandBuffer set_command set_pluginManager].
  unfold Editor.processKeypress. cbn [commandMode].
  change (int_of_char CR) with 13. cbv zeta. cbn [Z.eqb Pos.eqb commandBuffer].
  destruct (Editor.executeCommand _ _ _) as [[w' e'] | |]; reflexivity.
Qed.


(** X18: a command is what was typed between the colon and Enter.  From
    insert mode, the keys [:], then any bytes other than Enter, Escape and
    DEL, then Enter run [executeCommand] exactly once, on the command line
    left over from before followed by those bytes, and lead back to insert
    mode with an empty command line.  Only the colon is announced to the
    plugins. *)
Theorem command_line_runs_on_enter (w : World) (e : Editor) (cmd : cstring) :
  commandMode e = false ->
  forallb command_char cmd = true ->
  press w e (":"%char :: cmd ++ [CR])
  = (st <- Editor.executeCommand w
             (set_command
                (set_pluginManager e
                   (PluginManager.notifyKeyPress (pluginManager e) 58))
                true (commandBuffer e ++ cmd))
             (commandBuffer e ++ cmd) ;;
     Done (fst st, set_command (snd st) false [])).
Proof. apply command_line_state. Qed.

Lemma command_line_runs_on_enter_witness :
  press scratch_world (Editor_new []) (":"%char :: str "wq" ++ [CR])
  = (st <- Editor.executeCommand scratch_world
             (set_command
                (set_pluginManager (Editor_new [])
                   (PluginManager.notifyKeyPress (pluginManager (Editor_new [])) 58))
                true (commandBuffer (Editor_new []) ++ str "wq"))
             (commandBuffer (Editor_new []) ++ str "wq") ;;
     Done (fst st, set_command (snd st) false [])).
Proof.
  apply (command_line_runs_on_enter scratch_world (Editor_new []) (str "wq"));
    reflexivity.
Defined.

Lemma executeCommand_plugins
    (w w' : World) (e e' : Editor) (cmd : cstring) :
  Editor.executeCommand w e cmd = Done (w', e') ->
  pluginManager e' = pluginManager e.
Proof.
  assert (Hquit : forall e0 e1, Editor.quit e0 = Done e1 ->
                    pluginManager e1 = pluginManager e0).
  { intros e0 e1. unfold Editor.quit.
    destruct (Editor.getCurrentBuffer e0) as [b | |]; simpl bind;
      try discriminate.
    destruct (Buffer.isModified b); now intros [= <-]. }
  assert (Hsave : forall e0 w1 e1, Editor.saveFile w e0 = Done (w1, e1) ->
                    pluginManager e1 = pluginManager e0).
  { intros e0 w1 e1. unfold Editor.saveFile, Editor.putCurrentBuffer.
    destruct (Editor.getCurrentBuffer e0) as [b | |]; simpl bind;
      try discriminate.
    destruct (vec_store _ _ _) as [bs | |]; simpl bind; try discriminate.
    now intros [= _ <-]. }
  unfold Editor.executeCommand.
  case_bool_decide.
  { destruct (Editor.quit e) as [e1 | |] eqn:Hq; simpl bind; try discriminate.
    intros [= _ <-]. now apply Hquit. }
  case_bool_decide; [apply Hsave |].
  case_bool_decide.
  { destruct (Editor.saveFile w e) as [[w1 e1] | |] eqn:Hs; simpl bind;
      try discriminate.
    destruct (Editor.quit e1) as [e2 | |] eqn:Hq; simpl bind; try discriminate.
    intros [= _ <-]. rewrite (Hquit _ _ Hq). now apply (Hsave _ _ _ Hs). }
  destruct (str_substr cmd 0 (Some 2)) as [head | |]; simpl bind;
    try discriminate.
  case_bool_decide.
  { destruct (str_substr cmd 2 None) as [path | |]; simpl bind;
      try discriminate.
    now intros [= _ <-]. }
  case_bool_decide; now intros [= _ <-].
Qed.

(** X19: command mode is private and only Enter acts.  Whatever key is
    pressed in command mode, no plugin hook is called; and a key other than
    Enter changes nothing but the command line itself: file system,
    buffers, cursor, status message and the running flag stay as they
    are. *)
Theorem command_mode_keys_are_private
    (w w' : World) (e e' : Editor) (c : ascii) :
  commandMode e = true ->
  Editor.processKeypress w e (Some c) = Done (w', e') ->
  pluginManager e' = pluginManager e /\
  (int_of_char c <> 13 ->
   w' = w /\ buffers e' = buffers e /\ currentBuffer e' = currentBuffer e /\
   cursorRow e' = cursorRow e /\ cursorCol e' = cursorCol e /\
   statusMessage e' = statusMessage e /\ running e' = running e).
Proof.
  intros Hmode. unfold Editor.processKeypress. rewrite Hmode. cbv zeta.
  destruct (Z.eqb_spec (int_of_char c) 13) as [H13 | H13].
  - destruct (Editor.executeCommand w e (commandBuffer e))
      as [[w1 e1] | |] eqn:Hexec; simpl bind; try discriminate.
    intros [= <- <-]. split; [| contradiction].
    cbn [pluginManager set_command].
    exact (executeCommand_plugins _ _ _ _ _ Hexec).
  - destruct (int_of_char c =? 27); [now intros [= <- <-] |].
    destruct (int_of_char c =? 127); now intros [= <- <-].
Qed.

Lemma command_mode_keys_are_private_witness :
  pluginManager (set_command (set_command (Editor_new []) true (str "w")) true (str "wx"))
    = pluginManager (set_command (Editor_new []) true (str "w")) /\
  (int_of_char "x" <> 13 ->
   scratch_world = scratch_world /\
   buffers (set_command (set_command (Editor_new []) true (str "w")) true (str "wx"))
     = buffers (set_command (Editor_new []) true (str "w")) /\
   currentBuffer (set_command (set_command (Editor_new []) true (str "w")) true (str "wx"))
     = currentBuffer (set_command (Editor_new []) true (str "w")) /\
   cursorRow (set_command (set_command (Editor_new []) true (str "w")) true (str "wx"))
     = cursorRow (set_command (Editor_new []) true (str "w")) /\
   cursorCol (set_command (set_command (Editor_new []) true (str "w")) true (str "wx"))
     = cursorCol (set_command (Editor_new []) true (str "w")) /\
   statusMessage (set_command (set_command (Editor_new []) true (str "w")) true (str "wx"))
     = statusMessage (set_command (Editor_new []) true (str "w")) /\
   running (set_command (set_command (Editor_new []) true (str "w")) true (str "wx"))
     = running (set_command (Editor_new []) true (str "w"))).
Proof.
  apply (command_mode_keys_are_private scratch_world scratch_world
           (set_command (Editor_new []) true (str "w"))
           (set_command (set_command (Editor_new []) true (str "w")) true (str "wx"))
           "x").
  - reflexivity.
  - reflexivity.
Defined.

(** ** Editor: commands *)

(** X20: any command that is not [q], [w], [wq] or [explorer] and does
    not start with [e ] (the empty command included) only sets the status
    message, to [Unknown command: ] followed by the command; nothing
    throws, however short the command is. *)
Theorem unknown_command (w : World) (e : Editor) (cmd : cstring) :
  cmd <> str "q" -> cmd <> str "w" -> cmd <> str "wq" ->
  cmd <> str "explorer" -> take 2 cmd <> str "e " ->
  Editor.executeCommand w e cmd
  = Done (w, set_statusMessage e (str "Unknown command: " ++ cmd)).
Proof.
  intros Hq Hw Hwq Hexp Hopen. unfold Editor.executeCommand.
  rewrite !bool_decide_eq_false_2 by assumption.
  rewrite str_substr_from_start by lia. simpl bind.
  now rewrite !bool_decide_eq_false_2 by assumption.
Qed.

Lemma unknown_command_witness :
  Editor.executeCommand scratch_world (Editor_new []) (str "q!")
  = Done (scratch_world,
          set_statusMessage (Editor_new []) (str "Unknown command: " ++ str "q!")).
Proof.
  apply (unknown_command scratch_world (Editor_new []) (str "q!"));
    discriminate.
Defined.

Lemma saveFile_explicit (w : World) (e : Editor) (b : Buffer) :
  Editor.getCurrentBuffer e = Done b ->
  exists e1,
    Editor.saveFile w e = Done (fst (Buffer.save w b), e1) /\
    Editor.getCurrentBuffer e1 = Done (mkBuffer (lines b) (filepath b) false) /\
    statusMessage e1 = str "File saved" /\
    running e1 = running e.
Proof.
  intros Hb. unfold Editor.saveFile. rewrite Hb. simpl bind.
  unfold Editor.getCurrentBuffer in Hb. unfold Editor.putCurrentBuffer.
  destruct (vec_store_index _ _ _ (mkBuffer (lines b) (filepath b) false) Hb)
    as (bs & Hstore & Hindex).
  cbn [Buffer.save]. rewrite Hstore. simpl bind.
  eexists. split; [reflexivity |]. repeat split. exact Hindex.
Qed.

(** X21: [w] always reports success.  With a valid current buffer the
    command returns, sets the status message to [File saved] and clears
    the modified flag, whether or not the file could be opened for
    writing: when it could not, nothing is written at all; when it could,
    the file holds every line followed by a newline.  Either way a
    following [q] finds the buffer unmodified and stops the editor. *)
Theorem save_always_reports_success (w : World) (e : Editor) (b : Buffer) :
  Editor.getCurrentBuffer e = Done b ->
  exists e1 e2,
    Editor.executeCommand w e (str "w") = Done (fst (Buffer.save w b), e1) /\
    statusMessage e1 = str "File saved" /\
    Editor.getCurrentBuffer e1 = Done (mkBuffer (lines b) (filepath b) false) /\
    (writable w (filepath b) = false -> fst (Buffer.save w b) = w) /\
    (writable w (filepath b) = true ->
     contents (fst (Buffer.save w b)) (filepath b)
     = Some (Buffer.file_image (lines b))) /\
    Editor.executeCommand (fst (Buffer.save w b)) e1 (str "q")
    = Done (fst (Buffer.save w b), e2) /\
    running e2 = false.
Proof.
  intros Hb.
  destruct (saveFile_explicit w e b Hb) as (e1 & Hsave & Hcur & Hstatus & _).
  exists e1, (set_running e1 false). split_and!.
  - unfold Editor.executeCommand.
    rewrite bool_decide_eq_false_2 by discriminate.
    now rewrite bool_decide_eq_true_2.
  - exact Hstatus.
  - exact Hcur.
  - intros Hro. unfold Buffer.save, write_file. cbn [fst]. now rewrite Hro.
  - intros Hrw. unfold Buffer.save, write_file. cbn [fst]. rewrite Hrw.
    cbn [contents]. now rewrite decide_True.
  - unfold Editor.executeCommand. rewrite bool_decide_eq_true_2 by reflexivity.
    unfold Editor.quit. rewrite Hcur. reflexivity.
  - reflexivity.
Qed.

Lemma save_always_reports_success_witness :
  exists e1 e2,
    Editor.executeCommand scratch_world (Editor_new []) (str "w")
      = Done (fst (Buffer.save scratch_world Buffer_default), e1) /\
    statusMessage e1 = str "File saved" /\
    Editor.getCurrentBuffer e1
      = Done (mkBuffer (lines Buffer_default) (filepath Buffer_default) false) /\
    (writable scratch_world (filepath Buffer_default) = false ->
     fst (Buffer.save scratch_world Buffer_default) = scratch_world) /\
    (writable scratch_world (filepath Buffer_default) = true ->
     contents (fst (Buffer.save scratch_world Buffer_default))
       (filepath Buffer_default)
     = Some (Buffer.file_image (lines Buffer_default))) /\
    Editor.executeCommand (fst (Buffer.save scratch_world Buffer_default)) e1 (str "q")
    = Done (fst (Buffer.save scratch_world Buffer_default), e2) /\
    running e2 = false.
Proof.
  apply (save_always_reports_success scratch_world (Editor_new []) Buffer_default).
  reflexivity.
Defined.

(** X22: [wq] always stops the editor.  With a valid current buffer it
    behaves as [w] followed by [q]: the buffer is saved as by [w], left
    unmodified, and [running] becomes false, also when the buffer was
    modified and also when the file could not be written. *)
Theorem wq_always_quits (w : World) (e : Editor) (b : Buffer) :
  Editor.getCurrentBuffer e = Done b ->
  exists e',
    Editor.executeCommand w e (str "wq") = Done (fst (Buffer.save w b), e') /\
    Editor.executeCommand w e (str "wq")
    = (st <- Editor.executeCommand w e (str "w") ;;
       Editor.executeCommand (fst st) (snd st) (str "q")) /\
    running e' = false /\
    Editor.getCurrentBuffer e' = Done (mkBuffer (lines b) (filepath b) false) /\
    statusMessage e' = str "File saved".
Proof.
  intros Hb.
  destruct (saveFile_explicit w e b Hb) as (e1 & Hsave & Hcur & Hstatus & _).
  assert (Hquit : Editor.quit e1 = Done (set_running e1 false)).
  { unfold Editor.quit. now rewrite Hcur. }
  assert (Hwq : Editor.executeCommand w e (str "wq")
                = Done (fst (Buffer.save w b), set_running e1 false)).
  { unfold Editor.executeCommand.
    rewrite !bool_decide_eq_false_2 by discriminate.
    rewrite bool_decide_eq_true_2 by reflexivity.
    rewrite Hsave. cbn [bind fst snd]. now rewrite Hquit. }
  exists (set_running e1 false). split_and!.
  - exact Hwq.
  - rewrite Hwq. unfold Editor.executeCommand at 1.
    rewrite bool_decide_eq_false_2 by discriminate.
    rewrite bool_decide_eq_true_2 by reflexivity.
    rewrite Hsave. cbn [bind fst snd]. unfold Editor.executeCommand.
    rewrite bool_decide_eq_true_2 by reflexivity. now rewrite Hquit.
  - reflexivity.
  - exact Hcur.
  - exact Hstatus.
Qed.

Lemma wq_always_quits_witness :
  exists e',
    Editor.executeCommand scratch_world
      (mkEditor [mkBuffer [str "ab"] (str "f") true] 0 0 2 0 0 [] [] false true []
         (mkPluginManager [] []) (mkFileExplorer [] 0) false) (str "wq")
    = Done (fst (Buffer.save scratch_world (mkBuffer [str "ab"] (str "f") true)), e') /\
    Editor.executeCommand scratch_world
      (mkEditor [mkBuffer [str "ab"] (str "f") true] 0 0 2 0 0 [] [] false true []
         (mkPluginManager [] []) (mkFileExplorer [] 0) false) (str "wq")
    = (st <- Editor.executeCommand scratch_world
               (mkEditor [mkBuffer [str "ab"] (str "f") true] 0 0 2 0 0 [] [] false
                  true [] (mkPluginManager [] []) (mkFileExplorer [] 0) false)
               (str "w") ;;
       Editor.executeCommand (fst st) (snd st) (str "q")) /\
    running e' = false /\
    Editor.getCurrentBuffer e'
    = Done (mkBuffer (lines (mkBuffer [str "ab"] (str "f") true))
              (filepath (mkBuffer [str "ab"] (str "f") true)) false) /\
    statusMessage e' = str "File saved".
Proof.
  apply (wq_always_quits scratch_world
           (mkEditor [mkBuffer [str "ab"] (str "f") true] 0 0 2 0 0 [] [] false true []
              (mkPluginManager [] []) (mkFileExplorer [] 0) false)
           (mkBuffer [str "ab"] (str "f") true)).
  reflexivity.
Defined.

Lemma int_of_char_byte (c : ascii) :
  0 <= Z.of_N (N_of_ascii c) < 256 /\
  int_of_char c = (if Z.of_N (N_of_ascii c) <? 128
                   then Z.of_N (N_of_ascii c)
                   else Z.of_N (N_of_ascii c) - 256).
Proof.
  split; [| reflexivity].
  pose proof (N_ascii_bounded c) as Hb. lia.
Qed.

(** X23: bytes that insert mode ignores.  A control byte other than
    Enter (below 0x20, Escape and Tab included) and every byte from 0x80
    up (plain [char] is signed, so these compare as negative) reach the
    plugins as a key press and have no other effect: nothing is inserted,
    and buffers, cursor, mode and file system stay as they are. *)
Theorem insert_mode_ignores_byte (w : World) (e : Editor) (c : ascii) :
  commandMode e = false ->
  N_of_ascii c <> 13%N ->
  (N_of_ascii c < 32 \/ 128 <= N_of_ascii c)%N ->
  Editor.processKeypress w e (Some c)
  = Done (w, set_pluginManager e
               (PluginManager.notifyKeyPress (pluginManager e) (int_of_char c))).
Proof.
  intros Hmode Hcr Hbyte.
  destruct (int_of_char_byte c) as [Hrange Hk].
  assert (Hout : int_of_char c < 32 /\ int_of_char c <> 13).
  { rewrite Hk. destruct (Z.ltb_spec (Z.of_N (N_of_ascii c)) 128); lia. }
  unfold Editor.processKeypress. rewrite Hmode. cbv zeta.
  settle (int_of_char c =? 58) false. settle (int_of_char c =? 27 ) false
    || (destruct (int_of_char c =? 27); [reflexivity |]).
  settle (int_of_char c =? 127) false. settle (int_of_char c =? 13) false.
  settle (32 <=? int_of_char c) false. reflexivity.
Qed.

Lemma insert_mode_ignores_byte_witness :
  Editor.processKeypress scratch_world (Editor_new []) (Some (ascii_of_nat 195))
  = Done (scratch_world,
          set_pluginManager (Editor_new [])
            (PluginManager.notifyKeyPress (pluginManager (Editor_new []))
               (int_of_char (ascii_of_nat 195)))).
Proof.
  apply (insert_mode_ignores_byte scratch_world (Editor_new []) (ascii_of_nat 195)).
  - reflexivity.
  - discriminate.
  - right. vm_compute. discriminate.
Defined.

(** ** Editor: what stops the editor *)

Lemma putCurrentBuffer_running (e e' : Editor) (b : Buffer) :
  Editor.putCurrentBuffer e b = Done e' -> running e' = running e.
Proof.
  unfold Editor.putCurrentBuffer.
  destruct (vec_store _ _ _) as [bs | |]; simpl bind; try discriminate.
  now intros [= <-].
Qed.

Lemma insert_mode_running (e e' : Editor) (c : ascii) :
  Editor.insertChar e c = Done e' \/ Editor.deleteChar e = Done e' \/
  Editor.newLine e = Done e' ->
  running e' = running e.
Proof.
  intros [Hop | [Hop | Hop]].
  - unfold Editor.insertChar in Hop.
    destruct (Editor.getCurrentBuffer e) as [b | |]; simpl bind in Hop;
      try discriminate.
    destruct (Buffer.insertChar b _ _ c) as [b' | |]; simpl bind in Hop;
      try discriminate.
    destruct (Editor.putCurrentBuffer e b') as [e1 | |] eqn:Hput;
      simpl bind in Hop; try discriminate.
    injection Hop as <-. cbn [running set_pluginManager set_cursor].
    now apply (putCurrentBuffer_running e e1 b').
  - unfold Editor.deleteChar in Hop.
    destruct (0 <? cursorCol e); [| now injection Hop as <-].
    destruct (Editor.getCurrentBuffer e) as [b | |]; simpl bind in Hop;
      try discriminate.
    destruct (Buffer.deleteChar b _ _) as [b' | |]; simpl bind in Hop;
      try discriminate.
    destruct (Editor.putCurrentBuffer e b') as [e1 | |] eqn:Hput;
      simpl bind in Hop; try discriminate.
    injection Hop as <-. cbn [running set_pluginManager set_cursor].
    now apply (putCurrentBuffer_running e e1 b').
  - unfold Editor.newLine in Hop.
    destruct (Editor.getCurrentBuffer e) as [b | |]; simpl bind in Hop;
      try discriminate.
    destruct (Buffer.getLine b _) as [line | |]; simpl bind in Hop;
      try discriminate.
    destruct (str_substr line _ None) as [rest | |]; simpl bind in Hop;
      try discriminate.
    destruct (str_substr line 0 _) as [kept | |]; simpl bind in Hop;
      try discriminate.
    destruct (Buffer.insertLine b _) as [b' | |]; simpl bind in Hop;
      try discriminate.
    destruct (Editor.putCurrentBuffer e b') as [e1 | |] eqn:Hput;
      simpl bind in Hop; try discriminate.
    injection Hop as <-. cbn [running set_pluginManager set_cursor].
    now apply (putCurrentBuffer_running e e1 b').
Qed.

Lemma executeCommand_running
    (w w' : World) (e e' : Editor) (cmd : cstring) :
  Editor.executeCommand w e cmd = Done (w', e') ->
  running e' = running e \/ cmd = str "q" \/ cmd = str "wq".
Proof.
  unfold Editor.executeCommand.
  case_bool_decide; [auto |].
  case_bool_decide.
  { unfold Editor.saveFile.
    destruct (Editor.getCurrentBuffer e) as [b | |]; simpl bind;
      try discriminate.
    destruct (Editor.putCurrentBuffer e _) as [e1 | |] eqn:Hput;
      simpl bind; try discriminate.
    intros [= _ <-]. left. cbn [running set_statusMessage].
    exact (putCurrentBuffer_running _ _ _ Hput). }
  case_bool_decide; [auto |].
  destruct (str_substr cmd 0 (Some 2)) as [head | |]; simpl bind;
    try discriminate.
  case_bool_decide.
  { destruct (str_substr cmd 2 None) as [path | |]; simpl bind;
      try discriminate.
    intros [= _ <-]. now left. }
  case_bool_decide; intros [= _ <-]; now left.
Qed.

(** X24: only [q] and [wq] stop the editor.  If a key press turns
    [running] from true to false, then the editor was in command mode, the
    key was Enter, and the command line read [q] or [wq]; no key of insert
    mode and no other command ever stops it. *)
Theorem only_quit_commands_stop
    (w w' : World) (e e' : Editor) (key : option ascii) :
  Editor.processKeypress w e key = Done (w', e') ->
  running e = true -> running e' = false ->
  commandMode e = true /\
  (exists c, key = Some c /\ int_of_char c = 13) /\
  (commandBuffer e = str "q" \/ commandBuffer e = str "wq").
Proof.
  intros Hstep Hon Hoff.
  assert (Hchanged : running e' <> running e) by congruence.
  destruct key as [c |]; cbn [Editor.processKeypress] in Hstep;
    [| injection Hstep as <- <-; congruence].
  cbv zeta in Hstep. destruct (commandMode e).
  - destruct (Z.eqb_spec (int_of_char c) 13) as [H13 | H13].
    + destruct (Editor.executeCommand w e (commandBuffer e))
        as [[w1 e1] | |] eqn:Hexec; simpl bind in Hstep; try discriminate.
      injection Hstep as <- <-. cbn [running set_command] in Hchanged.
      destruct (executeCommand_running _ _ _ _ _ Hexec) as [Hsame | Hcmd];
        [contradiction |].
      split; [reflexivity |]. split; [eauto | exact Hcmd].
    + exfalso. apply Hchanged.
      destruct (int_of_char c =? 27); [now injection Hstep as <- <- |].
      destruct (int_of_char c =? 127); now injection Hstep as <- <-.
  - exfalso. apply Hchanged.
    set (e0 := set_pluginManager e _) in Hstep.
    change (running e) with (running e0).
    destruct (int_of_char c =? 58); [now injection Hstep as <- <- |].
    destruct (int_of_char c =? 27); [now injection Hstep as <- <- |].
    destruct (int_of_char c =? 127).
    { destruct (Editor.deleteChar e0) as [e1 | |] eqn:Hop; simpl bind in Hstep;
        try discriminate.
      injection Hstep as <- <-. apply (insert_mode_running e0 e1 c). auto. }
    destruct (int_of_char c =? 13).
    { destruct (Editor.newLine e0) as [e1 | |] eqn:Hop; simpl bind in Hstep;
        try discriminate.
      injection Hstep as <- <-. apply (insert_mode_running e0 e1 c). auto. }
    destruct ((32 <=? int_of_char c) && (int_of_char c <=? 126)).
    { destruct (Editor.insertChar e0 c) as [e1 | |] eqn:Hop; simpl bind in Hstep;
        try discriminate.
      injection Hstep as <- <-. apply (insert_mode_running e0 e1 c). auto. }
    now injection Hstep as <- <-.
Qed.

Lemma only_quit_commands_stop_witness :
  commandMode (set_command (Editor_new []) true (str "q")) = true /\
  (exists c, Some CR = Some c /\ int_of_char c = 13) /\
  (commandBuffer (set_command (Editor_new []) true (str "q")) = str "q" \/
   commandBuffer (set_command (Editor_new []) true (str "q")) = str "wq").
Proof.
  apply (only_quit_commands_stop scratch_world scratch_world
           (set_command (Editor_new []) true (str "q"))
           (set_command (set_running (set_command (Editor_new []) true (str "q")) false)
              false [])
           (Some CR)); reflexivity.
Defined.

(** X25: the modified flag outlives the edit.  After typing a
    printable key and erasing it again the buffer text is as before, yet
    [:q] is refused: [running] is unchanged and the status message is the
    unsaved-changes text. *)
Theorem quit_refused_after_type_and_erase
    (w : World) (e : Editor) (b : Buffer) (line : cstring) (c : ascii) :
  commandMode e = false ->
  commandBuffer e = [] ->
  cursor_at e b line ->
  insertable c = true ->
  size line < int_max ->
  exists e' b',
    press w e ([c; DEL] ++ ":"%char :: str "q" ++ [CR]) = Done (w, e') /\
    Editor.getCurrentBuffer e' = Done b' /\
    lines b' = lines b /\
    running e' = running e /\
    statusMessage e' = str "Unsaved changes! Use :q! to force quit".
Proof.
  intros Hmode Hbuf Hat Hc Hroom.
  destruct (type_backspace_state w e b line c Hmode Hat Hc Hroom)
    as (e2 & b2 & Hrun & Hat2 & Hlines & _ & Hmod & _ & _ & _ & Hmode2
        & Hbuf2 & Hrunning).
  destruct (cursor_at_bounds e2 b2 line Hat2) as (_ & Hget & _).
  rewrite press_app, Hrun. cbn [bind fst snd].
  rewrite (command_line_state w e2 (str "q") Hmode2 eq_refl).
  rewrite Hbuf2, Hbuf. cbn [app].
  unfold Editor.executeCommand. rewrite bool_decide_eq_true_2 by reflexivity.
  unfold Editor.quit.
  change (Editor.getCurrentBuffer (set_command _ _ _))
    with (Editor.getCurrentBuffer e2).
  rewrite Hget. cbn [bind]. unfold Buffer.isModified. rewrite Hmod.
  cbn [bind fst snd].
  eexists. exists b2. split; [reflexivity |]. split_and!.
  - exact Hget.
  - exact Hlines.
  - exact Hrunning.
  - reflexivity.
Qed.

Lemma quit_refused_after_type_and_erase_witness :
  exists e' b',
    press scratch_world (Editor_new [])
      (["x"%char; DEL] ++ ":"%char :: str "q" ++ [CR]) = Done (scratch_world, e') /\
    Editor.getCurrentBuffer e' = Done b' /\
    lines b' = lines Buffer_default /\
    running e' = running (Editor_new []) /\
    statusMessage e' = str "Unsaved changes! Use :q! to force quit".
Proof.
  apply (quit_refused_after_type_and_erase scratch_world (Editor_new [])
           Buffer_default [] "x").
  - reflexivity.
  - reflexivity.
  - unfold cursor_at, size, int_max. cbn. repeat split; lia.
  - reflexivity.
  - unfold size, int_max. cbn. lia.
Defined.

(** ** Editor: what a key press leaves alone *)

Lemma others_kept_same (e e' : Editor) :
  buffers e' = buffers e -> others_kept e e'.
Proof. intros H. unfold others_kept. rewrite H. auto. Qed.

Lemma others_kept_put (e e1 : Editor) (b : Buffer) :
  Editor.putCurrentBuffer e b = Done e1 -> others_kept e e1.
Proof.
  unfold Editor.putCurrentBuffer.
  destruct (vec_store _ _ _) as [bs | |] eqn:Hst; simpl bind; try discriminate.
  intros [= <-]. destruct (vec_store_frame _ _ _ _ Hst) as [Hlen Hother].
  unfold others_kept. cbn [buffers set_buffers]. rewrite Hlen. auto.
Qed.

Lemma others_kept_insert_mode (e e' : Editor) (c : ascii) :
  Editor.insertChar e c = Done e' \/ Editor.deleteChar e = Done e' \/
  Editor.newLine e = Done e' ->
  others_kept e e'.
Proof.
  intros [Hop | [Hop | Hop]].
  - unfold Editor.insertChar in Hop.
    destruct (Editor.getCurrentBuffer e) as [b | |]; simpl bind in Hop;
      try discriminate.
    destruct (Buffer.insertChar b _ _ c) as [b' | |]; simpl bind in Hop;
      try discriminate.
    destruct (Editor.putCurrentBuffer e b') as [e1 | |] eqn:Hput;
      simpl bind in Hop; try discriminate.
    injection Hop as <-. exact (others_kept_put _ _ _ Hput).
  - unfold Editor.deleteChar in Hop.
    destruct (0 <? cursorCol e);
      [| injection Hop as <-; now apply others_kept_same].
    destruct (Editor.getCurrentBuffer e) as [b | |]; simpl bind in Hop;
      try discriminate.
    destruct (Buffer.deleteChar b _ _) as [b' | |]; simpl bind in Hop;
      try discriminate.
    destruct (Editor.putCurrentBuffer e b') as [e1 | |] eqn:Hput;
      simpl bind in Hop; try discriminate.
    injection Hop as <-. exact (others_kept_put _ _ _ Hput).
  - unfold Editor.newLine in Hop.
    destruct (Editor.getCurrentBuffer e) as [b | |]; simpl bind in Hop;
      try discriminate.
    destruct (Buffer.getLine b _) as [line | |]; simpl bind in Hop;
      try discriminate.
    destruct (str_substr line _ None) as [rest | |]; simpl bind in Hop;
      try discriminate.
    destruct (str_substr line 0 _) as [kept | |]; simpl bind in Hop;
      try discriminate.
    destruct (Buffer.insertLine b _) as [b' | |]; simpl bind in Hop;
      try discriminate.
    destruct (Editor.putCurrentBuffer e b') as [e1 | |] eqn:Hput;
      simpl bind in Hop; try discriminate.
    injection Hop as <-. exact (others_kept_put _ _ _ Hput).
Qed.

Lemma saveFile_effect (w w' : World) (e e' : Editor) :
  Editor.saveFile w e = Done (w', e') ->
  others_kept e e' /\ currentBuffer e' = currentBuffer e /\
  exists b, Editor.getCurrentBuffer e = Done b /\
            w' = write_file w (filepath b) (Buffer.file_image (lines b)).
Proof.
  unfold Editor.saveFile.
  destruct (Editor.getCurrentBuffer e) as [b | |]; simpl bind;
    try discriminate.
  cbn [Buffer.save].
  destruct (Editor.putCurrentBuffer e _) as [e1 | |] eqn:Hput;
    simpl bind; try discriminate.
  intros [= <- <-]. split; [exact (others_kept_put _ _ _ Hput) |].
  split; [| eauto].
  unfold Editor.putCurrentBuffer in Hput.
  destruct (vec_store _ _ _); simpl bind in Hput; try discriminate.
  now injection Hput as <-.
Qed.

Lemma quit_effect (e e' : Editor) :
  Editor.quit e = Done e' ->
  buffers e' = buffers e /\ currentBuffer e' = currentBuffer e.
Proof.
  unfold Editor.quit.
  destruct (Editor.getCurrentBuffer e) as [b | |]; simpl bind;
    try discriminate.
  destruct (Buffer.isModified b); now intros [= <-].
Qed.

Lemma executeCommand_effect
    (w w' : World) (e e' : Editor) (cmd : cstring) :
  Editor.executeCommand w e cmd = Done (w', e') ->
  others_kept e e' /\
  (w' = w \/
   exists b, Editor.getCurrentBuffer e = Done b /\
             w' = write_file w (filepath b) (Buffer.file_image (lines b))).
Proof.
  unfold Editor.executeCommand.
  case_bool_decide.
  { destruct (Editor.quit e) as [e1 | |] eqn:Hq; simpl bind; try discriminate.
    intros [= <- <-]. split; [| now left].
    apply others_kept_same. now apply quit_effect. }
  case_bool_decide.
  { intros Hs. apply saveFile_effect in Hs as (Hk & _ & Hw). auto. }
  case_bool_decide.
  { destruct (Editor.saveFile w e) as [[w1 e1] | |] eqn:Hs; simpl bind;
      try discriminate.
    destruct (Editor.quit e1) as [e2 | |] eqn:Hq; simpl bind; try discriminate.
    intros [= <- <-]. apply saveFile_effect in Hs as (Hk & _ & Hw).
    apply quit_effect in Hq as [Hb _]. split; [| auto].
    unfold others_kept in *. now rewrite Hb. }
  destruct (str_substr cmd 0 (Some 2)) as [head | |]; simpl bind;
    try discriminate.
  case_bool_decide.
  { destruct (str_substr cmd 2 None) as [path | |]; simpl bind;
      try discriminate.
    intros [= <- <-]. split; [| now left].
    unfold others_kept, Editor.openFile.
    cbn [buffers set_cursor set_buffers]. rewrite length_app. split; [lia |].
    intros i _ Hi. now apply lookup_app_l. }
  case_bool_decide; intros [= <- <-]; (split; [| now left]);
    now apply others_kept_same.
Qed.

Lemma keypress_effect
    (w w' : World) (e e' : Editor) (key : option ascii) :
  Editor.processKeypress w e key = Done (w', e') ->
  others_kept e e' /\
  (w' = w \/
   commandMode e = true /\
   exists b, Editor.getCurrentBuffer e = Done b /\
             w' = write_file w (filepath b) (Buffer.file_image (lines b))).
Proof.
  intros Hstep.
  destruct key as [c |]; cbn [Editor.processKeypress] in Hstep;
    [| injection Hstep as <- <-; split; [now apply others_kept_same | now left]].
  cbv zeta in Hstep. destruct (commandMode e).
  - destruct (int_of_char c =? 13).
    { destruct (Editor.executeCommand w e (commandBuffer e))
        as [[w1 e1] | |] eqn:Hexec; simpl bind in Hstep; try discriminate.
      injection Hstep as <- <-.
      destruct (executeCommand_effect _ _ _ _ _ Hexec) as [Hk Hw].
      split; [exact Hk |]. destruct Hw as [-> | Hw]; [now left | now right]. }
    destruct (int_of_char c =? 27);
      [injection Hstep as <- <-; split;
       [now apply others_kept_same | now left] |].
    destruct (int_of_char c =? 127); injection Hstep as <- <-;
      (split; [now apply others_kept_same | now left]).
  - set (e0 := set_pluginManager e _) in Hstep.
    assert (Hfrom : forall e1, others_kept e0 e1 -> others_kept e e1)
      by (intros e1 H; exact H).
    destruct (int_of_char c =? 58);
      [injection Hstep as <- <-; split;
       [now apply others_kept_same | now left] |].
    destruct (int_of_char c =? 27);
      [injection Hstep as <- <-; split;
       [now apply others_kept_same | now left] |].
    destruct (int_of_char c =? 127).
    { destruct (Editor.deleteChar e0) as [e1 | |] eqn:Hop; simpl bind in Hstep;
        try discriminate.
      injection Hstep as <- <-. split; [| now left].
      apply Hfrom, (others_kept_insert_mode e0 e1 c). auto. }
    destruct (int_of_char c =? 13).
    { destruct (Editor.newLine e0) as [e1 | |] eqn:Hop; simpl bind in Hstep;
        try discriminate.
      injection Hstep as <- <-. split; [| now left].
      apply Hfrom, (others_kept_insert_mode e0 e1 c). auto. }
    destruct ((32 <=? int_of_char c) && (int_of_char c <=? 126)).
    { destruct (Editor.insertChar e0 c) as [e1 | |] eqn:Hop; simpl bind in Hstep;
        try discriminate.
      injection Hstep as <- <-. split; [| now left].
      apply Hfrom, (others_kept_insert_mode e0 e1 c). auto. }
    injection Hstep as <- <-. split; [now apply others_kept_same | now left].
Qed.

(** X26: a key press never touches a buffer other than the current
    one.  Whatever the key and the mode, when [processKeypress] returns no
    buffer has been dropped and every buffer other than the current one is
    unchanged; a new buffer can only be appended. *)
Theorem keypress_keeps_other_buffers
    (w w' : World) (e e' : Editor) (key : option ascii) :
  Editor.processKeypress w e key = Done (w', e') ->
  others_kept e e'.
Proof. intros Hstep. now apply (keypress_effect w w' e e' key). Qed.

Lemma keypress_keeps_other_buffers_witness :
  others_kept
    (mkEditor [mkBuffer [str "a"] (str "f") false; mkBuffer [[]] [] false]
       1 0 0 0 0 [] [] false true [] (mkPluginManager [] [])
       (mkFileExplorer [] 0) false)
    (mkEditor [mkBuffer [str "a"] (str "f") false; mkBuffer [str "x"] [] true]
       1 0 1 0 0 [] [] false true [] (mkPluginManager [] [])
       (mkFileExplorer [] 0) false).
Proof.
  apply (keypress_keeps_other_buffers scratch_world scratch_world
           (mkEditor [mkBuffer [str "a"] (str "f") false; mkBuffer [[]] [] false]
              1 0 0 0 0 [] [] false true [] (mkPluginManager [] [])
              (mkFileExplorer [] 0) false)
           _ (Some "x"%char)).
  reflexivity.
Defined.

(** X27: the only file a key press can write is the current buffer's.
    When [processKeypress] returns, the file system is as before, or the
    editor was in command mode and the file system is the old one with the
    current buffer's lines, each followed by a newline, written to the
    current buffer's path (if that path can be written). *)
Theorem keypress_writes_only_current_file
    (w w' : World) (e e' : Editor) (key : option ascii) :
  Editor.processKeypress w e key = Done (w', e') ->
  w' = w \/
  commandMode e = true /\
  exists b, Editor.getCurrentBuffer e = Done b /\
            w' = write_file w (filepath b) (Buffer.file_image (lines b)).
Proof. intros Hstep. now apply (keypress_effect w w' e e' key). Qed.

Lemma keypress_writes_only_current_file_witness :
  write_file scratch_world [] [newline] = scratch_world \/
  commandMode (set_command (Editor_new []) true (str "w")) = true /\
  exists b,
    Editor.getCurrentBuffer (set_command (Editor_new []) true (str "w")) = Done b /\
    write_file scratch_world [] [newline]
    = write_file scratch_world (filepath b) (Buffer.file_image (lines b)).
Proof.
  apply (keypress_writes_only_current_file scratch_world
           (write_file scratch_world [] [newline])
           (set_command (Editor_new []) true (str "w"))
           (set_command
              (set_statusMessage
                 (set_buffers (set_command (Editor_new []) true (str "w"))
                    [mkBuffer [[]] [] false] 0)
                 (str "File saved"))
              false [])
           (Some CR)).
  reflexivity.
Defined.

(** ** Buffer: removing a line *)

(** X28: [deleteLine] on a valid row of a buffer with at least two lines
    returns, marks the buffer modified and removes exactly that line: the
    lines above stay where they are and the lines below move up by one. *)
Theorem deleteLine_shifts_lines (b : Buffer) (row : Z) :
  2 <= size (lines b) -> 0 <= row < size (lines b) ->
  exists b',
    Buffer.deleteLine b row = Done b' /\
    modified b' = true /\
    size (lines b') = size (lines b) - 1 /\
    (forall i, (i < Z.to_nat row)%nat -> lines b' !! i = lines b !! i) /\
    (forall i, (Z.to_nat row <= i)%nat -> lines b' !! i = lines b !! S i).
Proof.
  intros Htwo Hrow. unfold Buffer.deleteLine, vec_erase.
  settle (size (lines b) <=? 1) false.
  settle (0 <=? row) true. settle (row <? size (lines b)) true.
  simpl bind. eexists. split; [reflexivity |]. cbn [lines modified].
  split_and!.
  - reflexivity.
  - unfold size in *. rewrite length_delete; [lia |].
    apply lookup_lt_is_Some. lia.
  - intros i Hi. now apply list_lookup_delete_lt.
  - intros i Hi. now apply list_lookup_delete_ge.
Qed.

Lemma deleteLine_shifts_lines_witness :
  exists b',
    Buffer.deleteLine (mkBuffer [str "a"; str "b"; str "c"] [] false) 1 = Done b' /\
    modified b' = true /\
    size (lines b') = size [str "a"; str "b"; str "c"] - 1 /\
    (forall i, (i < Z.to_nat 1)%nat ->
       lines b' !! i = [str "a"; str "b"; str "c"] !! i) /\
    (forall i, (Z.to_nat 1 <= i)%nat ->
       lines b' !! i = [str "a"; str "b"; str "c"] !! S i).
Proof.
  apply (deleteLine_shifts_lines (mkBuffer [str "a"; str "b"; str "c"] [] false) 1).
  - unfold size. cbn. lia.
  - unfold size. cbn. lia.
Defined.

(** ** Editor: what the plugins are told *)

Lemma insert_mode_plugins (e e' : Editor) (c : ascii) :
  Editor.insertChar e c = Done e' \/ Editor.newLine e = Done e' \/
  (0 < cursorCol e /\ Editor.deleteChar e = Done e') ->
  pluginManager e' = PluginManager.notifyBufferChange (pluginManager e).
Proof.
  assert (Hput : forall e0 e1 b, Editor.putCurrentBuffer e0 b = Done e1 ->
                   pluginManager e1 = pluginManager e0).
  { intros e0 e1 b. unfold Editor.putCurrentBuffer.
    destruct (vec_store _ _ _); simpl bind; try discriminate.
    now intros [= <-]. }
  intros [Hop | [Hop | [Hpos Hop]]].
  - unfold Editor.insertChar in Hop.
    destruct (Editor.getCurrentBuffer e) as [b | |]; simpl bind in Hop;
      try discriminate.
    destruct (Buffer.insertChar b _ _ c) as [b' | |]; simpl bind in Hop;
      try discriminate.
    destruct (Editor.putCurrentBuffer e b') as [e1 | |] eqn:He1;
      simpl bind in Hop; try discriminate.
    injection Hop as <-. cbn [pluginManager set_pluginManager set_cursor].
    now rewrite (Hput _ _ _ He1).
  - unfold Editor.newLine in Hop.
    destruct (Editor.getCurrentBuffer e) as [b | |]; simpl bind in Hop;
      try discriminate.
    destruct (Buffer.getLine b _) as [line | |]; simpl bind in Hop;
      try discriminate.
    destruct (str_substr line _ None) as [rest | |]; simpl bind in Hop;
      try discriminate.
    destruct (str_substr line 0 _) as [kept | |]; simpl bind in Hop;
      try discriminate.
    destruct (Buffer.insertLine b _) as [b' | |]; simpl bind in Hop;
      try discriminate.
    destruct (Editor.putCurrentBuffer e b') as [e1 | |] eqn:He1;
      simpl bind in Hop; try discriminate.
    injection Hop as <-. cbn [pluginManager set_pluginManager set_cursor].
    now rewrite (Hput _ _ _ He1).
  - unfold Editor.deleteChar in Hop.
    apply Z.ltb_lt in Hpos. rewrite Hpos in Hop.
    destruct (Editor.getCurrentBuffer e) as [b | |]; simpl bind in Hop;
      try discriminate.
    destruct (Buffer.deleteChar b _ _) as [b' | |]; simpl bind in Hop;
      try discriminate.
    destruct (Editor.putCurrentBuffer e b') as [e1 | |] eqn:He1;
      simpl bind in Hop; try discriminate.
    injection Hop as <-. cbn [pluginManager set_pluginManager set_cursor].
    now rewrite (Hput _ _ _ He1).
Qed.

Lemma announces_change_cases (e : Editor) (c : ascii) :
  announces_change e c
  = (let k := int_of_char c in
     if k =? 58 then false
     else if k =? 27 then false
     else if k =? 127 then 0 <? cursorCol e
     else if k =? 13 then true
     else (32 <=? k) && (k <=? 126)).
Proof.
  unfold announces_change, insertable. cbv zeta.
  generalize (int_of_char c). intros k.
  destruct (Z.eqb_spec k 58) as [-> | H58]; [reflexivity |].
  destruct (Z.eqb_spec k 27) as [-> | H27]; [reflexivity |].
  destruct (Z.eqb_spec k 127) as [-> | H127].
  { cbn. now rewrite !orb_false_r. }
  destruct (Z.eqb_spec k 13) as [-> | H13]; [reflexivity |].
  cbn [andb orb negb]. now rewrite andb_true_r.
Qed.

(** X29: what insert mode tells the plugins.  For every key for which
    [processKeypress] returns in insert mode, the registry is unchanged and
    the hook calls made are: the key press, to every plugin in registry
    order, and then, exactly when the key is DEL with the cursor past
    column 0, Enter, or an inserted key, a buffer change to every
    plugin. *)
Theorem insert_mode_notifications
    (w w' : World) (e e' : Editor) (c : ascii) :
  commandMode e = false ->
  Editor.processKeypress w e (Some c) = Done (w', e') ->
  plugins (pluginManager e') = plugins (pluginManager e) /\
  delivered (pluginManager e')
  = delivered (pluginManager e)
    ++ calls (pluginManager e) (KeyPress (int_of_char c))
    ++ (if announces_change e c then calls (pluginManager e) BufferChange
        else []).
Proof.
  intros Hmode. rewrite announces_change_cases.
  unfold Editor.processKeypress. rewrite Hmode. cbv zeta.
  set (k := int_of_char c).
  set (e0 := set_pluginManager e (PluginManager.notifyKeyPress (pluginManager e) k)).
  assert (Hquiet :
            plugins (pluginManager e0) = plugins (pluginManager e) /\
            delivered (pluginManager e0)
            = delivered (pluginManager e) ++ calls (pluginManager e) (KeyPress k)
              ++ []).
  { now rewrite app_nil_r. }
  assert (Hloud : forall e1,
            pluginManager e1 = PluginManager.notifyBufferChange (pluginManager e0) ->
            plugins (pluginManager e1) = plugins (pluginManager e) /\
            delivered (pluginManager e1)
            = delivered (pluginManager e) ++ calls (pluginManager e) (KeyPress k)
              ++ calls (pluginManager e) BufferChange).
  { intros e1 ->. split; [reflexivity |].
    unfold e0, PluginManager.notifyBufferChange, PluginManager.notifyKeyPress,
      PluginManager.notify, calls.
    cbn [pluginManager set_pluginManager plugins delivered].
    now rewrite <- app_assoc. }
  destruct (k =? 58); [now intros [= <- <-] |].
  destruct (k =? 27); [now intros [= <- <-] |].
  destruct (k =? 127).
  { change (cursorCol e) with (cursorCol e0).
    destruct (Editor.deleteChar e0) as [e1 | |] eqn:Hop; simpl bind;
      try discriminate.
    intros [= <- <-].
    destruct (Z.ltb_spec 0 (cursorCol e0)) as [Hpos | Hzero].
    - apply Hloud. apply (insert_mode_plugins e0 e1 c). auto.
    - unfold Editor.deleteChar in Hop.
      apply Z.ltb_ge in Hzero. rewrite Hzero in Hop. now injection Hop as <-. }
  destruct (k =? 13).
  { destruct (Editor.newLine e0) as [e1 | |] eqn:Hop; simpl bind;
      try discriminate.
    intros [= <- <-]. apply Hloud. apply (insert_mode_plugins e0 e1 c). auto. }
  destruct ((32 <=? k) && (k <=? 126)).
  - destruct (Editor.insertChar e0 c) as [e1 | |] eqn:Hop; simpl bind;
      try discriminate.
    intros [= <- <-]. apply Hloud. apply (insert_mode_plugins e0 e1 c). auto.
  - now intros [= <- <-].
Qed.

Lemma insert_mode_notifications_witness :
  plugins (mkPluginManager [str "p"; str "q"]
             [(str "p", KeyPress 13); (str "q", KeyPress 13);
              (str "p", BufferChange); (str "q", BufferChange)])
    = [str "p"; str "q"] /\
  delivered (mkPluginManager [str "p"; str "q"]
               [(str "p", KeyPress 13); (str "q", KeyPress 13);
                (str "p", BufferChange); (str "q", BufferChange)])
  = [] ++ calls (mkPluginManager [str "p"; str "q"] []) (KeyPress (int_of_char CR))
       ++ (if announces_change
                (mkEditor [Buffer_default] 0 0 0 0 0 [] [] false true []
                   (mkPluginManager [str "p"; str "q"] [])
                   (mkFileExplorer [] 0) false) CR
           then calls (mkPluginManager [str "p"; str "q"] []) BufferChange
           else []).
Proof.
  apply (insert_mode_notifications scratch_world scratch_world
           (mkEditor [Buffer_default] 0 0 0 0 0 [] [] false true []
              (mkPluginManager [str "p"; str "q"] [])
              (mkFileExplorer [] 0) false)
           (mkEditor [mkBuffer [[]; []] [] true] 0 1 0 0 0 [] [] false true []
              (mkPluginManager [str "p"; str "q"]
                 [(str "p", KeyPress 13); (str "q", KeyPress 13);
                  (str "p", BufferChange); (str "q", BufferChange)])
              (mkFileExplorer [] 0) false)
           CR).
  - reflexivity.
  - reflexivity.
Defined.
